(** * Browser agent control panel: Task API client, voice channel, session view

  A shallow embedding of the TypeScript sources of the control panel:
  the Task API client (lib/api/tasks), the voice browser page
  (WebSocket channel, speech recognition and synthesis) and the task
  page (planner-thought polling, cancel-goal handler).

  Conventions.
  - A JavaScript string is the sequence of its UTF-16 code units. The
    model holds the strings whose code units are all below 256, as a
    [string] with one character per code unit (code units 128 to 255 are
    the Latin-1 letters and signs: [e] with an acute accent is the one
    character of code 233, the no-break space the one of code 160).
    Lengths and positions therefore count code units, and the case
    mapping and the white-space test are the ones of ECMAScript on that
    range.
  - A JSON number is modelled when it is a safe integer (at most 2^53 - 1
    in absolute value), which a double holds exactly and prints in full;
    fractions and larger magnitudes have no counterpart in [json].
  - A promise is modelled by the value it settles to ([outcome]).
  - React state read by a closure is passed as an explicit snapshot; state
    written through a setter goes to the store that the next render reads. *)

From Stdlib Require Import ZArith List String Ascii Bool Lia DecimalString.
From Stdlib Require DecimalPos DecimalZ.
Import ListNotations.
Local Open Scope string_scope.
Local Open Scope Z_scope.
Set Warnings "-register-all".

(* ===================================================================== *)
(** ** JavaScript values and string primitives *)
(* ===================================================================== *)

Module JS.

(** A JSON number that is a safe integer. *)
Record number : Type := mkNumber {
  number_value : Z;
  number_safe : (Z.abs number_value <=? 9007199254740991) = true
}.

(** The values [JSON.parse] can produce. An object is the list of its own
    properties in the order the engine enumerates them (keys are distinct
    after parsing). *)
Inductive json : Type :=
| JNull
| JBool (b : bool)
| JNum (n : number)
| JStr (s : string)
| JArr (items : list json)
| JObj (props : list (string * json)).

(** A JavaScript value that may be [undefined]. *)
Definition jsval : Type := option json.
Definition undefined : jsval := None.

(** Decimal rendering of an integer number, as [String(n)] gives it. *)
Definition string_of_Z (n : Z) : string :=
  NilZero.string_of_int (Z.to_int n).

(** ToBoolean. *)
Definition truthy (j : json) : bool :=
  match j with
  | JNull => false
  | JBool b => b
  | JNum n => negb (number_value n =? 0)
  | JStr s => negb (String.eqb s "")
  | JArr _ => true
  | JObj _ => true
  end.

Definition truthy_val (v : jsval) : bool :=
  match v with
  | None => false
  | Some j => truthy j
  end.

Fixpoint assoc (k : string) (props : list (string * json)) : jsval :=
  match props with
  | [] => None
  | (k', v) :: rest => if String.eqb k k' then Some v else assoc k rest
  end.

(** [Object.hasOwn(o, k)] on a parsed object. *)
Definition has_own (k : string) (props : list (string * json)) : bool :=
  match assoc k props with
  | Some _ => true
  | None => false
  end.

(** ToString, as used by template literals and by [new Error(v)]; [None]
    when the conversion throws a TypeError. A parsed object is converted
    through its [toString] property and then its [valueOf] property: an
    own [toString] key holds a parsed value, which is never callable, and
    [valueOf] (own and not callable, or inherited and returning the
    object) gives no primitive either, so the conversion throws; without
    that key the inherited [Object.prototype.toString] answers. An array
    is converted by [join], which prints [null] as nothing and converts
    the other elements in order. *)
Fixpoint toString (j : json) : option string :=
  match j with
  | JNull => Some "null"
  | JBool true => Some "true"
  | JBool false => Some "false"
  | JNum n => Some (string_of_Z (number_value n))
  | JStr s => Some s
  | JArr items =>
      (fix join (l : list json) : option string :=
         match l with
         | [] => Some ""
         | x :: rest =>
             match (match x with JNull => Some "" | _ => toString x end) with
             | None => None
             | Some sx =>
                 match rest with
                 | [] => Some sx
                 | _ =>
                     match join rest with
                     | None => None
                     | Some sr => Some (sx ++ "," ++ sr)
                     end
                 end
             end
         end) items
  | JObj props =>
      if has_own "toString" props then None else Some "[object Object]"
  end.

Definition toString_val (v : jsval) : option string :=
  match v with
  | None => Some "undefined"
  | Some j => toString j
  end.

(** Property read [o.k] on a parsed value: reading from [null] throws a
    TypeError ([None]); a primitive or an array has no such own property
    and gives [undefined]. *)
Definition get_prop (o : json) (k : string) : option jsval :=
  match o with
  | JNull => None
  | JObj props => Some (assoc k props)
  | _ => Some undefined
  end.

(** Property read on a value that may be [undefined]. *)
Definition get_prop_val (o : jsval) (k : string) : option jsval :=
  match o with
  | None => None
  | Some j => get_prop j k
  end.

(** [String.prototype.toLowerCase], code unit by code unit: the capital
    letters A to Z (65 to 90) and the capital letters of Latin-1 (192 to
    222, the multiplication sign 215 apart) are 32 below their small
    letters; every other code unit below 256 is its own lower case. *)
Definition lower_ascii (c : ascii) : ascii :=
  let n := nat_of_ascii c in
  if (andb (Nat.leb 65 n) (Nat.leb n 90))
     || (andb (andb (Nat.leb 192 n) (Nat.leb n 222)) (negb (Nat.eqb n 215)))
  then ascii_of_nat (n + 32) else c.

Fixpoint toLowerCase (s : string) : string :=
  match s with
  | EmptyString => EmptyString
  | String c rest => String (lower_ascii c) (toLowerCase rest)
  end.

(** [String.prototype.includes]. *)
Fixpoint includes (s sub : string) : bool :=
  if String.prefix sub s then true
  else match s with
       | EmptyString => false
       | String _ rest => includes rest sub
       end.

(** The code units below 256 that [trim] strips (WhiteSpace and
    LineTerminator of ECMAScript): TAB, LF, VT, FF, CR (9 to 13), SP (32)
    and the no-break space (160). The others it strips (U+FEFF, U+2028,
    U+2029 and the space separators from U+1680 on) are code units the
    strings of the model do not hold. *)
Definition is_space (c : ascii) : bool :=
  let n := nat_of_ascii c in
  orb (andb (Nat.leb 9 n) (Nat.leb n 13))
      (orb (Nat.eqb n 32) (Nat.eqb n 160)).

Fixpoint trimStart (s : string) : string :=
  match s with
  | EmptyString => EmptyString
  | String c rest => if is_space c then trimStart rest else s
  end.

Fixpoint trimEnd (s : string) : string :=
  match s with
  | EmptyString => EmptyString
  | String c rest =>
      match trimEnd rest with
      | EmptyString => if is_space c then EmptyString else String c EmptyString
      | t => String c t
      end
  end.

Definition trim (s : string) : string := trimEnd (trimStart s).

(** [s.substring(a, b)] for [0 <= a <= b]; positions count code units. *)
Definition substring (a b : nat) (s : string) : string :=
  String.substring a (Nat.min b (String.length s) - a) s.

(** [Array.prototype.join]. *)
Fixpoint join (sep : string) (l : list string) : string :=
  match l with
  | [] => ""
  | [x] => x
  | x :: rest => x ++ sep ++ join sep rest
  end.

(** [findIndex]; [None] stands for -1. *)
Fixpoint findIndex {A : Type} (p : A -> bool) (l : list A) : option nat :=
  match l with
  | [] => None
  | x :: rest =>
      if p x then Some 0%nat
      else match findIndex p rest with
           | Some i => Some (S i)
           | None => None
           end
  end.

(** *** [JSON.stringify] *)

Definition hex_digit (n : nat) : ascii :=
  if Nat.ltb n 10 then ascii_of_nat (48 + n) else ascii_of_nat (87 + n).

Definition escape_char (c : ascii) : string :=
  let n := nat_of_ascii c in
  if Nat.eqb n 34 then "\" ++ String c ""
  else if Nat.eqb n 92 then "\\"
  else if Nat.eqb n 8 then "\b"
  else if Nat.eqb n 9 then "\t"
  else if Nat.eqb n 10 then "\n"
  else if Nat.eqb n 12 then "\f"
  else if Nat.eqb n 13 then "\r"
  else if Nat.ltb n 32 then
    "\u00" ++ String (hex_digit (n / 16)) (String (hex_digit (n mod 16)) "")
  else String c "".

Fixpoint escape (s : string) : string :=
  match s with
  | EmptyString => EmptyString
  | String c rest => escape_char c ++ escape rest
  end.

Definition quote (s : string) : string :=
  String (ascii_of_nat 34) (escape s) ++ String (ascii_of_nat 34) "".

Fixpoint stringify (j : json) : string :=
  match j with
  | JNull => "null"
  | JBool true => "true"
  | JBool false => "false"
  | JNum n => string_of_Z (number_value n)
  | JStr s => quote s
  | JArr items =>
      "[" ++
      (fix go (l : list json) : string :=
         match l with
         | [] => ""
         | x :: rest =>
             match rest with
             | [] => stringify x
             | _ => stringify x ++ "," ++ go rest
             end
         end) items ++ "]"
  | JObj props =>
      "{" ++
      (fix go (l : list (string * json)) : string :=
         match l with
         | [] => ""
         | (k, v) :: rest =>
             match rest with
             | [] => quote k ++ ":" ++ stringify v
             | _ => quote k ++ ":" ++ stringify v ++ "," ++ go rest
             end
         end) props ++ "}"
  end.

(** [JSON.stringify(v)] inside a template literal: [undefined] prints as
    the word. *)
Definition stringify_val (v : jsval) : string :=
  match v with
  | None => "undefined"
  | Some j => stringify j
  end.

End JS.

(* ===================================================================== *)
(** ** Task API client (lib/api/tasks) *)
(* ===================================================================== *)

Module TaskApi.
Import JS.

(** What the client observes of a [Response]: the status code and the
    result of [response.json()] ([None] when the body is not JSON). *)
Record Response : Type := mkResponse {
  status : Z;
  body : option json
}.

(** [response.ok]. *)
Definition ok (r : Response) : bool :=
  andb (200 <=? status r) (status r <=? 299).

Inductive exn : Type :=
| Error (message : string)      (* new Error(message) *)
| SyntaxError                   (* response.json() on a non-JSON body *)
| TypeError.                    (* fetch rejected, or a value that
                                   cannot be converted to a string *)

(** The settled value of the promise an async helper returns. *)
Inductive outcome : Type :=
| Resolved (v : json)
| Rejected (e : exn).

(** [await response.json()]. *)
Definition response_json (r : Response) : outcome :=
  match body r with
  | Some j => Resolved j
  | None => Rejected SyntaxError
  end.

(** The [try { errorData = await response.json();
               errorDetail = errorData.detail || errorDetail } catch {}]
    block shared by [createTask] and [handleApiResponse]: the value of
    [errorDetail] after it. *)
Definition error_detail (r : Response) (fallback : string) : json :=
  match body r with
  | None => JStr fallback                    (* json() threw *)
  | Some errorData =>
      match get_prop errorData "detail" with
      | None => JStr fallback                (* null.detail threw *)
      | Some detail =>
          match detail with
          | Some d => if truthy d then d else JStr fallback
          | None => JStr fallback
          end
      end
  end.

(** [throw new Error(errorDetail)], outside the [try]: the constructor
    converts its argument to a string, and the conversion may throw. *)
Definition new_Error (errorDetail : json) : exn :=
  match toString errorDetail with
  | Some message => Error message
  | None => TypeError
  end.

Definition handleApiResponse (response : Response) (context : string)
  : outcome :=
  if negb (ok response) then
    let errorDetail :=
      "HTTP error! status: " ++ string_of_Z (status response)
        ++ " in " ++ context in
    Rejected (new_Error (error_detail response errorDetail))
  else if status response =? 204 then Resolved JNull
  else response_json response.

(** The result of [await fetch(...)]: a response, or a transport failure. *)
Definition fetched : Type := option Response.

Definition createTask (f : fetched) : outcome :=
  match f with
  | None => Rejected TypeError
  | Some response =>
      if negb (ok response) then
        let errorDetail :=
          "HTTP error! status: " ++ string_of_Z (status response) in
        Rejected (new_Error (error_detail response errorDetail))
      else response_json response
  end.

Definition fetchTaskStatus (f : fetched) : outcome :=
  match f with
  | None => Rejected TypeError
  | Some response =>
      if negb (ok response) then
        Rejected (Error ("Failed to fetch status: "
                           ++ string_of_Z (status response)))
      else response_json response
  end.

(** [fetchActionData] and [fetchStepData] differ in the URL and in the
    context string only; their [catch] re-throws. *)
Definition fetch_or_null (context : string) (f : fetched) : outcome :=
  match f with
  | None => Rejected TypeError
  | Some response =>
      if status response =? 204 then Resolved JNull
      else handleApiResponse response context
  end.

Definition fetchActionData : fetched -> outcome :=
  fetch_or_null "fetchActionData".
Definition fetchStepData : fetched -> outcome :=
  fetch_or_null "fetchStepData".

Definition via_handler (context : string) (f : fetched) : outcome :=
  match f with
  | None => Rejected TypeError
  | Some response => handleApiResponse response context
  end.

Definition fetchPlannerThoughts := via_handler "fetchPlannerThoughts".
(** [markPlannerThoughtsSeen] awaits the handler and re-throws; its own
    result is [void], modelled by [JNull]. *)
Definition markPlannerThoughtsSeen (f : fetched) : outcome :=
  match via_handler "markPlannerThoughtsSeen" f with
  | Resolved _ => Resolved JNull
  | Rejected e => Rejected e
  end.
Definition resumeTask := via_handler "resumeTask".
Definition approveAction := via_handler "approveAction".
Definition rejectAction := via_handler "rejectAction".
Definition cancelGoal := via_handler "cancelGoal".

(** The ten HTTP helpers. *)
Inductive helper : Type :=
| CreateTask | FetchTaskStatus | FetchActionData | FetchStepData
| FetchPlannerThoughts | MarkPlannerThoughtsSeen | ResumeTask
| ApproveAction | RejectAction | CancelGoal.

Definition call (h : helper) : fetched -> outcome :=
  match h with
  | CreateTask => createTask
  | FetchTaskStatus => fetchTaskStatus
  | FetchActionData => fetchActionData
  | FetchStepData => fetchStepData
  | FetchPlannerThoughts => fetchPlannerThoughts
  | MarkPlannerThoughtsSeen => markPlannerThoughtsSeen
  | ResumeTask => resumeTask
  | ApproveAction => approveAction
  | RejectAction => rejectAction
  | CancelGoal => cancelGoal
  end.

(** The generic message a helper builds from the status code alone. *)
Definition generic_message (h : helper) (code : Z) : string :=
  match h with
  | CreateTask => "HTTP error! status: " ++ string_of_Z code
  | FetchTaskStatus => "Failed to fetch status: " ++ string_of_Z code
  | FetchActionData =>
      "HTTP error! status: " ++ string_of_Z code ++ " in fetchActionData"
  | FetchStepData =>
      "HTTP error! status: " ++ string_of_Z code ++ " in fetchStepData"
  | FetchPlannerThoughts =>
      "HTTP error! status: " ++ string_of_Z code ++ " in fetchPlannerThoughts"
  | MarkPlannerThoughtsSeen =>
      "HTTP error! status: " ++ string_of_Z code
        ++ " in markPlannerThoughtsSeen"
  | ResumeTask =>
      "HTTP error! status: " ++ string_of_Z code ++ " in resumeTask"
  | ApproveAction =>
      "HTTP error! status: " ++ string_of_Z code ++ " in approveAction"
  | RejectAction =>
      "HTTP error! status: " ++ string_of_Z code ++ " in rejectAction"
  | CancelGoal =>
      "HTTP error! status: " ++ string_of_Z code ++ " in cancelGoal"
  end.

(** The response body is a JSON object whose [detail] field is [d]. *)
Definition has_detail (r : Response) (d : json) : Prop :=
  exists props, body r = Some (JObj props) /\ assoc "detail" props = Some d.

(** A failed response whose body carries a [detail]. *)
Definition boom : Response :=
  mkResponse 500 (Some (JObj [("detail", JStr "boom")])).

(** An array element that converts to [[object Object]]: anything but an
    object with an own [toString] key. *)
Definition plain (x : json) : bool :=
  match x with
  | JObj props => negb (has_own "toString" props)
  | _ => true
  end.

End TaskApi.

(* ===================================================================== *)
(** ** Voice browser page: channel, recognition, synthesis *)
(* ===================================================================== *)

Module Voice.
Import JS.

(** *** Data *)

(** A [SpeechSynthesisVoice], as far as the page reads it. *)
Record SpeechSynthesisVoice : Type := mkVoice {
  name : string;
  default : bool
}.

(** A [SpeechSynthesisUtterance]; rate, pitch and volume in tenths
    (0.8 is 8, 1 is 10). *)
Record SpeechSynthesisUtterance : Type := mkUtterance {
  u_text : string;
  u_rate : Z;
  u_pitch : Z;
  u_volume : Z;
  u_voice : option SpeechSynthesisVoice
}.

(** An entry of the chat history. *)
Record Message : Type := mkMessage {
  type : string;
  text : jsval;
  timestamp : Z
}.

(** [WebSocket.readyState]. *)
Inductive ReadyState : Type := CONNECTING | OPEN | CLOSING | CLOSED.

(** An outbound frame, before [JSON.stringify]. *)
Record Frame : Type := mkFrame {
  frame_type : string;
  frame_text : string
}.

(** The closures handed to [setTimeout]. *)
Inductive Callback : Type :=
| CallConnectToBackend
| CallSpeak (text : string) (isSystem priority : bool)
| CallStartSpeech (text : string) (isSystem priority : bool)
| CallRetrySpeech (text : string).

(** The [useState] cells of the component. A closure reads the cells of
    the render that created it; a setter writes the cells the next render
    will read. *)
Record State : Type := mkState {
  isConnected : bool;
  isListening : bool;
  transcript : string;
  messages : list Message;
  isProcessing : bool;
  isSpeaking : bool;
  availableVoices : list SpeechSynthesisVoice;
  selectedVoiceIndex : nat;
  speechEnabled : bool
}.

(** The [useRef] cells and the host objects the page drives. *)
Record World : Type := mkWorld {
  state : State;
  wsRef : option ReadyState;
  reconnectTimeoutRef : option nat;
  reconnectAttemptsRef : nat;
  currentUtteranceRef : option SpeechSynthesisUtterance;
  processedMessagesRef : list string;   (* Set<string>, insertion order *)
  lastResultMessageRef : string;
  (* window.speechSynthesis: absent, or its queue of utterances *)
  speechSynthesis : option (list SpeechSynthesisUtterance);
  getVoices : list SpeechSynthesisVoice;
  timers : list (Z * Callback);         (* setTimeout(callback, delay) *)
  sent : list Frame                     (* frames passed to ws.send *)
}.

(** *** Setters *)

Definition with_state (f : State -> State) (w : World) : World :=
  mkWorld (f (state w)) (wsRef w) (reconnectTimeoutRef w)
    (reconnectAttemptsRef w) (currentUtteranceRef w)
    (processedMessagesRef w) (lastResultMessageRef w) (speechSynthesis w)
    (getVoices w) (timers w) (sent w).

Definition setIsConnected (b : bool) : World -> World :=
  with_state (fun s =>
    mkState b (isListening s) (transcript s) (messages s) (isProcessing s)
      (isSpeaking s) (availableVoices s) (selectedVoiceIndex s)
      (speechEnabled s)).

Definition setTranscript (t : string) : World -> World :=
  with_state (fun s =>
    mkState (isConnected s) (isListening s) t (messages s) (isProcessing s)
      (isSpeaking s) (availableVoices s) (selectedVoiceIndex s)
      (speechEnabled s)).

Definition setMessages (f : list Message -> list Message)
  : World -> World :=
  with_state (fun s =>
    mkState (isConnected s) (isListening s) (transcript s) (f (messages s))
      (isProcessing s) (isSpeaking s) (availableVoices s)
      (selectedVoiceIndex s) (speechEnabled s)).

Definition setIsProcessing (b : bool) : World -> World :=
  with_state (fun s =>
    mkState (isConnected s) (isListening s) (transcript s) (messages s) b
      (isSpeaking s) (availableVoices s) (selectedVoiceIndex s)
      (speechEnabled s)).

Definition setIsSpeaking (b : bool) : World -> World :=
  with_state (fun s =>
    mkState (isConnected s) (isListening s) (transcript s) (messages s)
      (isProcessing s) b (availableVoices s) (selectedVoiceIndex s)
      (speechEnabled s)).

Definition setAvailableVoices (v : list SpeechSynthesisVoice)
  : World -> World :=
  with_state (fun s =>
    mkState (isConnected s) (isListening s) (transcript s) (messages s)
      (isProcessing s) (isSpeaking s) v (selectedVoiceIndex s)
      (speechEnabled s)).

Definition setSelectedVoiceIndex (i : nat) : World -> World :=
  with_state (fun s =>
    mkState (isConnected s) (isListening s) (transcript s) (messages s)
      (isProcessing s) (isSpeaking s) (availableVoices s) i
      (speechEnabled s)).

Definition set_wsRef (r : option ReadyState) (w : World) : World :=
  mkWorld (state w) r (reconnectTimeoutRef w) (reconnectAttemptsRef w)
    (currentUtteranceRef w) (processedMessagesRef w)
    (lastResultMessageRef w) (speechSynthesis w) (getVoices w) (timers w)
    (sent w).

Definition set_reconnectAttemptsRef (n : nat) (w : World) : World :=
  mkWorld (state w) (wsRef w) (reconnectTimeoutRef w) n
    (currentUtteranceRef w) (processedMessagesRef w)
    (lastResultMessageRef w) (speechSynthesis w) (getVoices w) (timers w)
    (sent w).

Definition set_currentUtteranceRef (u : option SpeechSynthesisUtterance)
  (w : World) : World :=
  mkWorld (state w) (wsRef w) (reconnectTimeoutRef w)
    (reconnectAttemptsRef w) u (processedMessagesRef w)
    (lastResultMessageRef w) (speechSynthesis w) (getVoices w) (timers w)
    (sent w).

Definition set_processedMessagesRef (s : list string) (w : World) : World :=
  mkWorld (state w) (wsRef w) (reconnectTimeoutRef w)
    (reconnectAttemptsRef w) (currentUtteranceRef w) s
    (lastResultMessageRef w) (speechSynthesis w) (getVoices w) (timers w)
    (sent w).

Definition set_lastResultMessageRef (s : string) (w : World) : World :=
  mkWorld (state w) (wsRef w) (reconnectTimeoutRef w)
    (reconnectAttemptsRef w) (currentUtteranceRef w)
    (processedMessagesRef w) s (speechSynthesis w) (getVoices w) (timers w)
    (sent w).

Definition set_speechSynthesis
  (q : option (list SpeechSynthesisUtterance)) (w : World) : World :=
  mkWorld (state w) (wsRef w) (reconnectTimeoutRef w)
    (reconnectAttemptsRef w) (currentUtteranceRef w)
    (processedMessagesRef w) (lastResultMessageRef w) q (getVoices w)
    (timers w) (sent w).

(** [handle = setTimeout(callback, delay)]: the handle is the position of
    the new timer. *)
Definition setTimeout (cb : Callback) (delay : Z) (w : World)
  : nat * World :=
  (List.length (timers w),
   mkWorld (state w) (wsRef w) (reconnectTimeoutRef w)
     (reconnectAttemptsRef w) (currentUtteranceRef w)
     (processedMessagesRef w) (lastResultMessageRef w) (speechSynthesis w)
     (getVoices w) (timers w ++ [(delay, cb)])%list (sent w)).

Definition set_reconnectTimeoutRef (h : option nat) (w : World) : World :=
  mkWorld (state w) (wsRef w) h (reconnectAttemptsRef w)
    (currentUtteranceRef w) (processedMessagesRef w)
    (lastResultMessageRef w) (speechSynthesis w) (getVoices w) (timers w)
    (sent w).

(** [wsRef.current.send(JSON.stringify(frame))]. *)
Definition ws_send (f : Frame) (w : World) : World :=
  mkWorld (state w) (wsRef w) (reconnectTimeoutRef w)
    (reconnectAttemptsRef w) (currentUtteranceRef w)
    (processedMessagesRef w) (lastResultMessageRef w) (speechSynthesis w)
    (getVoices w) (timers w) (sent w ++ [f])%list.

(** [wsRef.current?.readyState === WebSocket.OPEN]. *)
Definition ws_open (w : World) : bool :=
  match wsRef w with
  | Some OPEN => true
  | _ => false
  end.

(** [window.speechSynthesis.cancel()] empties the queue;
    [window.speechSynthesis.speak(u)] appends to it. *)
Definition synth_cancel (w : World) : World :=
  match speechSynthesis w with
  | None => w
  | Some _ => set_speechSynthesis (Some []) w
  end.

Definition synth_speak (u : SpeechSynthesisUtterance) (w : World) : World :=
  match speechSynthesis w with
  | None => w
  | Some q => set_speechSynthesis (Some (q ++ [u])%list) w
  end.

(** *** The insertion-ordered [Set<string>] of seen message keys *)

Definition set_has (k : string) (s : list string) : bool :=
  existsb (String.eqb k) s.

Definition set_add (k : string) (s : list string) : list string :=
  if set_has k s then s else (s ++ [k])%list.

Fixpoint set_delete (k : string) (s : list string) : list string :=
  match s with
  | [] => []
  | x :: rest => if String.eqb k x then rest else x :: set_delete k rest
  end.

(** *** Component functions *)

Definition addMessage (now : Z) (type : string) (text : jsval)
  : World -> World :=
  setMessages (fun prev => (prev ++ [mkMessage type text now])%list).

Definition str (s : string) : jsval := Some (JStr s).

(** The predicate given to [voices.findIndex]. *)
Definition preferred (voice : SpeechSynthesisVoice) : bool :=
  includes (name voice) "Samantha" ||
  includes (name voice) "Victoria" ||
  includes (name voice) "Karen" ||
  includes (name voice) "Female" ||
  includes (name voice) "Google US English" ||
  includes (name voice) "Microsoft Zira" ||
  includes (name voice) "Alex" ||
  default voice.

Definition with_voice (v : option SpeechSynthesisVoice)
  (u : SpeechSynthesisUtterance) : SpeechSynthesisUtterance :=
  mkUtterance (u_text u) (u_rate u) (u_pitch u) (u_volume u) v.

Definition startSpeech (view : State) (text : string)
  (isSystem priority : bool) (w : World) : World :=
  let utterance := mkUtterance text 8 10 10 None in
  let '(utterance, w) :=
    if (List.length (availableVoices view) =? 0)%nat then
      let voices := getVoices w in
      if (0 <? List.length voices)%nat then
        let w := setAvailableVoices voices w in
        match findIndex preferred voices with
        | Some preferredIndex =>
            (with_voice (nth_error voices preferredIndex) utterance,
             setSelectedVoiceIndex preferredIndex w)
        | None => (utterance, w)
        end
      else (utterance, w)
    else
      if (selectedVoiceIndex view <? List.length (availableVoices view))%nat
      then (with_voice
              (nth_error (availableVoices view) (selectedVoiceIndex view))
              utterance, w)
      else (utterance, w) in
  synth_speak utterance w.

(** [utterance.onstart], [utterance.onend], [utterance.onerror]. *)
Definition utterance_onstart (utterance : SpeechSynthesisUtterance)
  (w : World) : World :=
  set_currentUtteranceRef (Some utterance) (setIsSpeaking true w).

Definition utterance_onend (w : World) : World :=
  set_currentUtteranceRef None (setIsSpeaking false w).

Definition utterance_onerror (text : string) (error : string) (w : World)
  : World :=
  let w := set_currentUtteranceRef None (setIsSpeaking false w) in
  if String.eqb error "network" || String.eqb error "synthesis-failed"
  then snd (setTimeout (CallRetrySpeech text) 500 w)
  else w.

Definition speak (view : State) (text : string)
  (isSystem priority : bool) (w : World) : World :=
  match speechSynthesis w with
  | None => w
  | Some _ =>
      if priority || (isSpeaking view && negb isSystem) then
        let w := synth_cancel w in
        let w := setIsSpeaking false w in
        let w := set_currentUtteranceRef None w in
        snd (setTimeout (CallStartSpeech text isSystem priority) 100 w)
      else if isSpeaking view && negb priority then w
      else startSpeech view text isSystem priority w
  end.

Definition interruptSpeech (w : World) : World :=
  match speechSynthesis w with
  | None => w
  | Some _ =>
      let w := synth_cancel w in
      let w := setIsSpeaking false w in
      let w := set_currentUtteranceRef None w in
      if ws_open w then ws_send (mkFrame "interrupt" "") w else w
  end.

Definition sendCommand (now : Z) (command : string) (w : World) : World :=
  if ws_open w then ws_send (mkFrame "command" command) w
  else addMessage now "error" (str "Not connected to backend") w.

Definition cancelCurrentTask (view : State) (w : World) : World :=
  if ws_open w then
    let w := ws_send (mkFrame "cancel" "") w in
    speak view "Cancelling current task" true false w
  else w.

(** [connectToBackend] replaces the socket held by [wsRef]; the handlers
    it installs are the [ws_on...] functions below. *)
Definition connectToBackend (w : World) : World :=
  set_wsRef (Some CONNECTING) w.

(** [ws.onopen]. *)
Definition ws_onopen (now : Z) (w : World) : World :=
  let w := setIsConnected true w in
  let w := set_reconnectAttemptsRef 0 w in
  let w := addMessage now "system"
             (str "Connected to voice browser backend") w in
  snd (setTimeout
         (CallSpeak "Connected to voice browser. You can now give commands."
            true false) 500 w).

(** [ws.onclose]. *)
Definition reconnect_delay (attempts : nat) : Z :=
  Z.min (1000 * 2 ^ Z.of_nat attempts) 30000.

Definition ws_onclose (view : State) (now : Z) (code : Z) (w : World)
  : World :=
  let w := setIsConnected false w in
  let w := addMessage now "system" (str "Disconnected from backend") w in
  if negb (code =? 1000) then
    let w := speak view "Disconnected from voice browser backend"
               true false w in
    let delay := reconnect_delay (reconnectAttemptsRef w) in
    let w := set_reconnectAttemptsRef (S (reconnectAttemptsRef w)) w in
    let w := addMessage now "system"
               (str ("Attempting to reconnect in "
                       ++ string_of_Z (delay / 1000) ++ " seconds...")) w in
    let '(handle, w) := setTimeout CallConnectToBackend delay w in
    set_reconnectTimeoutRef (Some handle) w
  else w.

(** [ws.onmessage]. *)

(** [messageWithTime]: the type, the serialized payload and the 2-second
    bucket of the arrival time. [None] when reading [data.type] throws, or
    when the template literal cannot convert the type to a string. *)
Definition messageWithTime (now : Z) (data : json) : option string :=
  match get_prop data "type", get_prop data "data" with
  | Some ty, Some payload =>
      match toString_val ty with
      | Some type_text =>
          let messageHash := type_text ++ "-" ++ stringify_val payload in
          Some (messageHash ++ "-" ++ string_of_Z (now / 2000))
      | None => None
      end
  | _, _ => None
  end.

(** Adding a key to [processedMessagesRef], then dropping the first
    element of the set once it holds more than 50. *)
Definition remember (key : string) (w : World) : World :=
  let s := set_add key (processedMessagesRef w) in
  let s :=
    if (50 <? List.length s)%nat then
      match s with
      | firstItem :: _ =>
          if negb (String.eqb firstItem "") then set_delete firstItem s
          else s
      | [] => s
      end
    else s in
  set_processedMessagesRef s w.

(** [v.includes(needle)] on a string or on an array; a TypeError ([None])
    on anything else. *)
Definition value_includes (v : jsval) (needle : string) : option bool :=
  match v with
  | Some (JStr s) => Some (includes s needle)
  | Some (JArr items) =>
      Some (existsb (fun x => match x with
                              | JStr s => String.eqb s needle
                              | _ => false
                              end) items)
  | _ => None
  end.

(** [v === literal] for a string literal. *)
Definition strict_eq (v : jsval) (literal : string) : bool :=
  match v with
  | Some (JStr s) => String.eqb s literal
  | _ => false
  end.

(** [data.data.text] when it is a string; anything else makes
    [.substring] throw. *)
Definition text_of (payload : jsval) : option string :=
  match get_prop_val payload "text" with
  | Some (Some (JStr t)) => Some t
  | _ => None
  end.

(** The branches on [data.type], run once the key has been recorded. An
    exception inside them is caught by the handler's [try], which keeps
    the effects made so far. *)
Definition dispatch (view : State) (now : Z) (ty payload : jsval)
  (w : World) : World :=
  if strict_eq ty "speak" then
    match text_of payload with
    | Some t =>
        let w := speak view t false true w in
        addMessage now "assistant" (str t) w
    | None => w
    end
  else if strict_eq ty "result" then
    match text_of payload with
    | Some t =>
        if String.eqb (lastResultMessageRef w) t then
          addMessage now "result" (str t) w
        else
          let w := set_lastResultMessageRef t w in
          let w := speak view t false true w in
          addMessage now "result" (str t) w
    | None => w
    end
  else if strict_eq ty "status" then
    match get_prop_val payload "message" with
    | Some message =>
        let w := addMessage now "status" message w in
        match value_includes message "Processing:" with
        | Some true => setIsProcessing true w
        | Some false =>
            match value_includes message "Ready" with
            | Some true => setIsProcessing false w
            | _ => w
            end
        | None => w
        end
    | None => w
    end
  else if strict_eq ty "error" then
    match get_prop_val payload "message" with
    | Some message =>
        let w := addMessage now "error" message w in
        match toString_val message with
        | Some message_text =>
            let w := speak view ("Error: " ++ message_text) true false w in
            setIsProcessing false w
        | None => w
        end
    | None => w
    end
  else w.

(** [event_data] is the result of [JSON.parse(event.data)], [None] when
    it throws. The clock is read once per event. *)
Definition ws_onmessage (view : State) (now : Z) (event_data : option json)
  (w : World) : World :=
  match event_data with
  | None => w
  | Some data =>
      match messageWithTime now data with
      | None => w
      | Some key =>
          if set_has key (processedMessagesRef w) then w
          else
            let w := remember key w in
            match get_prop data "type", get_prop data "data" with
            | Some ty, Some payload => dispatch view now ty payload w
            | _, _ => w
            end
      end
  end.

(** [recognition.onresult]: the result at [event.resultIndex]. *)
Record SpeechRecognitionResult : Type := mkResult {
  result_transcript : string;
  isFinal : bool
}.

Definition recognition_onresult (view : State) (now : Z)
  (event : SpeechRecognitionResult) (w : World) : World :=
  let transcript := result_transcript event in
  let w := setTranscript transcript w in
  let w :=
    if isSpeaking view && includes (toLowerCase transcript) "stop"
    then interruptSpeech w
    else w in
  if isFinal event then
    let finalTranscript := trim transcript in
    let w :=
      if negb (String.eqb finalTranscript "") then
        let w := sendCommand now finalTranscript w in
        addMessage now "user" (str finalTranscript) w
      else w in
    setTranscript "" w
  else w.

(** Running a timer callback. *)
Definition fire (view : State) (cb : Callback) (w : World) : World :=
  match cb with
  | CallConnectToBackend => connectToBackend w
  | CallSpeak text isSystem priority => speak view text isSystem priority w
  | CallStartSpeech text isSystem priority =>
      startSpeech view text isSystem priority w
  | CallRetrySpeech text => synth_speak (mkUtterance text 10 10 10 None) w
  end.

(** A run of inbound messages: each entry carries the render the handler
    closed over, the arrival time and the parsed frame. *)
Definition Inbound : Type := (State * Z * option json)%type.

Definition receive (e : Inbound) (w : World) : World :=
  let '(view, now, event_data) := e in ws_onmessage view now event_data w.

Fixpoint receive_all (l : list Inbound) (w : World) : World :=
  match l with
  | [] => w
  | e :: rest => receive_all rest (receive e w)
  end.

(** The frame is a [result] message that gets past the time-window
    check and whose text is read: it is processed by the [result]
    branch. *)
Definition result_text (event_data : option json) : option string :=
  match event_data with
  | Some data =>
      match get_prop data "type", get_prop data "data" with
      | Some ty, Some payload =>
          if strict_eq ty "result" then text_of payload else None
      | _, _ => None
      end
  | None => None
  end.

Definition fresh (now : Z) (event_data : option json) (w : World) : bool :=
  match event_data with
  | Some data =>
      match messageWithTime now data with
      | Some key => negb (set_has key (processedMessagesRef w))
      | None => false
      end
  | None => false
  end.

Definition processes_result (e : Inbound) (w : World) : bool :=
  let '(_, now, event_data) := e in
  match result_text event_data with
  | Some _ => fresh now event_data w
  | None => false
  end.

Fixpoint no_result_processed (l : list Inbound) (w : World) : bool :=
  match l with
  | [] => true
  | e :: rest =>
      negb (processes_result e w) && no_result_processed rest (receive e w)
  end.

(** *** Initial state and sample frames *)

Definition initialState : State :=
  mkState false false "" [] false false [] 0 false.

(** The render the handlers of [setupSpeechRecognition] close over: the
    function is called once, by the mount effect, so [recognition.onresult]
    reads the cells of the first render for as long as the page lives. *)
Definition mountView : State := initialState.

(** The world at mount, in a browser with speech synthesis and no voice
    loaded. *)
Definition initialWorld : World :=
  mkWorld initialState None None 0 None [] "" (Some []) [] [] [].

(** A render and a world in which an utterance is being spoken and the
    channel is open, and the same world with the channel closed. *)
Definition speakingView : State :=
  mkState true true "" [] false true [] 0 true.

Definition inFlight : SpeechSynthesisUtterance :=
  mkUtterance "Page loaded" 8 10 10 None.

Definition speakingWorld : World :=
  mkWorld speakingView (Some OPEN) None 0 (Some inFlight) [] ""
    (Some [inFlight]) [] [] [].

Definition offlineWorld : World := set_wsRef (Some CLOSED) speakingWorld.

Definition resultFrame (t : string) : json :=
  JObj [("type", JStr "result"); ("data", JObj [("text", JStr t)])].

Definition speakFrame (t : string) : json :=
  JObj [("type", JStr "speak"); ("data", JObj [("text", JStr t)])].

Definition statusFrame (m : string) : json :=
  JObj [("type", JStr "status"); ("data", JObj [("message", JStr m)])].

(** [n] status frames with distinct payloads, all arriving at [now]. *)
Fixpoint statusBurst (view : State) (now : Z) (n : nat) : list Inbound :=
  match n with
  | O => []
  | S k =>
      (statusBurst view now k ++
         [(view, now, Some (statusFrame (string_of_Z (Z.of_nat n))))])%list
  end.

End Voice.

(* ===================================================================== *)
(** ** Task page: planner thoughts, typewriter, cancel-goal handler *)
(* ===================================================================== *)

Module Home.
Import JS.

(** *** Data *)

Record Task : Type := mkTask {
  id : string;
  description : string;
  status : string
}.

(** [StepData], with the fields the page reads; the other optional
    fields are carried opaquely by the backend. *)
Record StepData : Type := mkStepData {
  pending_approval : bool;
  action_name : option string;
  next_goal : option string
}.

Record PlannerContent : Type := mkContent {
  state_analysis : string;
  progress_evaluation : string;
  challenges : string;
  next_steps : list string;
  reasoning : string
}.

Record PlannerThought : Type := mkThought {
  timestamp : Z;
  content : PlannerContent;
  formatted_time : string
}.

Record PlannerThoughtsResponse : Type := mkThoughts {
  has_thoughts : bool;
  latest : option PlannerThought;
  all_thoughts : list PlannerThought;
  updated_since_last_fetch : bool
}.

(** The closure of the typewriter's [setInterval] callback. *)
Record Typewriter : Type := mkTypewriter {
  fullText : string;
  currentPosition : nat;
  charsPerFrame : nat;
  period : Z
}.

(** Calls made to the Task API client. *)
Inductive ApiCall : Type :=
| CallFetchPlannerThoughts (taskId : string)
| CallMarkPlannerThoughtsSeen (taskId : string)
| CallRejectAction (taskId : string).

(** What a handler sees of an awaited API call: the [status] field of the
    returned data if any, or the message of the error thrown. *)
Inductive Reply : Type :=
| Returned (data_status : option string)
| Threw (message : string).

(** The [useState] cells, the [typewriterIntervalRef] cell, the live
    intervals of the host and the log of API calls. *)
Record State : Type := mkState {
  activeTask : option Task;
  taskDescription : string;
  isLoading : bool;
  error : option string;
  showVnc : bool;
  currentStep : option StepData;
  stepLoading : bool;
  stepError : option string;
  latestThought : option PlannerThought;
  displayedText : string;
  isTyping : bool;
  typewriterIntervalRef : option nat;
  intervals : list (nat * Typewriter);
  nextHandle : nat;
  calls : list ApiCall
}.

(** *** Setters *)

Definition setActiveTask (f : option Task -> option Task) (s : State)
  : State :=
  mkState (f (activeTask s)) (taskDescription s) (isLoading s) (error s)
    (showVnc s) (currentStep s) (stepLoading s) (stepError s)
    (latestThought s) (displayedText s) (isTyping s)
    (typewriterIntervalRef s) (intervals s) (nextHandle s) (calls s).

Definition setTaskDescription (d : string) (s : State) : State :=
  mkState (activeTask s) d (isLoading s) (error s)
    (showVnc s) (currentStep s) (stepLoading s) (stepError s)
    (latestThought s) (displayedText s) (isTyping s)
    (typewriterIntervalRef s) (intervals s) (nextHandle s) (calls s).

Definition setError (e : option string) (s : State) : State :=
  mkState (activeTask s) (taskDescription s) (isLoading s) e
    (showVnc s) (currentStep s) (stepLoading s) (stepError s)
    (latestThought s) (displayedText s) (isTyping s)
    (typewriterIntervalRef s) (intervals s) (nextHandle s) (calls s).

Definition setShowVnc (b : bool) (s : State) : State :=
  mkState (activeTask s) (taskDescription s) (isLoading s) (error s)
    b (currentStep s) (stepLoading s) (stepError s)
    (latestThought s) (displayedText s) (isTyping s)
    (typewriterIntervalRef s) (intervals s) (nextHandle s) (calls s).

Definition setCurrentStep (c : option StepData) (s : State) : State :=
  mkState (activeTask s) (taskDescription s) (isLoading s) (error s)
    (showVnc s) c (stepLoading s) (stepError s)
    (latestThought s) (displayedText s) (isTyping s)
    (typewriterIntervalRef s) (intervals s) (nextHandle s) (calls s).

Definition setStepLoading (b : bool) (s : State) : State :=
  mkState (activeTask s) (taskDescription s) (isLoading s) (error s)
    (showVnc s) (currentStep s) b (stepError s)
    (latestThought s) (displayedText s) (isTyping s)
    (typewriterIntervalRef s) (intervals s) (nextHandle s) (calls s).

Definition setStepError (e : option string) (s : State) : State :=
  mkState (activeTask s) (taskDescription s) (isLoading s) (error s)
    (showVnc s) (currentStep s) (stepLoading s) e
    (latestThought s) (displayedText s) (isTyping s)
    (typewriterIntervalRef s) (intervals s) (nextHandle s) (calls s).

Definition setLatestThought (t : option PlannerThought) (s : State)
  : State :=
  mkState (activeTask s) (taskDescription s) (isLoading s) (error s)
    (showVnc s) (currentStep s) (stepLoading s) (stepError s)
    t (displayedText s) (isTyping s)
    (typewriterIntervalRef s) (intervals s) (nextHandle s) (calls s).

Definition setDisplayedText (f : string -> string) (s : State) : State :=
  mkState (activeTask s) (taskDescription s) (isLoading s) (error s)
    (showVnc s) (currentStep s) (stepLoading s) (stepError s)
    (latestThought s) (f (displayedText s)) (isTyping s)
    (typewriterIntervalRef s) (intervals s) (nextHandle s) (calls s).

Definition setIsTyping (b : bool) (s : State) : State :=
  mkState (activeTask s) (taskDescription s) (isLoading s) (error s)
    (showVnc s) (currentStep s) (stepLoading s) (stepError s)
    (latestThought s) (displayedText s) b
    (typewriterIntervalRef s) (intervals s) (nextHandle s) (calls s).

Definition set_typewriterIntervalRef (h : option nat) (s : State) : State :=
  mkState (activeTask s) (taskDescription s) (isLoading s) (error s)
    (showVnc s) (currentStep s) (stepLoading s) (stepError s)
    (latestThought s) (displayedText s) (isTyping s)
    h (intervals s) (nextHandle s) (calls s).

Definition set_intervals (l : list (nat * Typewriter)) (s : State)
  : State :=
  mkState (activeTask s) (taskDescription s) (isLoading s) (error s)
    (showVnc s) (currentStep s) (stepLoading s) (stepError s)
    (latestThought s) (displayedText s) (isTyping s)
    (typewriterIntervalRef s) l (nextHandle s) (calls s).

(** Recording a call to the API client. *)
Definition issue (c : ApiCall) (s : State) : State :=
  mkState (activeTask s) (taskDescription s) (isLoading s) (error s)
    (showVnc s) (currentStep s) (stepLoading s) (stepError s)
    (latestThought s) (displayedText s) (isTyping s)
    (typewriterIntervalRef s) (intervals s) (nextHandle s)
    (calls s ++ [c])%list.

(** [setInterval(callback, period)] and [clearInterval(handle)]. *)
Definition setInterval (tw : Typewriter) (s : State) : nat * State :=
  (nextHandle s,
   mkState (activeTask s) (taskDescription s) (isLoading s) (error s)
     (showVnc s) (currentStep s) (stepLoading s) (stepError s)
     (latestThought s) (displayedText s) (isTyping s)
     (typewriterIntervalRef s)
     (intervals s ++ [(nextHandle s, tw)])%list
     (S (nextHandle s)) (calls s)).

Definition clearInterval (h : nat) (s : State) : State :=
  set_intervals
    (filter (fun e => negb (Nat.eqb (fst e) h)) (intervals s)) s.

Fixpoint find_interval (h : nat) (l : list (nat * Typewriter))
  : option Typewriter :=
  match l with
  | [] => None
  | (h', tw) :: rest => if Nat.eqb h h' then Some tw else find_interval h rest
  end.

(** *** Helpers of the page *)

Definition isTerminalStatus (status : string) : bool :=
  let lowerCaseStatus := toLowerCase status in
  existsb (String.eqb lowerCaseStatus)
    ["complete"; "completed"; "failed"; "error"; "stopped"].

Definition isPaused (status : string) : bool :=
  String.eqb (toLowerCase status) "paused".

Definition handleStartNewTask (s : State) : State :=
  let s := setActiveTask (fun _ => None) s in
  let s := setTaskDescription "" s in
  let s := setError None s in
  let s := setShowVnc false s in
  let s := setCurrentStep None s in
  let s := setLatestThought None s in
  let s := setDisplayedText (fun _ => "") s in
  let s := setStepError None s in
  match typewriterIntervalRef s with
  | Some h => clearInterval h s
  | None => s
  end.

(** *** Typewriter *)

Definition newline : string := String (ascii_of_nat 10) "".

(** The filter [step => step && step.trim().length > 0]. *)
Definition nonBlank (step : string) : bool :=
  negb (String.eqb step "") && (0 <? String.length (trim step))%nat.

Definition startTypewriterEffect (steps : list string) (s : State)
  : State :=
  let s :=
    match typewriterIntervalRef s with
    | Some h => set_typewriterIntervalRef None (clearInterval h s)
    | None => s
    end in
  if (List.length steps =? 0)%nat then
    let s := setIsTyping false s in
    setDisplayedText (fun _ => "(No specific steps outlined)") s
  else
    let filteredSteps := filter nonBlank steps in
    if (List.length filteredSteps =? 0)%nat then
      let s := setIsTyping false s in
      setDisplayedText (fun _ => "(No specific steps outlined)") s
    else
      let fullText := join (newline ++ newline) filteredSteps in
      let s := setDisplayedText (fun _ => "") s in
      let s := setIsTyping true s in
      let '(h, s) := setInterval (mkTypewriter fullText 0 2 25) s in
      set_typewriterIntervalRef (Some h) s.

(** One firing of the interval with handle [h]; a cleared interval does
    not fire. *)
Definition typewriter_tick (h : nat) (s : State) : State :=
  match find_interval h (intervals s) with
  | None => s
  | Some tw =>
      if (currentPosition tw <? String.length (fullText tw))%nat then
        let nextChars :=
          substring (currentPosition tw)
            (currentPosition tw + charsPerFrame tw) (fullText tw) in
        let s := setDisplayedText (fun prev => prev ++ nextChars) s in
        set_intervals
          (map (fun e =>
                  if Nat.eqb (fst e) h then
                    (h, mkTypewriter (fullText tw)
                          (currentPosition tw + charsPerFrame tw)
                          (charsPerFrame tw) (period tw))
                  else e) (intervals s)) s
      else
        let s :=
          match typewriterIntervalRef s with
          | Some h' => clearInterval h' s
          | None => s
          end in
        let s := set_typewriterIntervalRef None s in
        setIsTyping false s
  end.

Fixpoint typewriter_ticks (n : nat) (h : nat) (s : State) : State :=
  match n with
  | O => s
  | S k => typewriter_ticks k h (typewriter_tick h s)
  end.

(** *** Planner-thought polling *)

(** The test [data.latest && (!latestThought ||
    data.latest.timestamp !== latestThought.timestamp)]. *)
Definition is_new (stored : option PlannerThought)
  (fetched : option PlannerThought) : bool :=
  match fetched with
  | None => false
  | Some l =>
      match stored with
      | None => true
      | Some t => negb (timestamp l =? timestamp t)
      end
  end.

(** The body run for a new thought: store it, restart the typewriter on
    its next steps, call mark-seen. *)
Definition restart (taskId : string) (l : PlannerThought) (s : State)
  : State :=
  let s := setLatestThought (Some l) s in
  let s := startTypewriterEffect (next_steps (content l)) s in
  issue (CallMarkPlannerThoughtsSeen taskId) s.

(** [fetchThoughts], with the reply of [fetchPlannerThoughts] ([None]
    when the call throws, which the [catch] logs). [view] is the render
    the polling effect closed over. *)
Definition fetchThoughts (view : State) (isFetchingThoughts : bool)
  (reply : option PlannerThoughtsResponse) (s : State) : State :=
  match activeTask view with
  | None => s
  | Some task =>
      if negb (String.eqb (toLowerCase (status task)) "running")
         || isFetchingThoughts
      then s
      else
        let s := issue (CallFetchPlannerThoughts (id task)) s in
        match reply with
        | None => s
        | Some data =>
            match latest data with
            | Some l =>
                if is_new (latestThought view) (latest data) then
                  restart (id task) l s
                else s
            | None => s
            end
        end
  end.

(** The cleanup of the polling effect, run when [activeTask] or
    [latestThought] has changed (and at unmount): besides stopping the
    poll timer, which is local to the effect, it clears the interval the
    typewriter reference holds, leaving the reference and the typing flag
    as they are. *)
Definition thoughtsEffectCleanup (s : State) : State :=
  match typewriterIntervalRef s with
  | Some h => clearInterval h s
  | None => s
  end.

(** Whether the render after a poll finds another [latestThought] than
    the render before it: a thought where there was none, or one with
    another timestamp (the one way [fetchThoughts] replaces a thought). *)
Definition thought_changed (before after : State) : bool :=
  match latestThought after with
  | Some l => is_new (latestThought before) (Some l)
  | None =>
      match latestThought before with
      | Some _ => true
      | None => false
      end
  end.

(** A poll as the page runs it. The polling effect depends on
    [activeTask] and [latestThought], so each call of [fetchThoughts]
    runs in a closure over the current cells; and when the call has
    stored a new thought, the render that follows runs the cleanup of the
    effect before setting it up again (which is the next poll). *)
Definition poll (reply : option PlannerThoughtsResponse) (s : State)
  : State :=
  let s' := fetchThoughts s false reply s in
  if thought_changed s s' then thoughtsEffectCleanup s' else s'.

Fixpoint polls (replies : list (option PlannerThoughtsResponse))
  (s : State) : State :=
  match replies with
  | [] => s
  | r :: rest => polls rest (poll r s)
  end.

(** *** Cancel goal *)

Definition with_status (st : string) (t : Task) : Task :=
  mkTask (id t) (description t) st.

(** [data?.status || 'paused']. *)
Definition status_or_paused (data_status : option string) : string :=
  match data_status with
  | Some st => if String.eqb st "" then "paused" else st
  | None => "paused"
  end.

(** [handleCancelGoal], with the reply of [rejectAction] should it be
    called. [view] is the render whose button was clicked. *)
Definition handleCancelGoal (view : State) (reply : Reply) (s : State)
  : State :=
  match activeTask view with
  | None => s
  | Some task =>
      if isLoading view || stepLoading view
         || isTerminalStatus (status task)
      then s
      else
        let s := setStepError None s in
        let s := setError None s in
        if String.eqb (toLowerCase (status task)) "created" then
          handleStartNewTask s
        else
          let s := setStepLoading true s in
          let s := issue (CallRejectAction (id task)) s in
          let s :=
            match reply with
            | Returned data_status =>
                let s :=
                  setActiveTask
                    (option_map (with_status (status_or_paused data_status)))
                    s in
                let s := setCurrentStep None s in
                setLatestThought None s
            | Threw message => setError (Some message) s
            end in
          setStepLoading false s
  end.

(** The [disabled] attribute of the Cancel Goal button. *)
Definition cancelGoalDisabled (view : State) : bool :=
  stepLoading view || isLoading view.

(** *** Sample states *)

Definition idle : State :=
  mkState None "" false None false None false None None "" false None
    [] 0 [].

Definition withTask (st : string) : State :=
  setActiveTask (fun _ => Some (mkTask "t1" "Search for cats" st)) idle.

Definition thoughtAt (ts : Z) (steps : list string) : PlannerThought :=
  mkThought ts (mkContent "" "" "" steps "") "".

Definition replyAt (ts : Z) (steps : list string)
  : option PlannerThoughtsResponse :=
  Some (mkThoughts true (Some (thoughtAt ts steps)) [] true).

End Home.

(* ===================================================================== *)
(** ** Task API client: the requests *)
(* ===================================================================== *)

Module TaskApiRequests.
Import JS TaskApi.

Inductive Method : Type := GET | POST.

(** [process.env.NEXT_PUBLIC_API_URL || "http://localhost:8000/api/tasks"]. *)
Definition API_BASE_URL (env : option string) : string :=
  match env with
  | Some u => if String.eqb u "" then "http://localhost:8000/api/tasks" else u
  | None => "http://localhost:8000/api/tasks"
  end.

(** The [method] given to [fetch] (GET when none is given). *)
Definition method_of (h : helper) : Method :=
  match h with
  | FetchTaskStatus | FetchActionData | FetchStepData
  | FetchPlannerThoughts => GET
  | _ => POST
  end.

(** What follows the task id in the URL. *)
Definition path_of (h : helper) : string :=
  match h with
  | CreateTask => ""
  | FetchTaskStatus => "/status"
  | FetchActionData => "/action"
  | FetchStepData => "/step"
  | FetchPlannerThoughts => "/planner-thoughts"
  | MarkPlannerThoughtsSeen => "/planner-thoughts/mark-seen"
  | ResumeTask => "/resume"
  | ApproveAction => "/approve-action"
  | RejectAction => "/reject-action"
  | CancelGoal => "/cancel"
  end.

(** The URL a helper fetches; [arg] is the task id (the description for
    [createTask], which posts to the base URL). *)
Definition url_of (env : option string) (h : helper) (arg : string)
  : string :=
  match h with
  | CreateTask => API_BASE_URL env
  | _ => API_BASE_URL env ++ "/" ++ arg ++ path_of h
  end.

(** The request body: [JSON.stringify({ description })] for [createTask],
    none otherwise. *)
Definition body_of (h : helper) (arg : string) : option string :=
  match h with
  | CreateTask => Some (stringify (JObj [("description", JStr arg)]))
  | _ => None
  end.

(** String reversal, to reason on the end of a URL. *)
Fixpoint srev (s : string) : string :=
  match s with
  | EmptyString => EmptyString
  | String c rest => srev rest ++ String c EmptyString
  end.

End TaskApiRequests.

(* ===================================================================== *)
(** ** Voice browser page: the rest of the component *)
(* ===================================================================== *)

Module VoicePage.
Import JS Voice.

(** *** The WebSocket URL *)

(** [s.endsWith(suffix)]: some tail of [s] is [suffix]. *)
Fixpoint endsWith (s suffix : string) : bool :=
  if String.eqb s suffix then true
  else match s with
       | EmptyString => false
       | String _ rest => endsWith rest suffix
       end.

(** [s.replace(/\/\/ws$/, '/ws')]: the tail [//ws], if [s] ends with it,
    becomes [/ws]. *)
Fixpoint fixDoubleSlash (s : string) : string :=
  if String.eqb s "//ws" then "/ws"
  else match s with
       | EmptyString => EmptyString
       | String c rest => String c (fixDoubleSlash rest)
       end.

(** [process.env.NEXT_PUBLIC_WS_URL || 'ws://localhost:8000/ws']. *)
Definition wsUrl (env : option string) : string :=
  match env with
  | Some u => if String.eqb u "" then "ws://localhost:8000/ws" else u
  | None => "ws://localhost:8000/ws"
  end.

Definition finalWsUrl (wsUrl : string) : string :=
  let finalWsUrl := if endsWith wsUrl "/ws" then wsUrl else wsUrl ++ "/ws" in
  fixDoubleSlash finalWsUrl.

(** *** Speech set-up *)

Definition setIsListening (b : bool) : World -> World :=
  with_state (fun s =>
    mkState (isConnected s) b (transcript s) (messages s) (isProcessing s)
      (isSpeaking s) (availableVoices s) (selectedVoiceIndex s)
      (speechEnabled s)).

Definition setSpeechEnabled (b : bool) : World -> World :=
  with_state (fun s =>
    mkState (isConnected s) (isListening s) (transcript s) (messages s)
      (isProcessing s) (isSpeaking s) (availableVoices s)
      (selectedVoiceIndex s) b).

(** [initializeSpeech]: the result and the world after it. The test
    utterance is silent (volume 0) and empty. *)
Definition initializeSpeech (w : World) : bool * World :=
  match speechSynthesis w with
  | Some _ =>
      let w := setSpeechEnabled true w in
      (true, synth_speak (mkUtterance "" 10 10 0 None) w)
  | None => (false, setSpeechEnabled false w)
  end.

Definition loadVoices (w : World) : World :=
  match speechSynthesis w with
  | Some _ =>
      let voices := getVoices w in
      if (0 <? List.length voices)%nat then
        let w := setAvailableVoices voices w in
        match findIndex preferred voices with
        | Some preferredIndex => setSelectedVoiceIndex preferredIndex w
        | None => w
        end
      else w
  | None => w
  end.

(** *** Recognition *)

(** Calls made on the recognition object. *)
Inductive RecognitionCall : Type := Start | Stop.

(** The world together with [recognitionRef]: absent, or the recognition
    object, seen through the calls made on it. *)
Record Page : Type := mkPage {
  world : World;
  recognitionRef : option (list RecognitionCall)
}.

Definition on_world (f : World -> World) (p : Page) : Page :=
  mkPage (f (world p)) (recognitionRef p).

Definition recognition_call (c : RecognitionCall) (p : Page) : Page :=
  mkPage (world p)
    (option_map (fun calls => (calls ++ [c])%list) (recognitionRef p)).

(** [setupSpeechRecognition], given whether the browser has
    [webkitSpeechRecognition]. *)
Definition setupSpeechRecognition (now : Z) (supported : bool) (p : Page)
  : Page :=
  if supported then mkPage (world p) (Some [])
  else on_world
         (addMessage now "error"
            (str "Speech recognition not supported in this browser")) p.

(** [toggleListening]; [start_throws] tells whether [recognition.start()]
    throws (it does when recognition has already been started). *)
Definition toggleListening (view : State) (start_throws : bool) (p : Page)
  : Page :=
  match recognitionRef p with
  | None =>
      on_world (speak view "Speech recognition not available" true false) p
  | Some _ =>
      if negb (isConnected view) then
        on_world (speak view "Not connected to backend" true false) p
      else if isListening view then
        let p := recognition_call Stop p in
        let p := on_world (setIsListening false) p in
        on_world (speak view "Stopped listening" true false) p
      else
        let p := recognition_call Start p in
        if start_throws then
          on_world (speak view "Failed to start listening" true false) p
        else
          let p := on_world (setIsListening true) p in
          on_world (speak view "Started listening for commands" true false) p
  end.

(** [recognition.onerror] and [recognition.onend]. *)
Definition recognition_onerror (now : Z) (error : string) (p : Page)
  : Page :=
  let p := on_world
             (addMessage now "error"
                (str ("Speech recognition error: " ++ error))) p in
  on_world (setIsListening false) p.

Definition recognition_onend (view : State) (p : Page) : Page :=
  if isListening view && isConnected view then recognition_call Start p
  else p.

(** *** Keyboard shortcuts *)

(** What [handleKeyPress] reads of a [KeyboardEvent]. *)
Record KeyboardEvent : Type := mkKey {
  code : string;
  targetIsBody : bool;      (* e.target === document.body *)
  ctrlKey : bool
}.

Definition handleKeyPress (view : State) (start_throws : bool)
  (e : KeyboardEvent) (p : Page) : Page :=
  if String.eqb (code e) "Space" && targetIsBody e then
    toggleListening view start_throws p
  else if String.eqb (code e) "Escape" then
    if isSpeaking view then on_world interruptSpeech p
    else if isProcessing view then on_world (cancelCurrentTask view) p
    else p
  else if String.eqb (code e) "KeyC" && ctrlKey e && isProcessing view then
    on_world (cancelCurrentTask view) p
  else p.

(** *** The other handlers *)

(** [ws.onerror]. *)
Definition ws_onerror (now : Z) (finalWsUrl : string) : World -> World :=
  addMessage now "error"
    (str ("Connection error to " ++ finalWsUrl
            ++ ". Please check if backend is running.")).

(** [latestMessage], for screen readers. *)
Definition latestMessage (s : State) : option Message :=
  if (0 <? List.length (messages s))%nat
  then nth_error (messages s) (List.length (messages s) - 1)
  else None.

(** *** Events *)

(** Everything that can run code of the component. The socket events are
    those of the socket [wsRef] holds; the host has set its [readyState]
    before the handler runs. *)
Inductive Event : Type :=
| EvOpen
| EvMessage (event_data : option json)
| EvClose (code : Z)
| EvError (finalWsUrl : string)
| EvResult (result : SpeechRecognitionResult)
| EvRecognitionError (error : string)
| EvRecognitionEnd
| EvUtteranceStart (utterance : SpeechSynthesisUtterance)
| EvUtteranceEnd
| EvUtteranceError (text error : string)
| EvTimer (callback : Callback)
| EvKeyDown (start_throws : bool) (e : KeyboardEvent)
| EvToggleListening (start_throws : bool)
| EvCancelTask
| EvStopSpeaking
| EvReconnect
| EvTestVoice
| EvVoicesChanged
| EvSelectVoice (index : nat).

(** One event, handled at time [now] by closures over the render [view]:
    the current render for the handlers React creates anew at each render
    (the buttons, the key handler), and the render at mount ([mountView])
    for those installed once by the mount effect. *)
Definition step (view : State) (now : Z) (ev : Event) (p : Page) : Page :=
  match ev with
  | EvOpen => on_world (fun w => ws_onopen now (set_wsRef (Some OPEN) w)) p
  | EvMessage event_data => on_world (ws_onmessage view now event_data) p
  | EvClose code =>
      on_world (fun w => ws_onclose view now code (set_wsRef (Some CLOSED) w))
        p
  | EvError finalWsUrl => on_world (ws_onerror now finalWsUrl) p
  | EvResult result => on_world (recognition_onresult view now result) p
  | EvRecognitionError error => recognition_onerror now error p
  | EvRecognitionEnd => recognition_onend view p
  | EvUtteranceStart utterance => on_world (utterance_onstart utterance) p
  | EvUtteranceEnd => on_world utterance_onend p
  | EvUtteranceError text error => on_world (utterance_onerror text error) p
  | EvTimer callback => on_world (fire view callback) p
  | EvKeyDown start_throws e => handleKeyPress view start_throws e p
  | EvToggleListening start_throws => toggleListening view start_throws p
  | EvCancelTask => on_world (cancelCurrentTask view) p
  | EvStopSpeaking => on_world interruptSpeech p
  | EvReconnect => on_world connectToBackend p
  | EvTestVoice =>
      on_world (speak view "This is a test of the selected voice."
                  true false) p
  | EvVoicesChanged => on_world loadVoices p
  | EvSelectVoice index => on_world (setSelectedVoiceIndex index) p
  end.

(** A run of events, each with its render and its time. *)
Fixpoint run (l : list (State * Z * Event)) (p : Page) : Page :=
  match l with
  | [] => p
  | (view, now, ev) :: rest => run rest (step view now ev p)
  end.

(** The events that are neither an open nor a close of the socket. *)
Definition between_connections (ev : Event) : bool :=
  match ev with
  | EvOpen | EvClose _ => false
  | _ => true
  end.

(** The frames the component sends: [interrupt] and [cancel] with an empty
    text, [command] with a text that is not empty. *)
Definition frame_ok (f : Frame) : Prop :=
  (frame_type f = "interrupt" /\ frame_text f = "") \/
  (frame_type f = "cancel" /\ frame_text f = "") \/
  (frame_type f = "command" /\ frame_text f <> "").

(** The delays the component arms timers with. *)
Definition delay_ok (t : Z * Callback) : Prop := 100 <= fst t <= 30000.

(** [l'] is [l] followed by elements that all satisfy [P]. *)
Definition grows {A : Type} (P : A -> Prop) (l l' : list A) : Prop :=
  exists added, l' = (l ++ added)%list /\ Forall P added.

(** What a handler may do to the chat history, the timers and the sent
    frames, started in the world [w]: append entries, arm timers with an
    allowed delay, and send allowed frames, the latter only with the socket
    open. *)
Definition footprint (w w' : World) : Prop :=
  grows (fun _ => True) (messages (state w)) (messages (state w')) /\
  grows delay_ok (timers w) (timers w') /\
  grows (fun f => frame_ok f /\ ws_open w = true) (sent w) (sent w').

(** The speaking flag and [currentUtteranceRef] agree: the flag is set
    exactly when the reference holds an utterance. *)
Definition speaking_in_sync (w : World) : Prop :=
  isSpeaking (state w)
  = match currentUtteranceRef w with
    | Some _ => true
    | None => false
    end.

(** A handler that leaves the listening flag alone and either leaves the
    speaking flag and the utterance reference alone or clears both. *)
Definition speech_untouched_or_cleared (w w' : World) : Prop :=
  isListening (state w') = isListening (state w) /\
  ((isSpeaking (state w') = isSpeaking (state w) /\
    currentUtteranceRef w' = currentUtteranceRef w) \/
   (isSpeaking (state w') = false /\ currentUtteranceRef w' = None)).

(** The page shows itself as listening only if [recognition.start()] has
    been called. *)
Definition listening_was_started (p : Page) : Prop :=
  isListening (state (world p)) = true ->
  exists calls, recognitionRef p = Some calls /\ In Start calls.

(** A world whose browser reports three voices. *)
Definition threeVoices : World :=
  mkWorld initialState None None 0 None [] "" (Some [])
    [mkVoice "Fred" false; mkVoice "Samantha" false; mkVoice "Karen" true]
    [] [].

(** The page at mount, in a browser with speech synthesis. *)
Definition initialPage : Page := mkPage initialWorld None.

(** The page once the mount effect has set up recognition, and a render
    that is connected and not listening. *)
Definition readyPage : Page := setupSpeechRecognition 0 true initialPage.

Definition connectedView : State :=
  mkState true false "" [] false false [] 0 true.

End VoicePage.

(* ===================================================================== *)
(** ** Task page: the rest of the component *)
(* ===================================================================== *)

Module HomePage.
Import JS Home.

(** *** Status badge *)

Inductive Badge : Type :=
| Completed | Failed | Running | TaskCreated | Stopped | Paused.

Definition getStatusBadge (status : string) : Badge :=
  if String.eqb status "complete" || String.eqb status "completed"
  then Completed
  else if String.eqb status "failed" then Failed
  else if String.eqb status "running" then Running
  else if String.eqb (toLowerCase status) "created" then TaskCreated
  else if String.eqb status "stopped" then Stopped
  else if String.eqb status "paused" then Paused
  else TaskCreated.

(** The badge as rendered: [getStatusBadge(activeTask.status.toLowerCase())]. *)
Definition renderedBadge (task : Task) : Badge :=
  getStatusBadge (toLowerCase (status task)).

(** *** Sessions: the cells of the page and the requests it made *)

(** Calls to the Task API client besides those logged in [calls]. *)
Inductive Request : Type :=
| ReqCreateTask (description : string)
| ReqFetchTaskStatus (taskId : string)
| ReqFetchActionData (taskId : string)
| ReqResumeTask (taskId : string)
| ReqApproveAction (taskId : string).

Record Session : Type := mkSession {
  ui : State;
  requests : list Request
}.

Definition on_ui (f : State -> State) (s : Session) : Session :=
  mkSession (f (ui s)) (requests s).

Definition request (r : Request) (s : Session) : Session :=
  mkSession (ui s) (requests s ++ [r])%list.

Definition setIsLoading (b : bool) (s : State) : State :=
  mkState (activeTask s) (taskDescription s) b (error s)
    (showVnc s) (currentStep s) (stepLoading s) (stepError s)
    (latestThought s) (displayedText s) (isTyping s)
    (typewriterIntervalRef s) (intervals s) (nextHandle s) (calls s).

(** *** Status polling *)

(** Whether the status effect polls at all. *)
Definition statusPolling (view : State) : bool :=
  match activeTask view with
  | Some task =>
      negb (isTerminalStatus (status task)) && negb (isPaused (status task))
  | None => false
  end.

(** [fetchStatus], with [data.status] of the reply ([None] when the call
    throws, which the [catch] logs); the boolean tells whether the handler
    stopped the polling interval. *)
Definition fetchStatus (view : State) (reply : option string) (s : Session)
  : Session * bool :=
  match activeTask view with
  | None => (s, false)
  | Some task =>
      let s := request (ReqFetchTaskStatus (id task)) s in
      match reply with
      | None => (s, false)
      | Some newStatus =>
          let lowerCaseStatus := toLowerCase newStatus in
          let s :=
            on_ui (fun u =>
              match activeTask u with
              | Some prevTask =>
                  if String.eqb (id prevTask) (id task)
                     && negb (String.eqb (status prevTask) newStatus)
                  then
                    let u :=
                      if negb (String.eqb lowerCaseStatus "running")
                      then setLatestThought None (setCurrentStep None u)
                      else u in
                    setActiveTask
                      (fun _ => Some (with_status newStatus prevTask)) u
                  else u
              | None => u
              end) s in
          (s, isTerminalStatus lowerCaseStatus || isPaused lowerCaseStatus)
      end
  end.

(** The effect that shows the remote browser. *)
Definition vncEffect (s : State) : State :=
  match activeTask s with
  | Some task =>
      let lowerCaseStatus := toLowerCase (status task) in
      if existsb (String.eqb lowerCaseStatus)
           ["running"; "in-progress"; "active"]
      then setShowVnc true s
      else s
  | None => s
  end.

Definition toggleVnc (view : State) (s : State) : State :=
  setShowVnc (negb (showVnc view)) s.

(** *** Action polling *)

Inductive ActionReply : Type :=
| ActionData (actionData : StepData)
| ActionNone                          (* 204: null *)
| ActionThrew.

Definition option_string_eqb (a b : option string) : bool :=
  match a, b with
  | Some x, Some y => String.eqb x y
  | None, None => true
  | _, _ => false
  end.

(** [fetchAgentData]: the session after it and the delay the [finally]
    block arms the next poll with ([None] when the guard returns at
    once). *)
Definition fetchAgentData (view : State) (isFetching : bool)
  (reply : ActionReply) (s : Session) : Session * option Z :=
  match activeTask view with
  | None => (s, None)
  | Some task =>
      if negb (String.eqb (toLowerCase (status task)) "running")
         || isFetching
      then (s, None)
      else
        let s := on_ui (setStepError None) s in
        let s := request (ReqFetchActionData (id task)) s in
        match reply with
        | ActionData actionData =>
            if pending_approval actionData then
              (on_ui (fun u =>
                 setCurrentStep
                   (match currentStep u with
                    | None => Some actionData
                    | Some prevStep =>
                        if negb (Bool.eqb (pending_approval prevStep)
                                   (pending_approval actionData))
                           || negb (option_string_eqb (action_name prevStep)
                                      (action_name actionData))
                        then Some actionData
                        else Some prevStep
                    end) u) s,
               Some 1000)
            else (on_ui (setCurrentStep (Some actionData)) s, Some 3000)
        | ActionNone =>
            (on_ui (fun u =>
               setCurrentStep
                 (match currentStep u with
                  | Some prev => if pending_approval prev then None
                                 else Some prev
                  | None => None
                  end) u) s,
             Some 3000)
        | ActionThrew => (s, Some 3000)
        end
  end.

(** *** Handlers *)



(** The reply of [resumeTask]: data with its [status] if any, [null] data
    (a 204 response), or an error thrown by the call. *)
Inductive ResumeReply : Type :=
| Resumed (data_status : option string)
| ResumedNull
| ResumeThrew (message : string).

(** [data.status || 'running']. *)
Definition status_or_running (data_status : option string) : string :=
  match data_status with
  | Some st => if String.eqb st "" then "running" else st
  | None => "running"
  end.

(** What becomes of the page once a handler has run: React renders the
    new cells, or an updater passed to a setter throws while React
    computes the new cells. The handler's own [try] has returned by then;
    the error reaches no [catch] of the page, which has no error boundary
    of its own, and the component is taken down. *)
Inductive Rendering : Type :=
| Rendered (s : Session)
| RenderThrew (made : list Request).

(** [handleResumeTask]. The updater given to [setActiveTask] reads
    [data.status] when the stored task is not null; with [null] data that
    read throws a TypeError, inside the updater and so after the [try] and
    the [finally] of the handler have run. *)
Definition handleResumeTask (view : State) (reply : ResumeReply)
  (s : Session) : Rendering :=
  match activeTask view with
  | None => Rendered s
  | Some task =>
      if negb (isPaused (status task)) || isLoading view then Rendered s
      else
        let s := on_ui (setIsLoading true) s in
        let s := on_ui (setError None) s in
        let s := on_ui (setStepError None) s in
        let s := request (ReqResumeTask (id task)) s in
        match reply with
        | Resumed data_status =>
            let s :=
              on_ui (setActiveTask
                       (option_map
                          (with_status (status_or_running data_status)))) s in
            Rendered (on_ui (setIsLoading false) s)
        | ResumedNull =>
            match activeTask (ui s) with
            | Some _ => RenderThrew (requests s)
            | None => Rendered (on_ui (setIsLoading false) s)
            end
        | ResumeThrew message =>
            let s := on_ui (setError (Some message)) s in
            Rendered (on_ui (setIsLoading false) s)
        end
  end.

Inductive ApproveReply : Type :=
| Approved
| ApproveThrew (message : string).

(** [currentStep?.pending_approval]. *)
Definition pendingApproval (view : State) : bool :=
  match currentStep view with
  | Some step => pending_approval step
  | None => false
  end.

(** [handleApproveAction]. The [thought] the handler also resets is not
    among the fields [StepData] carries here. *)
Definition handleApproveAction (view : State) (reply : ApproveReply)
  (s : Session) : Session :=
  match activeTask view with
  | None => s
  | Some task =>
      if negb (pendingApproval view) || stepLoading view then s
      else
        let s := on_ui (setStepLoading true) s in
        let s := on_ui (setStepError None) s in
        let s := request (ReqApproveAction (id task)) s in
        let s :=
          match reply with
          | Approved =>
              on_ui (fun u =>
                setCurrentStep
                  (option_map
                     (fun prev =>
                        mkStepData false (action_name prev) (next_goal prev))
                     (currentStep u)) u) s
          | ApproveThrew message => on_ui (setStepError (Some message)) s
          end in
        on_ui (setStepLoading false) s
  end.

Definition handleRejectAction (view : State) (reply : Reply) (s : Session)
  : Session :=
  match activeTask view with
  | None => s
  | Some task =>
      if negb (pendingApproval view) || stepLoading view then s
      else
        let s := on_ui (setStepLoading true) s in
        let s := on_ui (setStepError None) s in
        let s := on_ui (issue (CallRejectAction (id task))) s in
        let s :=
          match reply with
          | Returned data_status =>
              let s :=
                on_ui (setActiveTask
                         (option_map
                            (with_status (status_or_paused data_status)))) s in
              let s := on_ui (setCurrentStep None) s in
              on_ui (setLatestThought None) s
          | Threw message => on_ui (setStepError (Some message)) s
          end in
        on_ui (setStepLoading false) s
  end.

(** *** What the page shows of the error cells *)

(** [{error && <Alert>...{error}...</Alert>}] sits in the form that is
    rendered when there is no active task. *)
Definition shownError (view : State) : option string :=
  match activeTask view with
  | None =>
      match error view with
      | Some e => if String.eqb e "" then None else Some e
      | None => None
      end
  | Some _ => None
  end.

(** [{stepError && <Alert>...{stepError}...</Alert>}] sits in the panel
    that is rendered when there is an active task. *)
Definition shownStepError (view : State) : option string :=
  match activeTask view with
  | Some _ =>
      match stepError view with
      | Some e => if String.eqb e "" then None else Some e
      | None => None
      end
  | None => None
  end.

(** Sample renders: a running task with an action awaiting approval, and
    a paused task. *)
Definition awaitingApproval : State :=
  setCurrentStep (Some (mkStepData true (Some "click") None))
    (withTask "running").

Definition pausedTask : State := withTask "paused".

(** The session before any task. *)
Definition start : Session := mkSession idle [].

End HomePage.

(* ===================================================================== *)
(** ** The string and value primitives on sample inputs *)
(* ===================================================================== *)

Section JSProperties.
Import JS.

(** The no-break space (code unit 160) is white space for [trim]; a
    control character such as NEL (133) is not. *)
Example trim_strips_no_break_space :
  trim (String (ascii_of_nat 160)
          ("Open" ++ String (ascii_of_nat 9) (String (ascii_of_nat 160) "")))
  = "Open" /\
  trim (String (ascii_of_nat 160) "") = "" /\
  trim (String (ascii_of_nat 133) "") = String (ascii_of_nat 133) "".
Proof. repeat split; reflexivity. Qed.

(** Lengths and positions count code units: a letter of Latin-1 is one
    unit. *)
Example substring_counts_code_units :
  String.length (String (ascii_of_nat 233) "t" ++ String (ascii_of_nat 233) "")
  = 3%nat /\
  substring 0 2 ("h" ++ String (ascii_of_nat 233) "llo")
  = "h" ++ String (ascii_of_nat 233) "".
Proof. split; reflexivity. Qed.

(** The case mapping covers the capital letters of Latin-1 and leaves the
    multiplication sign (215) alone. *)
Example toLowerCase_latin1 :
  toLowerCase (String (ascii_of_nat 201) "COLE")
  = String (ascii_of_nat 233) "cole" /\
  toLowerCase (String (ascii_of_nat 215) "") = String (ascii_of_nat 215) "".
Proof. split; reflexivity. Qed.

(** String conversion of parsed values: an array joins its elements and
    prints [null] as nothing; an object prints as [[object Object]]
    unless it has an own [toString] key, in which case the conversion
    throws, as it does for an array that holds such an object. *)
Example toString_samples :
  toString (JArr [JNum (mkNumber 1 eq_refl); JNull; JStr "a";
                  JArr [JBool true; JNum (mkNumber (-20) eq_refl)]])
  = Some "1,,a,true,-20" /\
  toString (JObj [("valueOf", JStr "x")]) = Some "[object Object]" /\
  toString (JObj [("toString", JNull)]) = None /\
  toString (JArr [JStr "a"; JObj [("toString", JStr "x")]]) = None /\
  toString (JNum (mkNumber 9007199254740991 eq_refl))
  = Some "9007199254740991".
Proof. repeat split; reflexivity. Qed.

End JSProperties.

(* ===================================================================== *)
(** ** Properties of the Task API client *)
(* ===================================================================== *)

Section TaskApiProperties.
Import JS TaskApi.

(** A response that is not [ok] never reaches the success path of the
    shared handler. *)
Lemma handleApiResponse_not_ok (r : Response) (context : string) :
  ok r = false ->
  handleApiResponse r context =
    Rejected (new_Error (error_detail r
      ("HTTP error! status: " ++ string_of_Z (status r)
         ++ " in " ++ context))).
Proof. intros Hok. unfold handleApiResponse. rewrite Hok. reflexivity. Qed.

(** 204 is a success status. *)
Lemma no_content_is_ok (r : Response) : status r = 204 -> ok r = true.
Proof. intros H. unfold ok. rewrite H. reflexivity. Qed.

Lemma not_ok_not_204 (r : Response) :
  ok r = false -> (status r =? 204) = false.
Proof.
  intros Hok. destruct (Z.eqb_spec (status r) 204) as [E|E]; [|reflexivity].
  rewrite (no_content_is_ok r E) in Hok. discriminate.
Qed.

(** Every helper but [createTask] and [fetchTaskStatus] goes through
    [handleApiResponse] on a failed response. *)
Lemma call_not_ok (h : helper) (r : Response) :
  ok r = false ->
  call h (Some r) =
    Rejected (new_Error
      (match h with
       | FetchTaskStatus => JStr (generic_message h (status r))
       | _ => error_detail r (generic_message h (status r))
       end)).
Proof.
  intros Hok. pose proof (not_ok_not_204 r Hok) as H204.
  destruct h; simpl;
    unfold createTask, fetchTaskStatus, fetchActionData, fetchStepData,
      fetchPlannerThoughts, markPlannerThoughtsSeen, resumeTask,
      approveAction, rejectAction, cancelGoal, fetch_or_null, via_handler;
    rewrite ?H204, ?(handleApiResponse_not_ok r _ Hok), ?Hok;
    reflexivity.
Qed.

Lemma error_detail_found (r : Response) (d : json) (fallback : string) :
  has_detail r d ->
  error_detail r fallback = if truthy d then d else JStr fallback.
Proof.
  intros (props & Hb & Hd). unfold error_detail. rewrite Hb. simpl.
  rewrite Hd. reflexivity.
Qed.

Lemma error_detail_unparsable (r : Response) (fallback : string) :
  body r = None -> error_detail r fallback = JStr fallback.
Proof. intros Hb. unfold error_detail. rewrite Hb. reflexivity. Qed.

(** C1, as stated, fails for [fetchTaskStatus]: on a 500 response whose
    JSON body has [detail = "boom"], the error message is the status-code
    message, not the field's value. *)
Lemma fetchTaskStatus_ignores_detail :
  ok boom = false /\
  has_detail boom (JStr "boom") /\
  call FetchTaskStatus (Some boom)
    = Rejected (Error "Failed to fetch status: 500") /\
  call FetchTaskStatus (Some boom) <> Rejected (Error "boom").
Proof.
  split; [reflexivity|]. split.
  - exists [("detail", JStr "boom")]. split; reflexivity.
  - split; [reflexivity|]. vm_compute. discriminate.
Qed.

(** The [||] of the shared block also discards a falsy [detail] (here the
    empty string): the message is then the generic one. *)
Lemma empty_detail_falls_back :
  call RejectAction
    (Some (mkResponse 404 (Some (JObj [("detail", JStr "")]))))
  = Rejected (Error "HTTP error! status: 404 in rejectAction").
Proof. reflexivity. Qed.

(** A [detail] whose conversion to a string throws: an object with an own
    [toString] key. [new Error(detail)] throws the TypeError, outside the
    [try], and the helper fails with it. *)
Lemma unprintable_detail_is_a_TypeError :
  call RejectAction
    (Some (mkResponse 422
             (Some (JObj [("detail", JObj [("toString", JStr "x")])]))))
  = Rejected TypeError.
Proof. reflexivity. Qed.

(** C1 (amended). For a response that is not [ok]:
    every helper other than [fetchTaskStatus], when the JSON body has a
    truthy [detail], fails with the error [new Error(detail)] makes: its
    message is the [detail] converted to a string (the [detail] itself
    when it is a string), and when that conversion throws, the TypeError
    it throws; it fails with its generic status-code message when
    [detail] is falsy; every helper fails with its generic status-code
    message when the body is not parsable JSON; [fetchTaskStatus] always
    fails with its status-code message. *)
Theorem api_error_message (h : helper) (r : Response) :
  ok r = false ->
  (forall d, h <> FetchTaskStatus -> has_detail r d -> truthy d = true ->
     call h (Some r)
     = Rejected (match toString d with
                 | Some message => Error message
                 | None => TypeError
                 end)) /\
  (forall s, h <> FetchTaskStatus -> has_detail r (JStr s) -> s <> "" ->
     call h (Some r) = Rejected (Error s)) /\
  (forall d, h <> FetchTaskStatus -> has_detail r d -> truthy d = false ->
     call h (Some r) = Rejected (Error (generic_message h (status r)))) /\
  (body r = None ->
     call h (Some r) = Rejected (Error (generic_message h (status r)))) /\
  (h = FetchTaskStatus ->
     call h (Some r) = Rejected (Error (generic_message h (status r)))).
Proof.
  intros Hok. pose proof (call_not_ok h r Hok) as Hcall.
  assert (Htruthy : forall d, h <> FetchTaskStatus -> has_detail r d ->
            truthy d = true ->
            call h (Some r) = Rejected (new_Error d)).
  { intros d Hh Hd Ht. rewrite Hcall.
    destruct h; try congruence;
      rewrite (error_detail_found r d _ Hd), Ht; reflexivity. }
  repeat split.
  - exact Htruthy.
  - intros s Hh Hd Hs. apply (Htruthy (JStr s) Hh Hd). simpl.
    destruct (String.eqb_spec s ""); [contradiction|reflexivity].
  - intros d Hh Hd Ht. rewrite Hcall.
    destruct h; try congruence;
      rewrite (error_detail_found r d _ Hd), Ht; reflexivity.
  - intros Hb. rewrite Hcall.
    destruct h; rewrite ?(error_detail_unparsable r _ Hb); reflexivity.
  - intros ->. exact Hcall.
Qed.

Lemma api_error_message_witness :
  ok boom = false /\
  call RejectAction (Some boom) = Rejected (Error "boom").
Proof.
  split; [reflexivity|].
  destruct (api_error_message RejectAction boom eq_refl) as (_ & H & _).
  apply H.
  - discriminate.
  - exists [("detail", JStr "boom")]. split; reflexivity.
  - discriminate.
Defined.

(** C7. For [fetchActionData] and [fetchStepData], a 204 response yields
    the [null] result, and that result is not a failure. *)
Theorem no_content_yields_null (r : Response) :
  status r = 204 ->
  fetchActionData (Some r) = Resolved JNull /\
  fetchStepData (Some r) = Resolved JNull /\
  (forall e, fetchActionData (Some r) <> Rejected e) /\
  (forall e, fetchStepData (Some r) <> Rejected e).
Proof.
  intros H.
  assert (Ha : fetchActionData (Some r) = Resolved JNull).
  { unfold fetchActionData, fetch_or_null. rewrite H. reflexivity. }
  assert (Hs : fetchStepData (Some r) = Resolved JNull).
  { unfold fetchStepData, fetch_or_null. rewrite H. reflexivity. }
  repeat split; try assumption; intros e; rewrite ?Ha, ?Hs; discriminate.
Qed.

Lemma no_content_yields_null_witness :
  status (mkResponse 204 None) = 204 /\
  fetchActionData (Some (mkResponse 204 None)) = Resolved JNull /\
  fetchStepData (Some (mkResponse 204 None)) = Resolved JNull.
Proof.
  split; [reflexivity|].
  destruct (no_content_yields_null (mkResponse 204 None) eq_refl)
    as (Ha & Hs & _).
  split; assumption.
Defined.

End TaskApiProperties.

(* ===================================================================== *)
(** ** Properties of the voice browser page *)
(* ===================================================================== *)

Section VoiceProperties.
Import JS Voice.

(** *** Frames: what the speech functions leave alone *)

(** [startSpeech] touches the voice cells and the synthesizer queue
    only. *)
Lemma startSpeech_frame view text isSystem priority w :
  let w' := startSpeech view text isSystem priority w in
  wsRef w' = wsRef w /\
  reconnectTimeoutRef w' = reconnectTimeoutRef w /\
  reconnectAttemptsRef w' = reconnectAttemptsRef w /\
  currentUtteranceRef w' = currentUtteranceRef w /\
  processedMessagesRef w' = processedMessagesRef w /\
  lastResultMessageRef w' = lastResultMessageRef w /\
  timers w' = timers w /\
  sent w' = sent w /\
  messages (state w') = messages (state w) /\
  isSpeaking (state w') = isSpeaking (state w) /\
  isProcessing (state w') = isProcessing (state w).
Proof.
  unfold startSpeech.
  destruct (List.length (availableVoices view) =? 0)%nat;
    [ destruct (0 <? List.length (getVoices w))%nat;
      [ destruct (findIndex preferred (getVoices w)) | ]
    | destruct (selectedVoiceIndex view
                  <? List.length (availableVoices view))%nat ];
    unfold synth_speak; cbn;
    destruct (speechSynthesis w); cbn; repeat split; reflexivity.
Qed.

(** The utterance [startSpeech] builds carries the requested text, and
    is appended to the synthesizer queue. *)
Lemma startSpeech_queue view text isSystem priority w q :
  speechSynthesis w = Some q ->
  exists u,
    u_text u = text /\
    speechSynthesis (startSpeech view text isSystem priority w)
    = Some (q ++ [u])%list.
Proof.
  intros Hq. unfold startSpeech.
  destruct (List.length (availableVoices view) =? 0)%nat;
    [ destruct (0 <? List.length (getVoices w))%nat;
      [ destruct (findIndex preferred (getVoices w)) | ]
    | destruct (selectedVoiceIndex view
                  <? List.length (availableVoices view))%nat ];
    unfold synth_speak; cbn; rewrite Hq; cbn;
    eexists; (split; [|reflexivity]); reflexivity.
Qed.

Ltac speak_cases view w isSystem priority :=
  unfold speak, synth_cancel;
  destruct (speechSynthesis w) eqn:?; [|try reflexivity];
  destruct priority, isSystem, (isSpeaking view); cbn -[startSpeech];
  try reflexivity.

(** A system, non-priority request never takes the cancel branch, so it
    arms no timer. *)
Lemma speak_system_timers view text w :
  timers (speak view text true false w) = timers w.
Proof.
  unfold speak. destruct (speechSynthesis w); [|reflexivity].
  destruct (isSpeaking view); cbn [orb andb negb]; [reflexivity|].
  apply (startSpeech_frame view text true false w).
Qed.

Lemma speak_reconnectAttemptsRef view text isSystem priority w :
  reconnectAttemptsRef (speak view text isSystem priority w)
  = reconnectAttemptsRef w.
Proof.
  speak_cases view w isSystem priority;
    apply (startSpeech_frame view text _ _ w).
Qed.

Lemma speak_lastResultMessageRef view text isSystem priority w :
  lastResultMessageRef (speak view text isSystem priority w)
  = lastResultMessageRef w.
Proof.
  speak_cases view w isSystem priority;
    apply (startSpeech_frame view text _ _ w).
Qed.

Lemma speak_processedMessagesRef view text isSystem priority w :
  processedMessagesRef (speak view text isSystem priority w)
  = processedMessagesRef w.
Proof.
  speak_cases view w isSystem priority;
    apply (startSpeech_frame view text _ _ w).
Qed.

(** *** Reconnect *)

Lemma reconnect_delay_capped n : reconnect_delay n <= 30000.
Proof. unfold reconnect_delay. apply Z.le_min_r. Qed.

Lemma reconnect_delay_saturates n : reconnect_delay (5 + n) = 30000.
Proof.
  unfold reconnect_delay. apply Z.min_r.
  rewrite Nat2Z.inj_add, Z.pow_add_r by lia.
  assert (1 <= 2 ^ Z.of_nat n) by (apply Z.pow_le_mono_r with (b := 0); lia).
  change (2 ^ Z.of_nat 5) with 32. lia.
Qed.

(** C2. A close event with a code other than 1000, after [n] reconnect
    attempts, arms exactly one timer, for [connectToBackend], after
    [min (1000 * 2^n) 30000] ms, and increments the attempt counter; a
    close with code 1000 arms no timer and leaves the counter; an open
    resets the counter to zero. The delays for attempts 0, 1, 2, 3 are
    1000, 2000, 4000, 8000 ms, and no delay exceeds 30000 ms. *)
Theorem reconnect_backoff view now code w :
  let n := reconnectAttemptsRef w in
  timers (ws_onclose view now code w)
    = (if code =? 1000 then timers w
       else (timers w
               ++ [(Z.min (1000 * 2 ^ Z.of_nat n) 30000,
                    CallConnectToBackend)])%list) /\
  reconnectAttemptsRef (ws_onclose view now code w)
    = (if code =? 1000 then n else S n) /\
  reconnectAttemptsRef (ws_onopen now w) = 0%nat /\
  map reconnect_delay [0; 1; 2; 3; 4; 5]%nat
    = [1000; 2000; 4000; 8000; 16000; 30000] /\
  (forall k, reconnect_delay k <= 30000) /\
  (forall k, reconnect_delay (5 + k) = 30000).
Proof.
  cbn zeta. unfold ws_onclose.
  destruct (code =? 1000) eqn:Hcode; cbn [negb].
  - repeat split; try reflexivity.
    + apply reconnect_delay_capped.
    + apply reconnect_delay_saturates.
  - set (w1 := addMessage now "system" (str "Disconnected from backend")
                 (setIsConnected false w)).
    set (w2 := speak view "Disconnected from voice browser backend"
                 true false w1).
    assert (Ht : timers w2 = timers w)
      by (unfold w2; rewrite speak_system_timers; reflexivity).
    assert (Hn : reconnectAttemptsRef w2 = reconnectAttemptsRef w)
      by (unfold w2; rewrite speak_reconnectAttemptsRef; reflexivity).
    repeat split; try reflexivity.
    + cbn. rewrite Ht, Hn. reflexivity.
    + cbn. rewrite Hn. reflexivity.
    + apply reconnect_delay_capped.
    + apply reconnect_delay_saturates.
Qed.

(** *** Speech synthesis policy *)

(** C5, as stated, fails twice on the same world (an utterance in flight,
    the render sees [isSpeaking]): a system request does not cancel the
    utterance in flight and is dropped; a request that is neither system
    nor priority is not dropped, it cancels the utterance in flight and
    schedules itself. *)
Lemma speak_system_dropped_plain_cancels :
  isSpeaking speakingView = true /\
  speechSynthesis speakingWorld = Some [inFlight] /\
  speak speakingView "Stopped listening" true false speakingWorld
    = speakingWorld /\
  speechSynthesis (speak speakingView "Done" false false speakingWorld)
    = Some [] /\
  timers (speak speakingView "Done" false false speakingWorld)
    = [(100, CallStartSpeech "Done" false false)].
Proof. repeat split; reflexivity. Qed.

Lemma speak_cancel_branch view text isSystem priority w q :
  speechSynthesis w = Some q ->
  priority || (isSpeaking view && negb isSystem) = true ->
  let w' := speak view text isSystem priority w in
  speechSynthesis w' = Some [] /\
  timers w'
    = (timers w ++ [(100, CallStartSpeech text isSystem priority)])%list /\
  currentUtteranceRef w' = None /\
  isSpeaking (state w') = false.
Proof.
  intros Hq Hc. cbn zeta. unfold speak, synth_cancel.
  rewrite Hq, Hc. cbn. repeat split; reflexivity.
Qed.

(** C5 (amended). With speech synthesis available:
    a priority request, and a request that is neither priority nor system
    made while the render sees [isSpeaking], empty the synthesizer queue
    (cancelling the utterance in flight), clear the speaking flag and arm
    one 100 ms timer that starts the new utterance;
    a system, non-priority request made while speaking is dropped without
    cancelling anything;
    a non-priority request made while not speaking is appended to the
    synthesizer queue at once.
    Hence [speak] never queues an utterance behind one it sees in
    flight. *)
Theorem speak_policy view text isSystem priority w q :
  speechSynthesis w = Some q ->
  let w' := speak view text isSystem priority w in
  let cancelled :=
    speechSynthesis w' = Some [] /\
    timers w'
      = (timers w ++ [(100, CallStartSpeech text isSystem priority)])%list /\
    currentUtteranceRef w' = None /\
    isSpeaking (state w') = false in
  (priority = true -> cancelled) /\
  (priority = false -> isSystem = false -> isSpeaking view = true ->
     cancelled) /\
  (priority = false -> isSystem = true -> isSpeaking view = true ->
     w' = w) /\
  (priority = false -> isSpeaking view = false ->
     timers w' = timers w /\
     exists u, u_text u = text /\
               speechSynthesis w' = Some (q ++ [u])%list) /\
  (isSpeaking view = true -> speechSynthesis w' = Some [] \/ w' = w).
Proof.
  intros Hq. cbn zeta.
  pose proof (speak_cancel_branch view text isSystem priority w q Hq)
    as Hcancel. cbn zeta in Hcancel.
  split; [|split; [|split; [|split]]].
  - intros ->. apply Hcancel; reflexivity.
  - intros -> -> Hs. apply Hcancel. rewrite Hs. reflexivity.
  - intros -> -> Hs. unfold speak. rewrite Hq, Hs. reflexivity.
  - intros -> Hs. unfold speak. rewrite Hq, Hs. cbn [orb andb negb].
    split.
    + apply (startSpeech_frame view text isSystem false w).
    + apply startSpeech_queue. exact Hq.
  - intros Hs. destruct priority.
    + left. apply Hcancel. reflexivity.
    + destruct isSystem.
      * right. unfold speak. rewrite Hq, Hs. reflexivity.
      * left. apply Hcancel. rewrite Hs. reflexivity.
Qed.

(** Two priority requests in a row each arm a timer; when both timers
    have fired, both utterances sit in the synthesizer queue, the older
    one first. *)
Example two_priority_requests_both_queued :
  let w := speak speakingView "Second" false true
             (speak speakingView "First" false true speakingWorld) in
  timers w = [(100, CallStartSpeech "First" false true);
              (100, CallStartSpeech "Second" false true)] /\
  option_map (map u_text)
    (speechSynthesis
       (fire speakingView (CallStartSpeech "Second" false true)
          (fire speakingView (CallStartSpeech "First" false true) w)))
  = Some ["First"; "Second"].
Proof. split; reflexivity. Qed.

Lemma speak_policy_witness :
  speechSynthesis speakingWorld = Some [inFlight] /\
  speechSynthesis (speak speakingView "Error: timeout" false true
                     speakingWorld) = Some [].
Proof.
  split; [reflexivity|].
  destruct (speak_policy speakingView "Error: timeout" false true
              speakingWorld [inFlight] eq_refl) as (H & _).
  apply H. reflexivity.
Defined.

(** *** Outbound commands *)

(** C6, as stated, fails for [cancel()] and [interrupt()]: with the
    channel closed, cancelling the task changes nothing at all, and
    interrupting sends nothing and adds no entry to the chat history. *)
Lemma cancel_and_interrupt_silent_when_closed :
  ws_open offlineWorld = false /\
  cancelCurrentTask speakingView offlineWorld = offlineWorld /\
  sent (interruptSpeech offlineWorld) = [] /\
  messages (state (interruptSpeech offlineWorld)) = [] /\
  timers (interruptSpeech offlineWorld) = [].
Proof. repeat split; reflexivity. Qed.

Lemma interruptSpeech_closed w :
  ws_open w = false ->
  sent (interruptSpeech w) = sent w /\
  messages (state (interruptSpeech w)) = messages (state w) /\
  timers (interruptSpeech w) = timers w.
Proof.
  intros Hc. unfold interruptSpeech, synth_cancel.
  destruct (speechSynthesis w) eqn:Hq; [|repeat split; reflexivity].
  unfold ws_open in *. cbn. rewrite Hc. repeat split; reflexivity.
Qed.

(** C6 (amended). While the channel is not open:
    [command(text)] sends nothing and reports the failure by appending
    the error entry [Not connected to backend] to the chat history;
    [cancel()] does nothing; [interrupt()] sends nothing and reports
    nothing (it only cancels local speech output). *)
Theorem outbound_when_closed view now command w :
  ws_open w = false ->
  sent (sendCommand now command w) = sent w /\
  messages (state (sendCommand now command w))
    = (messages (state w)
         ++ [mkMessage "error" (str "Not connected to backend") now])%list /\
  cancelCurrentTask view w = w /\
  sent (interruptSpeech w) = sent w /\
  messages (state (interruptSpeech w)) = messages (state w) /\
  timers (interruptSpeech w) = timers w.
Proof.
  intros Hc.
  destruct (interruptSpeech_closed w Hc) as (Hs & Hm & Ht).
  unfold sendCommand, cancelCurrentTask. rewrite Hc.
  repeat split; try assumption; reflexivity.
Qed.

Lemma outbound_when_closed_witness :
  ws_open offlineWorld = false /\
  messages (state (sendCommand 7000 "open example.com" offlineWorld))
    = [mkMessage "error" (str "Not connected to backend") 7000].
Proof.
  split; [reflexivity|].
  destruct (outbound_when_closed speakingView 7000 "open example.com"
              offlineWorld eq_refl) as (_ & H & _).
  exact H.
Defined.

(** *** Speech recognition *)

(** The branch the handler has for [stop]: in a render that sees
    [isSpeaking], the utterance in flight is interrupted, and, there being
    no [return] after the interruption, a final [stop] is sent to the
    backend as a command all the same. *)
Example stop_branch_has_no_return :
  isSpeaking speakingView = true /\
  speechSynthesis
    (recognition_onresult speakingView 5000 (mkResult "stop" true)
       speakingWorld) = Some [] /\
  sent (recognition_onresult speakingView 5000 (mkResult "stop" true)
          speakingWorld)
    = [mkFrame "interrupt" ""; mkFrame "command" "stop"].
Proof. repeat split; reflexivity. Qed.

(** The page, with an utterance in flight and the channel open, hears a
    final [stop]: the handler installed at mount leaves the utterance in
    the synthesizer queue, keeps the speaking flag, and sends [stop] to
    the backend as a command. *)
Example stop_heard_while_speaking :
  isSpeaking (state speakingWorld) = true /\
  includes (toLowerCase "stop") "stop" = true /\
  speechSynthesis
    (recognition_onresult mountView 5000 (mkResult "stop" true)
       speakingWorld) = Some [inFlight] /\
  isSpeaking
    (state (recognition_onresult mountView 5000 (mkResult "stop" true)
              speakingWorld)) = true /\
  currentUtteranceRef
    (recognition_onresult mountView 5000 (mkResult "stop" true)
       speakingWorld) = Some inFlight /\
  sent (recognition_onresult mountView 5000 (mkResult "stop" true)
          speakingWorld)
    = [mkFrame "command" "stop"].
Proof. repeat split; reflexivity. Qed.

(** C4. [recognition.onresult] tests the [isSpeaking] of the render it was
    created in, and [setupSpeechRecognition] runs once, from the mount
    effect, in the first render, where [isSpeaking] is [false]: on the
    page the test for [stop] never passes. Whatever the page is doing and
    whatever is heard, the handler leaves the synthesizer queue, the
    speaking flag and the utterance reference as they are and sends no
    interrupt frame; a text that is final and not blank is sent as a
    command frame, or, with the channel closed, reported as not
    connected. *)
Theorem stop_never_interrupts now event w :
  let w' := recognition_onresult mountView now event w in
  let command := trim (result_transcript event) in
  let finalized := isFinal event && negb (String.eqb command "") in
  speechSynthesis w' = speechSynthesis w /\
  isSpeaking (state w') = isSpeaking (state w) /\
  currentUtteranceRef w' = currentUtteranceRef w /\
  (ws_open w = true ->
     sent w'
       = (sent w
            ++ (if finalized then [mkFrame "command" command] else []))%list
     /\
     messages (state w')
       = (messages (state w)
            ++ (if finalized then [mkMessage "user" (str command) now]
                else []))%list) /\
  (ws_open w = false ->
     sent w' = sent w /\
     messages (state w')
       = (messages (state w)
            ++ (if finalized
                then [mkMessage "error" (str "Not connected to backend") now;
                      mkMessage "user" (str command) now]
                else []))%list).
Proof.
  cbn zeta. unfold recognition_onresult, mountView, initialState.
  cbn [isSpeaking andb].
  unfold sendCommand, ws_open.
  destruct (isFinal event); cbn;
    destruct (String.eqb (trim (result_transcript event)) ""); cbn;
    destruct (wsRef w) as [[]|] eqn:Hw; cbn; rewrite ?Hw; cbn;
    rewrite <- ?app_assoc, ?app_nil_r; cbn;
    (split; [reflexivity|]); (split; [reflexivity|]);
    (split; [reflexivity|]);
    (split; intros H; try discriminate H; split; reflexivity).
Qed.

End VoiceProperties.

(* ===================================================================== *)
(** ** Properties of inbound message handling *)
(* ===================================================================== *)

Section ChannelProperties.
Import JS Voice.

Ltac dispatch_cases :=
  unfold dispatch;
  repeat match goal with
         | |- context [if ?c then _ else _] => destruct c eqn:?
         | |- context [match ?x with _ => _ end] => destruct x eqn:?
         end.

(** *** Frames of [dispatch] *)

Lemma dispatch_processedMessagesRef view now ty payload w :
  processedMessagesRef (dispatch view now ty payload w)
  = processedMessagesRef w.
Proof.
  dispatch_cases; cbn; rewrite ?speak_processedMessagesRef; reflexivity.
Qed.

Lemma dispatch_lastResultMessageRef view now ty payload w :
  strict_eq ty "result" = false ->
  lastResultMessageRef (dispatch view now ty payload w)
  = lastResultMessageRef w.
Proof.
  intros Hty. unfold dispatch. rewrite Hty.
  repeat match goal with
         | |- context [if ?c then _ else _] => destruct c eqn:?
         | |- context [match ?x with _ => _ end] => destruct x eqn:?
         end; cbn; rewrite ?speak_lastResultMessageRef; reflexivity.
Qed.

Lemma strict_eq_result_not_speak ty :
  strict_eq ty "result" = true -> strict_eq ty "speak" = false.
Proof.
  unfold strict_eq. destruct ty as [[]|]; try discriminate.
  intros H. apply String.eqb_eq in H. subst. reflexivity.
Qed.

(** The [result] branch. *)
Lemma dispatch_result view now ty payload w t :
  strict_eq ty "result" = true ->
  text_of payload = Some t ->
  dispatch view now ty payload w
  = if String.eqb (lastResultMessageRef w) t
    then addMessage now "result" (str t) w
    else addMessage now "result" (str t)
           (speak view t false true (set_lastResultMessageRef t w)).
Proof.
  intros Hty Ht. unfold dispatch.
  rewrite (strict_eq_result_not_speak ty Hty), Hty, Ht. reflexivity.
Qed.

Lemma dispatch_result_unreadable view now ty payload w :
  strict_eq ty "result" = true ->
  text_of payload = None ->
  dispatch view now ty payload w = w.
Proof.
  intros Hty Ht. unfold dispatch.
  rewrite (strict_eq_result_not_speak ty Hty), Hty, Ht. reflexivity.
Qed.

(** *** The seen-set *)

Lemma set_has_middle k pre post : set_has k (pre ++ k :: post) = true.
Proof.
  unfold set_has. rewrite existsb_app. cbn. rewrite String.eqb_refl.
  apply orb_true_r.
Qed.

Lemma set_delete_head x rest : set_delete x (x :: rest) = rest.
Proof. cbn. rewrite String.eqb_refl. reflexivity. Qed.

(** The stored keys after [remember]: the key is appended unless already
    there, then the oldest key goes if more than 50 are held. *)
Lemma remember_keys key w :
  processedMessagesRef (remember key w)
  = let s := set_add key (processedMessagesRef w) in
    if (50 <? List.length s)%nat then
      match s with
      | firstItem :: rest =>
          if String.eqb firstItem "" then s else rest
      | [] => s
      end
    else s.
Proof.
  unfold remember, set_processedMessagesRef. cbn [processedMessagesRef].
  destruct (50 <? List.length (set_add key (processedMessagesRef w)))%nat;
    [|reflexivity].
  destruct (set_add key (processedMessagesRef w)) as [|x rest];
    [reflexivity|].
  destruct (String.eqb x ""); cbn [negb]; [reflexivity|].
  apply set_delete_head.
Qed.

(** A key with at most 48 younger keys behind it survives one more
    [remember], with at most one more key behind it. *)
Lemma remember_keeps key w k pre post :
  processedMessagesRef w = (pre ++ k :: post)%list ->
  (List.length post <= 48)%nat ->
  exists pre' post',
    processedMessagesRef (remember key w) = (pre' ++ k :: post')%list /\
    (List.length post' <= S (List.length post))%nat.
Proof.
  intros Hs Hlen. rewrite remember_keys, Hs. cbn zeta.
  unfold set_add.
  destruct (set_has key (pre ++ k :: post)) eqn:Hhas.
  - destruct pre as [|h pre'].
    + cbn [app]. 
      destruct (50 <? List.length (k :: post))%nat eqn:Hfull.
      * apply Nat.ltb_lt in Hfull. cbn in Hfull. lia.
      * exists [], post. split; [reflexivity|lia].
    + cbn [app].
      destruct (50 <? List.length (h :: pre' ++ k :: post))%nat.
      * destruct (String.eqb h "").
        -- exists (h :: pre'), post. split; [reflexivity|lia].
        -- exists pre', post. split; [reflexivity|lia].
      * exists (h :: pre'), post. split; [reflexivity|lia].
  - rewrite <- app_assoc. cbn [app].
    destruct pre as [|h pre'].
    + cbn [app].
      destruct (50 <? List.length (k :: post ++ [key]))%nat eqn:Hfull.
      * apply Nat.ltb_lt in Hfull. cbn in Hfull.
        rewrite length_app in Hfull. cbn in Hfull. lia.
      * exists [], (post ++ [key])%list. split; [reflexivity|].
        rewrite length_app. cbn. lia.
    + cbn [app].
      destruct (50 <? List.length (h :: pre' ++ k :: post ++ [key]))%nat.
      * destruct (String.eqb h "").
        -- exists (h :: pre'), (post ++ [key])%list.
           split; [reflexivity|]. rewrite length_app. cbn. lia.
        -- exists pre', (post ++ [key])%list.
           split; [reflexivity|]. rewrite length_app. cbn. lia.
      * exists (h :: pre'), (post ++ [key])%list.
        split; [reflexivity|]. rewrite length_app. cbn. lia.
Qed.

(** The keys after one inbound message: unchanged, or one [remember]. *)
Lemma ws_onmessage_keys view now event_data w :
  processedMessagesRef (ws_onmessage view now event_data w)
    = processedMessagesRef w \/
  exists key,
    processedMessagesRef (ws_onmessage view now event_data w)
    = processedMessagesRef (remember key w).
Proof.
  unfold ws_onmessage.
  destruct event_data as [data|]; [|left; reflexivity].
  destruct (messageWithTime now data) as [key|]; [|left; reflexivity].
  destruct (set_has key (processedMessagesRef w)); [left; reflexivity|].
  right. exists key.
  destruct (get_prop data "type"), (get_prop data "data");
    rewrite ?dispatch_processedMessagesRef; reflexivity.
Qed.

Lemma receive_keeps e w k pre post :
  processedMessagesRef w = (pre ++ k :: post)%list ->
  (List.length post <= 48)%nat ->
  exists pre' post',
    processedMessagesRef (receive e w) = (pre' ++ k :: post')%list /\
    (List.length post' <= S (List.length post))%nat.
Proof.
  intros Hs Hlen. destruct e as [[view now] event_data]. unfold receive.
  destruct (ws_onmessage_keys view now event_data w) as [H|[key H]];
    rewrite H.
  - exists pre, post. split; [assumption|lia].
  - apply (remember_keeps key w k pre post); assumption.
Qed.

Lemma receive_all_keeps l : forall w k pre post,
  processedMessagesRef w = (pre ++ k :: post)%list ->
  (List.length post + List.length l <= 49)%nat ->
  set_has k (processedMessagesRef (receive_all l w)) = true.
Proof.
  induction l as [|e rest IH]; intros w k pre post Hs Hlen.
  - cbn. rewrite Hs. apply set_has_middle.
  - cbn [receive_all]. cbn [List.length] in Hlen.
    destruct (receive_keeps e w k pre post Hs) as (pre' & post' & Hs' & Hl);
      [lia|].
    apply (IH _ k pre' post' Hs'). lia.
Qed.

Lemma append_nonempty (a b : string) : b <> "" -> (a ++ b)%string <> "".
Proof.
  intros Hb. destruct a as [|c a]; cbn; [exact Hb|discriminate].
Qed.

(** A key is never the empty string, so the truthiness test on
    [firstItem] always passes. *)
Lemma messageWithTime_nonempty now data key :
  messageWithTime now data = Some key -> key <> "".
Proof.
  unfold messageWithTime.
  destruct (get_prop data "type") as [ty|], (get_prop data "data");
    try discriminate.
  destruct (toString_val ty); [|discriminate].
  intros H. injection H as <-.
  apply append_nonempty. discriminate.
Qed.

(** The key depends on the type, the payload and the bucket only. *)
Lemma messageWithTime_same t1 d1 t2 d2 :
  get_prop d2 "type" = get_prop d1 "type" ->
  get_prop d2 "data" = get_prop d1 "data" ->
  t2 / 2000 = t1 / 2000 ->
  messageWithTime t2 d2 = messageWithTime t1 d1.
Proof.
  intros Hty Hd Hb. unfold messageWithTime. rewrite Hty, Hd, Hb.
  reflexivity.
Qed.

(** A message with a fresh key is handled by [dispatch] after the key
    has been recorded; any other message leaves the world as it is. *)
Lemma ws_onmessage_fresh view now data w key :
  messageWithTime now data = Some key ->
  set_has key (processedMessagesRef w) = false ->
  exists ty payload,
    get_prop data "type" = Some ty /\
    get_prop data "data" = Some payload /\
    ws_onmessage view now (Some data) w
    = dispatch view now ty payload (remember key w).
Proof.
  intros Hk Hfresh. unfold ws_onmessage. rewrite Hk, Hfresh.
  unfold messageWithTime in Hk.
  destruct (get_prop data "type") as [ty|]; [|discriminate].
  destruct (get_prop data "data") as [payload|]; [|discriminate].
  exists ty, payload. repeat split; reflexivity.
Qed.

Lemma ws_onmessage_seen view now data w key :
  messageWithTime now data = Some key ->
  set_has key (processedMessagesRef w) = true ->
  ws_onmessage view now (Some data) w = w.
Proof.
  intros Hk Hseen. unfold ws_onmessage. rewrite Hk, Hseen. reflexivity.
Qed.

Lemma remember_fresh_last key w :
  set_has key (processedMessagesRef w) = false ->
  exists pre,
    processedMessagesRef (remember key w) = (pre ++ [key])%list.
Proof.
  intros Hfresh. rewrite remember_keys. cbn zeta. unfold set_add.
  rewrite Hfresh.
  destruct (processedMessagesRef w) as [|h rest].
  - exists []. reflexivity.
  - cbn [app].
    destruct (50 <? List.length (h :: rest ++ [key]))%nat.
    + destruct (String.eqb h "").
      * exists (h :: rest). reflexivity.
      * exists rest. reflexivity.
    + exists (h :: rest). reflexivity.
Qed.

(** The invariant of the seen-set: non-empty keys, at most 50 of them. *)
Lemma remember_cap key w :
  key <> "" ->
  Forall (fun k => k <> "") (processedMessagesRef w) ->
  (List.length (processedMessagesRef w) <= 50)%nat ->
  Forall (fun k => k <> "") (processedMessagesRef (remember key w)) /\
  (List.length (processedMessagesRef (remember key w)) <= 50)%nat.
Proof.
  intros Hkey Hall Hlen. rewrite remember_keys. cbn zeta.
  assert (Hall' : Forall (fun k => k <> "")
                    (set_add key (processedMessagesRef w))).
  { unfold set_add. destruct (set_has key (processedMessagesRef w));
      [assumption|].
    apply Forall_app. split; [assumption|]. constructor; [assumption|].
    constructor. }
  assert (Hlen' : (List.length (set_add key (processedMessagesRef w))
                   <= 51)%nat).
  { unfold set_add. destruct (set_has key (processedMessagesRef w));
      [lia|]. rewrite length_app. cbn. lia. }
  destruct (50 <? List.length (set_add key (processedMessagesRef w)))%nat
    eqn:Hfull.
  - destruct (set_add key (processedMessagesRef w)) as [|h rest].
    + split; [constructor|cbn; lia].
    + inversion Hall' as [|? ? Hh Hrest]; subst.
      destruct (String.eqb_spec h ""); [contradiction|].
      split; [assumption|]. cbn in Hlen'. lia.
  - apply Nat.ltb_ge in Hfull. split; assumption.
Qed.

Lemma receive_cap e w :
  Forall (fun k => k <> "") (processedMessagesRef w) ->
  (List.length (processedMessagesRef w) <= 50)%nat ->
  Forall (fun k => k <> "") (processedMessagesRef (receive e w)) /\
  (List.length (processedMessagesRef (receive e w)) <= 50)%nat.
Proof.
  intros Hall Hlen. destruct e as [[view now] [data|]]; cbn [receive].
  - destruct (messageWithTime now data) as [key|] eqn:Hk.
    + destruct (set_has key (processedMessagesRef w)) eqn:Hs.
      * rewrite (ws_onmessage_seen view now data w key Hk Hs).
        split; assumption.
      * destruct (ws_onmessage_fresh view now data w key Hk Hs)
          as (ty & payload & _ & _ & ->).
        rewrite dispatch_processedMessagesRef.
        apply remember_cap; try assumption.
        apply (messageWithTime_nonempty now data). exact Hk.
    + unfold ws_onmessage. rewrite Hk. split; assumption.
  - split; assumption.
Qed.

Lemma receive_all_cap l : forall w,
  Forall (fun k => k <> "") (processedMessagesRef w) ->
  (List.length (processedMessagesRef w) <= 50)%nat ->
  (List.length (processedMessagesRef (receive_all l w)) <= 50)%nat.
Proof.
  induction l as [|e rest IH]; intros w Hall Hlen; cbn [receive_all].
  - exact Hlen.
  - destruct (receive_cap e w Hall Hlen) as (Hall' & Hlen').
    apply IH; assumption.
Qed.

(** With the set full, a fresh key evicts the oldest one. *)
Lemma full_set_evicts_oldest view now data w key :
  (List.length (processedMessagesRef w) = 50)%nat ->
  Forall (fun k => k <> "") (processedMessagesRef w) ->
  messageWithTime now data = Some key ->
  set_has key (processedMessagesRef w) = false ->
  processedMessagesRef (ws_onmessage view now (Some data) w)
  = (tl (processedMessagesRef w) ++ [key])%list.
Proof.
  intros Hlen Hall Hk Hfresh.
  destruct (ws_onmessage_fresh view now data w key Hk Hfresh)
    as (ty & payload & _ & _ & ->).
  rewrite dispatch_processedMessagesRef, remember_keys. cbn zeta.
  unfold set_add. rewrite Hfresh.
  destruct (processedMessagesRef w) as [|h rest]; [discriminate|].
  cbn [app tl].
  assert (Hfull : (50 <? List.length (h :: rest ++ [key]))%nat = true).
  { apply Nat.ltb_lt. cbn. rewrite length_app. cbn. cbn in Hlen. lia. }
  rewrite Hfull. inversion Hall; subst.
  destruct (String.eqb_spec h ""); [contradiction|reflexivity].
Qed.

(** C3, as stated, fails once 50 other keys arrive in between, all within
    one bucket: the key of the first message has been evicted, and the
    second, identical message is processed (spoken and appended to the
    chat history) again. *)
Lemma duplicate_processed_after_50_others :
  let first := (initialState, 1000, Some (speakFrame "Hello")) in
  let w := receive_all (first :: statusBurst initialState 1000 50)
             initialWorld in
  fresh 1000 (Some (speakFrame "Hello")) w = true /\
  messages (state (receive first w))
    = (messages (state w) ++ [mkMessage "assistant" (str "Hello") 1000])%list
  /\
  timers (receive first w)
    = (timers w ++ [(100, CallStartSpeech "Hello" false true)])%list.
Proof. vm_compute. repeat split; reflexivity. Qed.

(** C3 (amended). Take a message whose key is new when it arrives, and a
    second message with the same type and payload arriving in the same
    2-second bucket. The first is processed; the second is dropped (the
    world is left as it is) provided fewer than 50 other messages arrived
    in between. The seen-set, empty at start, never holds more than 50
    keys, and when it holds 50 a new key takes the place of the oldest
    one. *)
Theorem dedup_within_bucket :
  (forall v1 t1 d1 mid v2 t2 d2 w key,
     messageWithTime t1 d1 = Some key ->
     set_has key (processedMessagesRef w) = false ->
     get_prop d2 "type" = get_prop d1 "type" ->
     get_prop d2 "data" = get_prop d1 "data" ->
     t2 / 2000 = t1 / 2000 ->
     (List.length mid < 50)%nat ->
     let w1 := ws_onmessage v1 t1 (Some d1) w in
     let w2 := receive_all mid w1 in
     (exists ty payload,
        get_prop d1 "type" = Some ty /\
        get_prop d1 "data" = Some payload /\
        w1 = dispatch v1 t1 ty payload (remember key w)) /\
     ws_onmessage v2 t2 (Some d2) w2 = w2) /\
  (forall l w,
     processedMessagesRef w = [] ->
     (List.length (processedMessagesRef (receive_all l w)) <= 50)%nat) /\
  (forall view now data w key,
     (List.length (processedMessagesRef w) = 50)%nat ->
     Forall (fun k => k <> "") (processedMessagesRef w) ->
     messageWithTime now data = Some key ->
     set_has key (processedMessagesRef w) = false ->
     processedMessagesRef (ws_onmessage view now (Some data) w)
     = (tl (processedMessagesRef w) ++ [key])%list).
Proof.
  split; [|split].
  - intros v1 t1 d1 mid v2 t2 d2 w key Hk Hfresh Hty Hd Hb Hmid.
    cbn zeta.
    destruct (ws_onmessage_fresh v1 t1 d1 w key Hk Hfresh)
      as (ty & payload & Hty1 & Hd1 & Hw1).
    split; [exists ty, payload; repeat split; assumption|].
    apply (ws_onmessage_seen v2 t2 d2 _ key).
    + rewrite (messageWithTime_same t1 d1 t2 d2 Hty Hd Hb). exact Hk.
    + destruct (remember_fresh_last key w Hfresh) as (pre & Hpre).
      apply (receive_all_keeps mid _ key pre []).
      * rewrite Hw1, dispatch_processedMessagesRef. exact Hpre.
      * cbn. lia.
  - intros l w Hempty. apply receive_all_cap; rewrite Hempty.
    + constructor.
    + cbn. lia.
  - apply full_set_evicts_oldest.
Qed.

Lemma dedup_within_bucket_witness :
  let first := Some (speakFrame "Hello") in
  let w1 := ws_onmessage initialState 1000 first initialWorld in
  let w2 := receive_all (statusBurst initialState 1200 49) w1 in
  ws_onmessage initialState 1999 first w2 = w2.
Proof.
  cbn zeta. destruct dedup_within_bucket as (H & _).
  refine (proj2 (H initialState 1000 (speakFrame "Hello")
                   (statusBurst initialState 1200 49)
                   initialState 1999 (speakFrame "Hello") initialWorld
                   _ eq_refl eq_refl eq_refl eq_refl eq_refl _)).
  vm_compute. lia.
Defined.

(** *** The extra check on [result] messages *)

Lemma result_text_inv event_data t :
  result_text event_data = Some t ->
  exists data ty payload,
    event_data = Some data /\
    get_prop data "type" = Some ty /\
    get_prop data "data" = Some payload /\
    strict_eq ty "result" = true /\
    text_of payload = Some t.
Proof.
  unfold result_text. destruct event_data as [data|]; [|discriminate].
  destruct (get_prop data "type") as [ty|] eqn:Hty; [|discriminate].
  destruct (get_prop data "data") as [payload|] eqn:Hd; [|discriminate].
  destruct (strict_eq ty "result") eqn:Hr; [|discriminate].
  intros Ht. exists data, ty, payload. repeat split; assumption.
Qed.

Lemma fresh_inv now data w :
  fresh now (Some data) w = true ->
  exists key,
    messageWithTime now data = Some key /\
    set_has key (processedMessagesRef w) = false.
Proof.
  unfold fresh. destruct (messageWithTime now data) as [key|];
    [|discriminate].
  intros H. exists key. split; [reflexivity|].
  destruct (set_has key (processedMessagesRef w)); [discriminate|].
  reflexivity.
Qed.

(** A [result] message that is processed. *)
Lemma receive_result view now event_data w t :
  result_text event_data = Some t ->
  fresh now event_data w = true ->
  exists key,
    ws_onmessage view now event_data w
    = if String.eqb (lastResultMessageRef w) t
      then addMessage now "result" (str t) (remember key w)
      else addMessage now "result" (str t)
             (speak view t false true
                (set_lastResultMessageRef t (remember key w))).
Proof.
  intros Ht Hfresh.
  destruct (result_text_inv event_data t Ht)
    as (data & ty & payload & -> & Hty & Hd & Hr & Htext).
  destruct (fresh_inv now data w Hfresh) as (key & Hk & Hs).
  destruct (ws_onmessage_fresh view now data w key Hk Hs)
    as (ty' & payload' & Hty' & Hd' & ->).
  rewrite Hty in Hty'. rewrite Hd in Hd'.
  injection Hty' as <-. injection Hd' as <-.
  exists key. rewrite (dispatch_result view now ty payload _ t Hr Htext).
  reflexivity.
Qed.

(** After it, the reference holds its text. *)
Lemma receive_result_sets view now event_data w t :
  result_text event_data = Some t ->
  fresh now event_data w = true ->
  lastResultMessageRef (ws_onmessage view now event_data w) = t.
Proof.
  intros Ht Hfresh.
  destruct (receive_result view now event_data w t Ht Hfresh) as (key & ->).
  destruct (String.eqb_spec (lastResultMessageRef w) t) as [E|E]; cbn.
  - exact E.
  - rewrite speak_lastResultMessageRef. reflexivity.
Qed.

(** Any other message leaves the reference alone. *)
Lemma receive_other e w :
  processes_result e w = false ->
  lastResultMessageRef (receive e w) = lastResultMessageRef w.
Proof.
  destruct e as [[view now] event_data]. unfold processes_result, receive.
  intros Hp.
  destruct event_data as [data|]; [|reflexivity].
  destruct (messageWithTime now data) as [key|] eqn:Hk;
    [|unfold ws_onmessage; rewrite Hk; reflexivity].
  destruct (set_has key (processedMessagesRef w)) eqn:Hs;
    [rewrite (ws_onmessage_seen view now data w key Hk Hs); reflexivity|].
  destruct (ws_onmessage_fresh view now data w key Hk Hs)
    as (ty & payload & Hty & Hd & ->).
  assert (Hfresh : fresh now (Some data) w = true)
    by (unfold fresh; rewrite Hk, Hs; reflexivity).
  rewrite Hfresh in Hp.
  unfold result_text in Hp. rewrite Hty, Hd in Hp.
  destruct (strict_eq ty "result") eqn:Hr.
  - destruct (text_of payload) eqn:Htext; [discriminate|].
    rewrite (dispatch_result_unreadable view now ty payload _ Hr Htext).
    reflexivity.
  - rewrite (dispatch_lastResultMessageRef view now ty payload _ Hr).
    reflexivity.
Qed.

Lemma receive_all_other l : forall w,
  no_result_processed l w = true ->
  lastResultMessageRef (receive_all l w) = lastResultMessageRef w.
Proof.
  induction l as [|e rest IH]; intros w H; cbn in *; [reflexivity|].
  apply andb_true_iff in H. destruct H as (He & Hrest).
  apply negb_true_iff in He.
  rewrite (IH _ Hrest). apply receive_other. exact He.
Qed.

(** C10. Let a [result] message with text [t] be processed, and let no
    other [result] message be processed after it. A later [result]
    message with the same text that gets past the time-window check,
    whatever its arrival time, is appended to the chat history and
    nothing else happens: no speech request is made (the synthesizer
    queue, the timers and the speaking flag are left as they are). *)
Theorem repeated_result_not_spoken v1 t1 m1 mid v2 t2 m2 w t :
  result_text m1 = Some t ->
  fresh t1 m1 w = true ->
  let w1 := ws_onmessage v1 t1 m1 w in
  no_result_processed mid w1 = true ->
  let w2 := receive_all mid w1 in
  result_text m2 = Some t ->
  fresh t2 m2 w2 = true ->
  let w3 := ws_onmessage v2 t2 m2 w2 in
  (exists key, w3 = addMessage t2 "result" (str t) (remember key w2)) /\
  messages (state w3)
    = (messages (state w2) ++ [mkMessage "result" (str t) t2])%list /\
  speechSynthesis w3 = speechSynthesis w2 /\
  timers w3 = timers w2 /\
  isSpeaking (state w3) = isSpeaking (state w2) /\
  currentUtteranceRef w3 = currentUtteranceRef w2.
Proof.
  intros Ht1 Hf1 w1 Hmid w2 Ht2 Hf2 w3.
  assert (Hlast : lastResultMessageRef w2 = t).
  { unfold w2. rewrite (receive_all_other mid w1 Hmid).
    apply receive_result_sets; assumption. }
  destruct (receive_result v2 t2 m2 w2 t Ht2 Hf2) as (key & Hw3).
  fold w3 in Hw3. rewrite Hlast, String.eqb_refl in Hw3.
  split; [exists key; exact Hw3|].
  rewrite Hw3. repeat split; reflexivity.
Qed.

Lemma repeated_result_not_spoken_witness :
  let m := Some (resultFrame "Done") in
  let w1 := ws_onmessage initialState 1000 m initialWorld in
  let w2 := receive_all [(initialState, 2500, Some (statusFrame "Ready"))]
              w1 in
  timers (ws_onmessage initialState 60000 m w2) = timers w2.
Proof.
  cbn zeta.
  refine (proj1 (proj2 (proj2 (proj2
    (repeated_result_not_spoken initialState 1000
       (Some (resultFrame "Done"))
       [(initialState, 2500, Some (statusFrame "Ready"))]
       initialState 60000 (Some (resultFrame "Done")) initialWorld "Done"
       eq_refl eq_refl eq_refl eq_refl _))))).
  vm_compute. reflexivity.
Defined.

End ChannelProperties.

(* ===================================================================== *)
(** ** Properties of the task page *)
(* ===================================================================== *)

Section HomeProperties.
Import JS Home.

(** *** Typewriter *)

(** [startTypewriterEffect] touches the typewriter cells and the
    intervals only. *)
Lemma startTypewriterEffect_frame steps s :
  let s' := startTypewriterEffect steps s in
  activeTask s' = activeTask s /\
  latestThought s' = latestThought s /\
  calls s' = calls s.
Proof.
  cbn zeta. unfold startTypewriterEffect.
  destruct (typewriterIntervalRef s);
    destruct (List.length steps =? 0)%nat;
    try destruct (List.length (filter nonBlank steps) =? 0)%nat;
    cbn; repeat split; reflexivity.
Qed.

(** With at least one step that is not blank, the interval the reference
    pointed to is cleared and a new one is armed: 25 ms period, 2
    characters per firing, starting at position 0 of the joined steps,
    on an empty display. *)
Lemma startTypewriterEffect_arms steps s :
  filter nonBlank steps <> [] ->
  let s' := startTypewriterEffect steps s in
  intervals s'
    = ((match typewriterIntervalRef s with
        | Some h =>
            filter (fun e => negb (Nat.eqb (fst e) h)) (intervals s)
        | None => intervals s
        end)
         ++ [(nextHandle s,
              mkTypewriter
                (join (newline ++ newline) (filter nonBlank steps))
                0 2 25)])%list /\
  typewriterIntervalRef s' = Some (nextHandle s) /\
  displayedText s' = "" /\
  isTyping s' = true.
Proof.
  intros Hne. cbn zeta. unfold startTypewriterEffect.
  assert (Hsteps : (List.length steps =? 0)%nat = false).
  { destruct steps; [contradiction Hne; reflexivity|reflexivity]. }
  assert (Hf : (List.length (filter nonBlank steps) =? 0)%nat = false).
  { destruct (filter nonBlank steps); [contradiction Hne; reflexivity|].
    reflexivity. }
  rewrite Hsteps, Hf.
  destruct (typewriterIntervalRef s); cbn; repeat split; reflexivity.
Qed.

(** A step made of no-break spaces is blank: it is filtered out, and
    steps that are all blank show the placeholder. *)
Example blank_steps_show_the_placeholder :
  nonBlank (String (ascii_of_nat 160) (String (ascii_of_nat 160) ""))
  = false /\
  displayedText
    (startTypewriterEffect [String (ascii_of_nat 160) ""; "  "] idle)
  = "(No specific steps outlined)".
Proof. split; reflexivity. Qed.

(** A firing before the end of the text appends the next
    [charsPerFrame] characters. *)
Lemma typewriter_tick_reveals h s tw :
  find_interval h (intervals s) = Some tw ->
  (currentPosition tw < String.length (fullText tw))%nat ->
  displayedText (typewriter_tick h s)
  = displayedText s
      ++ substring (currentPosition tw)
           (currentPosition tw + charsPerFrame tw) (fullText tw).
Proof.
  intros Hfind Hpos. unfold typewriter_tick. rewrite Hfind.
  apply Nat.ltb_lt in Hpos. rewrite Hpos. reflexivity.
Qed.

(** Clearing an interval removes it, and removes no other. *)
Lemma find_interval_cleared h l :
  find_interval h (filter (fun e => negb (Nat.eqb (fst e) h)) l) = None.
Proof.
  induction l as [|[h0 tw0] rest IH]; cbn; [reflexivity|].
  destruct (Nat.eqb h0 h) eqn:E; cbn; [exact IH|].
  rewrite Nat.eqb_sym, E. exact IH.
Qed.

Lemma find_interval_filter h f l :
  find_interval h l = None -> find_interval h (filter f l) = None.
Proof.
  induction l as [|[h0 tw0] rest IH]; cbn; [reflexivity|].
  destruct (Nat.eqb h h0) eqn:E; [discriminate|]. intros H.
  destruct (f (h0, tw0)); cbn; [rewrite E|]; apply IH; exact H.
Qed.

(** Once an interval is gone, its firings change nothing. *)
Lemma typewriter_ticks_dead h : forall k s,
  find_interval h (intervals s) = None -> typewriter_ticks k h s = s.
Proof.
  induction k as [|k IH]; intros s H; cbn [typewriter_ticks]; [reflexivity|].
  unfold typewriter_tick at 1. rewrite H. apply IH. exact H.
Qed.

(** *** Planner-thought polling *)

(** The cleanup touches the live intervals only. *)
Lemma thoughtsEffectCleanup_frame s :
  let s' := thoughtsEffectCleanup s in
  activeTask s' = activeTask s /\
  latestThought s' = latestThought s /\
  calls s' = calls s /\
  displayedText s' = displayedText s /\
  isTyping s' = isTyping s /\
  typewriterIntervalRef s' = typewriterIntervalRef s /\
  nextHandle s' = nextHandle s.
Proof.
  cbn zeta. unfold thoughtsEffectCleanup.
  destruct (typewriterIntervalRef s) eqn:E; cbn; rewrite ?E;
    repeat split; reflexivity.
Qed.

(** After the cleanup, the interval the reference points to is gone. *)
Lemma thoughtsEffectCleanup_clears s h :
  typewriterIntervalRef s = Some h ->
  find_interval h (intervals (thoughtsEffectCleanup s)) = None.
Proof.
  intros E. unfold thoughtsEffectCleanup. rewrite E. cbn.
  apply find_interval_cleared.
Qed.

Lemma thought_changed_same s s' :
  latestThought s' = latestThought s -> thought_changed s s' = false.
Proof.
  intros E. unfold thought_changed. rewrite E.
  destruct (latestThought s) as [t|]; [|reflexivity].
  cbn. rewrite Z.eqb_refl. reflexivity.
Qed.

Lemma thought_changed_new s s' l :
  latestThought s' = Some l ->
  is_new (latestThought s) (Some l) = true ->
  thought_changed s s' = true.
Proof. intros E H. unfold thought_changed. rewrite E. exact H. Qed.

Lemma restart_frame taskId l s :
  activeTask (restart taskId l s) = activeTask s /\
  latestThought (restart taskId l s) = Some l /\
  calls (restart taskId l s)
    = (calls s ++ [CallMarkPlannerThoughtsSeen taskId])%list.
Proof.
  unfold restart.
  destruct (startTypewriterEffect_frame (next_steps (content l))
              (setLatestThought (Some l) s)) as (Ha & Hl & Hc).
  cbn zeta in *. cbn [activeTask latestThought calls issue].
  rewrite Ha, Hl, Hc. repeat split; reflexivity.
Qed.

Lemma poll_running s task data l :
  activeTask s = Some task ->
  toLowerCase (status task) = "running" ->
  latest data = Some l ->
  poll (Some data) s
  = if is_new (latestThought s) (Some l)
    then thoughtsEffectCleanup
           (restart (id task) l (issue (CallFetchPlannerThoughts (id task)) s))
    else issue (CallFetchPlannerThoughts (id task)) s.
Proof.
  intros Ht Hr Hl. unfold poll, fetchThoughts.
  rewrite Ht, Hr, Hl. cbn [String.eqb Ascii.eqb Bool.eqb negb orb].
  destruct (is_new (latestThought s) (Some l)) eqn:Hnew.
  - rewrite (thought_changed_new s _ l); [reflexivity| |exact Hnew].
    apply (restart_frame (id task) l
             (issue (CallFetchPlannerThoughts (id task)) s)).
  - rewrite thought_changed_same; reflexivity.
Qed.

Lemma poll_new s task data l :
  activeTask s = Some task ->
  toLowerCase (status task) = "running" ->
  latest data = Some l ->
  is_new (latestThought s) (Some l) = true ->
  let s' := poll (Some data) s in
  activeTask s' = Some task /\
  latestThought s' = Some l /\
  calls s'
    = (calls s ++ [CallFetchPlannerThoughts (id task);
                   CallMarkPlannerThoughtsSeen (id task)])%list.
Proof.
  intros Ht Hr Hl Hnew. cbn zeta.
  rewrite (poll_running s task data l Ht Hr Hl), Hnew.
  destruct (thoughtsEffectCleanup_frame
              (restart (id task) l
                 (issue (CallFetchPlannerThoughts (id task)) s)))
    as (Ca & Cl & Cc & _).
  cbn zeta in Ca, Cl, Cc. rewrite Ca, Cl, Cc.
  destruct (restart_frame (id task) l
              (issue (CallFetchPlannerThoughts (id task)) s))
    as (Ha & Hlt & Hc).
  rewrite Ha, Hlt, Hc. cbn. rewrite <- app_assoc.
  repeat split; try reflexivity. exact Ht.
Qed.

Lemma poll_repeat s task data l :
  activeTask s = Some task ->
  toLowerCase (status task) = "running" ->
  latest data = Some l ->
  is_new (latestThought s) (Some l) = false ->
  let s' := poll (Some data) s in
  activeTask s' = Some task /\
  latestThought s' = latestThought s /\
  calls s' = (calls s ++ [CallFetchPlannerThoughts (id task)])%list /\
  intervals s' = intervals s /\
  displayedText s' = displayedText s.
Proof.
  intros Ht Hr Hl Hnew. cbn zeta.
  rewrite (poll_running s task data l Ht Hr Hl), Hnew. cbn.
  repeat split; try reflexivity. exact Ht.
Qed.

Lemma is_new_spec stored l :
  is_new stored (Some l) = true <->
  stored = None \/
  exists t, stored = Some t /\ timestamp l <> timestamp t.
Proof.
  unfold is_new. destruct stored as [t|].
  - destruct (Z.eqb_spec (timestamp l) (timestamp t)) as [E|E]; cbn; split.
    + discriminate.
    + intros [H|(t' & H & Hne)]; [discriminate|].
      injection H as <-. contradiction.
    + intros _. right. exists t. split; [reflexivity|exact E].
    + reflexivity.
  - split; [intros _; left; reflexivity|reflexivity].
Qed.

Lemma not_new_spec stored l :
  is_new stored (Some l) = false <->
  exists t, stored = Some t /\ timestamp l = timestamp t.
Proof.
  unfold is_new. destruct stored as [t|].
  - destruct (Z.eqb_spec (timestamp l) (timestamp t)) as [E|E]; cbn; split.
    + intros _. exists t. split; [reflexivity|exact E].
    + reflexivity.
    + discriminate.
    + intros (t' & H & He). injection H as <-. contradiction.
  - split; [discriminate|]. intros (t & H & _). discriminate.
Qed.

(** Three polls in a row. *)
Lemma polls_three s task a b c flags :
  activeTask s = Some task ->
  toLowerCase (status task) = "running" ->
  flags = (is_new (latestThought s) (Some a),
           is_new (if is_new (latestThought s) (Some a)
                   then Some a else latestThought s) (Some b)) ->
  let after2 :=
    if snd flags then Some b
    else if fst flags then Some a else latestThought s in
  let mark (f : bool) :=
    if f then [CallMarkPlannerThoughtsSeen (id task)] else [] in
  calls (polls [Some (mkThoughts true (Some a) [] true);
                Some (mkThoughts true (Some b) [] true);
                Some (mkThoughts true (Some c) [] true)] s)
  = (calls s
       ++ CallFetchPlannerThoughts (id task) :: mark (fst flags)
       ++ CallFetchPlannerThoughts (id task) :: mark (snd flags)
       ++ CallFetchPlannerThoughts (id task)
            :: mark (is_new after2 (Some c)))%list.
Proof.
  intros Ht Hr ->. cbn zeta. cbn [polls fst snd].
  set (ra := mkThoughts true (Some a) [] true).
  set (rb := mkThoughts true (Some b) [] true).
  set (rc := mkThoughts true (Some c) [] true).
  assert (H1 : activeTask (poll (Some ra) s) = Some task /\
               latestThought (poll (Some ra) s)
               = (if is_new (latestThought s) (Some a)
                  then Some a else latestThought s) /\
               calls (poll (Some ra) s)
               = (calls s ++ CallFetchPlannerThoughts (id task)
                    :: (if is_new (latestThought s) (Some a)
                        then [CallMarkPlannerThoughtsSeen (id task)]
                        else []))%list).
  { destruct (is_new (latestThought s) (Some a)) eqn:Ha.
    - destruct (poll_new s task ra a Ht Hr eq_refl Ha) as (A & B & C).
      repeat split; assumption.
    - destruct (poll_repeat s task ra a Ht Hr eq_refl Ha)
        as (A & B & C & _).
      repeat split; assumption. }
  destruct H1 as (Ht1 & Hl1 & Hc1).
  set (s1 := poll (Some ra) s) in *.
  assert (H2 : activeTask (poll (Some rb) s1) = Some task /\
               latestThought (poll (Some rb) s1)
               = (if is_new (latestThought s1) (Some b)
                  then Some b else latestThought s1) /\
               calls (poll (Some rb) s1)
               = (calls s1 ++ CallFetchPlannerThoughts (id task)
                    :: (if is_new (latestThought s1) (Some b)
                        then [CallMarkPlannerThoughtsSeen (id task)]
                        else []))%list).
  { destruct (is_new (latestThought s1) (Some b)) eqn:Hb.
    - destruct (poll_new s1 task rb b Ht1 Hr eq_refl Hb) as (A & B & C).
      repeat split; assumption.
    - destruct (poll_repeat s1 task rb b Ht1 Hr eq_refl Hb)
        as (A & B & C & _).
      repeat split; assumption. }
  destruct H2 as (Ht2 & Hl2 & Hc2).
  set (s2 := poll (Some rb) s1) in *.
  assert (H3 : calls (poll (Some rc) s2)
               = (calls s2 ++ CallFetchPlannerThoughts (id task)
                    :: (if is_new (latestThought s2) (Some c)
                        then [CallMarkPlannerThoughtsSeen (id task)]
                        else []))%list).
  { destruct (is_new (latestThought s2) (Some c)) eqn:Hc.
    - apply (poll_new s2 task rc c Ht2 Hr eq_refl Hc).
    - apply (poll_repeat s2 task rc c Ht2 Hr eq_refl Hc). }
  rewrite H3, Hc2, Hc1, Hl2, Hl1.
  destruct (is_new (latestThought s) (Some a));
    match goal with
    | |- context [is_new ?x (Some b)] => destruct (is_new x (Some b))
    end;
    cbn [app]; rewrite <- ?app_assoc; reflexivity.
Qed.

(** C8. While the task is running, a fetched thought is new exactly when
    no thought is stored or its timestamp differs from the stored one's.
    A new thought is stored and triggers a mark-seen call, and
    [fetchThoughts] restarts the typewriter over its next steps: with a
    step that is not blank it arms a fresh interval (25 ms period, 2
    characters per firing, from position 0 on an empty display). But
    storing the thought changes [latestThought], on which the polling
    effect depends: the render that follows runs the effect's cleanup,
    which clears the interval just armed. So after the poll the interval
    is gone while the reference still names it, no firing ever reveals a
    character, and the typing flag stays set. A thought with the stored
    timestamp changes nothing. For timestamps [T1; T2; T1] with
    [T1 <> T2], the fetches and mark-seen calls are those of a restart at
    each change of timestamp. *)
Theorem new_thought_typewriter_cleared s task :
  activeTask s = Some task ->
  toLowerCase (status task) = "running" ->
  let fetch := CallFetchPlannerThoughts (id task) in
  let seen := CallMarkPlannerThoughtsSeen (id task) in
  (forall data l,
     latest data = Some l ->
     (latestThought s = None \/
      exists t, latestThought s = Some t /\ timestamp l <> timestamp t) ->
     let handled := restart (id task) l (issue fetch s) in
     fetchThoughts s false (Some data) s = handled /\
     poll (Some data) s = thoughtsEffectCleanup handled /\
     latestThought (poll (Some data) s) = Some l /\
     calls (poll (Some data) s) = (calls s ++ [fetch; seen])%list /\
     (filter nonBlank (next_steps (content l)) <> [] ->
      intervals handled
        = ((match typewriterIntervalRef s with
            | Some h =>
                filter (fun e => negb (Nat.eqb (fst e) h)) (intervals s)
            | None => intervals s
            end)
             ++ [(nextHandle s,
                  mkTypewriter
                    (join (newline ++ newline)
                       (filter nonBlank (next_steps (content l))))
                    0 2 25)])%list /\
      typewriterIntervalRef (poll (Some data) s) = Some (nextHandle s) /\
      find_interval (nextHandle s) (intervals (poll (Some data) s)) = None /\
      (forall k,
         displayedText
           (typewriter_ticks k (nextHandle s) (poll (Some data) s)) = "" /\
         isTyping
           (typewriter_ticks k (nextHandle s) (poll (Some data) s))
         = true))) /\
  (forall data l t,
     latest data = Some l ->
     latestThought s = Some t ->
     timestamp l = timestamp t ->
     poll (Some data) s = issue fetch s /\
     calls (poll (Some data) s) = (calls s ++ [fetch])%list /\
     latestThought (poll (Some data) s) = Some t /\
     intervals (poll (Some data) s) = intervals s /\
     displayedText (poll (Some data) s) = displayedText s) /\
  (forall a b c,
     timestamp c = timestamp a ->
     timestamp b <> timestamp a ->
     let replies := [Some (mkThoughts true (Some a) [] true);
                     Some (mkThoughts true (Some b) [] true);
                     Some (mkThoughts true (Some c) [] true)] in
     ((exists t, latestThought s = Some t /\ timestamp t = timestamp a) ->
      calls (polls replies s)
      = (calls s ++ [fetch; fetch; seen; fetch; seen])%list) /\
     (latestThought s = None ->
      calls (polls replies s)
      = (calls s ++ [fetch; seen; fetch; seen; fetch; seen])%list)).
Proof.
  intros Ht Hr. cbn zeta. split; [|split].
  - intros data l Hl Hnew. apply is_new_spec in Hnew.
    pose proof (poll_running s task data l Ht Hr Hl) as Hp.
    rewrite Hnew in Hp.
    destruct (poll_new s task data l Ht Hr Hl Hnew) as (_ & Hlt & Hc).
    split.
    { unfold fetchThoughts. rewrite Ht, Hr, Hl, Hnew. reflexivity. }
    split; [exact Hp|]. split; [exact Hlt|]. split; [exact Hc|].
    intros Hsteps.
    set (handled := restart (id task) l
                      (issue (CallFetchPlannerThoughts (id task)) s)) in *.
    assert (Harm :
      intervals handled
        = ((match typewriterIntervalRef s with
            | Some h =>
                filter (fun e => negb (Nat.eqb (fst e) h)) (intervals s)
            | None => intervals s
            end)
             ++ [(nextHandle s,
                  mkTypewriter
                    (join (newline ++ newline)
                       (filter nonBlank (next_steps (content l))))
                    0 2 25)])%list /\
      typewriterIntervalRef handled = Some (nextHandle s) /\
      displayedText handled = "" /\
      isTyping handled = true).
    { unfold handled, restart.
      cbn [intervals typewriterIntervalRef displayedText isTyping issue].
      apply (startTypewriterEffect_arms (next_steps (content l))
               (setLatestThought (Some l)
                  (issue (CallFetchPlannerThoughts (id task)) s)) Hsteps). }
    destruct Harm as (Hi & Href & Hd & Hty).
    destruct (thoughtsEffectCleanup_frame handled)
      as (_ & _ & _ & Cd & Cty & Cref & _).
    cbn zeta in Cd, Cty, Cref.
    pose proof (thoughtsEffectCleanup_clears handled _ Href) as Hgone.
    split; [exact Hi|]. rewrite Hp.
    split; [rewrite Cref; exact Href|]. split; [exact Hgone|].
    intros k. rewrite (typewriter_ticks_dead _ k _ Hgone).
    rewrite Cd, Cty. split; assumption.
  - intros data l t Hl Hst Hts.
    assert (Hold : is_new (latestThought s) (Some l) = false).
    { apply not_new_spec. exists t. split; assumption. }
    pose proof (poll_running s task data l Ht Hr Hl) as Hp.
    rewrite Hold in Hp.
    destruct (poll_repeat s task data l Ht Hr Hl Hold)
      as (_ & Hlt & Hc & Hi & Hd).
    rewrite Hst in Hlt. repeat split; assumption.
  - intros a b c Hca Hba. cbn zeta. split.
    + intros (t & Hst & Hta).
      rewrite (polls_three s task a b c _ Ht Hr eq_refl).
      cbn [fst snd]. rewrite Hst.
      assert (Ha : is_new (Some t) (Some a) = false).
      { apply not_new_spec. exists t. split; [reflexivity|]. congruence. }
      rewrite Ha.
      assert (Hb : is_new (Some t) (Some b) = true).
      { apply is_new_spec. right. exists t. split; [reflexivity|].
        congruence. }
      rewrite Hb.
      assert (Hc : is_new (Some b) (Some c) = true).
      { apply is_new_spec. right. exists b. split; [reflexivity|].
        congruence. }
      rewrite Hc. reflexivity.
    + intros Hnone.
      rewrite (polls_three s task a b c _ Ht Hr eq_refl).
      cbn [fst snd]. rewrite Hnone.
      change (is_new None (Some a)) with true. cbn match.
      assert (Hb : is_new (Some a) (Some b) = true).
      { apply is_new_spec. right. exists a. split; [reflexivity|].
        exact Hba. }
      rewrite Hb.
      assert (Hc : is_new (Some b) (Some c) = true).
      { apply is_new_spec. right. exists b. split; [reflexivity|].
        congruence. }
      rewrite Hc. reflexivity.
Qed.

Lemma new_thought_typewriter_cleared_witness :
  activeTask (withTask "Running")
    = Some (mkTask "t1" "Search for cats" "Running") /\
  toLowerCase "Running" = "running" /\
  intervals (fetchThoughts (withTask "Running") false
               (replyAt 100 ["Open the page"]) (withTask "Running"))
    = [(0%nat, mkTypewriter "Open the page" 0 2 25)] /\
  find_interval 0 (intervals (poll (replyAt 100 ["Open the page"])
                                (withTask "Running"))) = None /\
  displayedText
    (typewriter_ticks 3 0 (poll (replyAt 100 ["Open the page"])
                             (withTask "Running"))) = "".
Proof.
  split; [reflexivity|]. split; [reflexivity|].
  destruct (new_thought_typewriter_cleared (withTask "Running")
              (mkTask "t1" "Search for cats" "Running") eq_refl eq_refl)
    as (H & _).
  destruct (H (mkThoughts true (Some (thoughtAt 100 ["Open the page"]))
                 [] true)
              (thoughtAt 100 ["Open the page"]) eq_refl
              (or_introl eq_refl))
    as (Hf & _ & _ & _ & Hsteps).
  destruct Hsteps as (Hi & _ & Hgone & Hk); [discriminate|].
  split; [|split; [exact Hgone|exact (proj1 (Hk 3%nat))]].
  change (replyAt 100 ["Open the page"])
    with (Some (mkThoughts true (Some (thoughtAt 100 ["Open the page"]))
                  [] true)).
  rewrite Hf. exact Hi.
Defined.

(** What the interval callback does at each firing, had the interval been
    left alive: two more characters, and the firing after the last one
    stops the effect. *)
Example typewriter_reveals_two_per_tick :
  let s := startTypewriterEffect ["Open"; "  "] idle in
  map (fun k => displayedText (typewriter_ticks k 0 s)) [0; 1; 2; 3]%nat
    = [""; "Op"; "Open"; "Open"] /\
  map (fun k => isTyping (typewriter_ticks k 0 s)) [0; 1; 2; 3]%nat
    = [true; true; true; false].
Proof. split; reflexivity. Qed.

(** A new thought with the one step [Open], on a running task: the
    handler arms the interval, the cleanup of the effect clears it, and
    the firings that would have shown [Op] and [Open] show nothing. *)
Example new_thought_reveals_nothing :
  let handled :=
    fetchThoughts (withTask "running") false (replyAt 100 ["Open"])
      (withTask "running") in
  let s := poll (replyAt 100 ["Open"]) (withTask "running") in
  intervals handled = [(0%nat, mkTypewriter "Open" 0 2 25)] /\
  displayedText (typewriter_ticks 2 0 handled) = "Open" /\
  latestThought s = Some (thoughtAt 100 ["Open"]) /\
  intervals s = [] /\
  map (fun k => displayedText (typewriter_ticks k 0 s)) [0; 1; 2; 3]%nat
    = [""; ""; ""; ""] /\
  map (fun k => isTyping (typewriter_ticks k 0 s)) [0; 1; 2; 3]%nat
    = [true; true; true; true].
Proof. repeat split; reflexivity. Qed.

(** *** Cancel goal *)

(** The Cancel Goal button, the handler's one caller, is disabled exactly
    when the handler's loading guard would make it return. *)
Lemma cancel_button_enabled_not_loading view :
  cancelGoalDisabled view = false <->
  isLoading view = false /\ stepLoading view = false.
Proof.
  unfold cancelGoalDisabled.
  destruct (isLoading view), (stepLoading view); cbn; split;
    try discriminate; try (intros [? ?]; discriminate);
    try (intros _; split; reflexivity); reflexivity.
Qed.

Lemma handleStartNewTask_resets s :
  let s' := handleStartNewTask s in
  activeTask s' = None /\
  taskDescription s' = "" /\
  error s' = None /\
  showVnc s' = false /\
  currentStep s' = None /\
  latestThought s' = None /\
  displayedText s' = "" /\
  stepError s' = None /\
  calls s' = calls s.
Proof.
  cbn zeta. unfold handleStartNewTask. cbn.
  destruct (typewriterIntervalRef s); cbn; repeat split; reflexivity.
Qed.

(** C9. Invoked (through its button, which is enabled exactly when no
    loading flag is set) on an active task whose status is not terminal,
    the cancel-goal handler calls reject-action exactly once, except when
    the status is [created] (in any letter case): then it makes no
    backend call and resets the local state (task, description, step,
    thought, displayed text and both error cells cleared). When
    reject-action returns, the task takes the returned status, [paused]
    if none. *)
Theorem cancel_goal_rejects_unless_created view reply s task :
  activeTask view = Some task ->
  isTerminalStatus (status task) = false ->
  cancelGoalDisabled view = false ->
  let s' := handleCancelGoal view reply s in
  (toLowerCase (status task) = "created" ->
     s' = handleStartNewTask (setError None (setStepError None s)) /\
     calls s' = calls s /\
     activeTask s' = None /\
     taskDescription s' = "" /\
     currentStep s' = None /\
     latestThought s' = None /\
     displayedText s' = "" /\
     error s' = None /\
     stepError s' = None) /\
  (toLowerCase (status task) <> "created" ->
     calls s' = (calls s ++ [CallRejectAction (id task)])%list /\
     stepLoading s' = false /\
     (forall data_status,
        reply = Returned data_status ->
        activeTask s'
          = option_map (with_status (status_or_paused data_status))
              (activeTask s) /\
        currentStep s' = None /\
        latestThought s' = None) /\
     (forall message,
        reply = Threw message ->
        error s' = Some message /\ activeTask s' = activeTask s)).
Proof.
  intros Ht Hterm Henabled.
  apply cancel_button_enabled_not_loading in Henabled.
  destruct Henabled as (Hl & Hsl).
  cbn zeta. unfold handleCancelGoal.
  rewrite Ht, Hl, Hsl, Hterm. cbn [orb].
  split.
  - intros Hc. rewrite Hc. cbn [String.eqb Ascii.eqb Bool.eqb].
    destruct (handleStartNewTask_resets
                (setError None (setStepError None s)))
      as (A & B & C & D & E & F & G & H & I).
    cbn zeta in *. repeat split; assumption.
  - intros Hc.
    destruct (String.eqb_spec (toLowerCase (status task)) "created");
      [contradiction|].
    destruct reply as [data_status|message]; cbn.
    + split; [reflexivity|]. split; [reflexivity|]. split.
      * intros ds [= <-]. repeat split; reflexivity.
      * intros m [=].
    + split; [reflexivity|]. split; [reflexivity|]. split.
      * intros ds [=].
      * intros m [= <-]. split; reflexivity.
Qed.

Lemma cancel_goal_rejects_unless_created_witness :
  calls (handleCancelGoal (withTask "running") (Returned None)
           (withTask "running"))
    = [CallRejectAction "t1"] /\
  calls (handleCancelGoal (withTask "Created") (Returned None)
           (withTask "Created"))
    = [].
Proof.
  split.
  - destruct (cancel_goal_rejects_unless_created (withTask "running")
                (Returned None) (withTask "running")
                (mkTask "t1" "Search for cats" "running")
                eq_refl eq_refl eq_refl) as (_ & H).
    apply H. discriminate.
  - destruct (cancel_goal_rejects_unless_created (withTask "Created")
                (Returned None) (withTask "Created")
                (mkTask "t1" "Search for cats" "Created")
                eq_refl eq_refl eq_refl) as (H & _).
    apply H. reflexivity.
Defined.

End HomeProperties.

(* ===================================================================== *)
(** ** Further properties of the Task API client *)
(* ===================================================================== *)

Section TaskApiFurther.
Import JS TaskApi.

(** X1. No helper resolves on a transport failure or on a response that is
    not [ok]: a resolved call always comes from a 2xx response. *)
Theorem helper_resolves_only_on_success (h : helper) (f : fetched)
  (v : json) :
  call h f = Resolved v ->
  exists r, f = Some r /\ ok r = true.
Proof.
  intros Hcall. destruct f as [r|].
  - exists r. split; [reflexivity|].
    destruct (ok r) eqn:Hok; [reflexivity|].
    rewrite (call_not_ok h r Hok) in Hcall. discriminate.
  - destruct h; discriminate.
Qed.

Lemma helper_resolves_only_on_success_witness :
  exists r,
    Some (mkResponse 200 (Some (JObj [("status", JStr "running")])))
      = Some r /\ ok r = true.
Proof.
  apply (helper_resolves_only_on_success ResumeTask _
           (JObj [("status", JStr "running")])).
  reflexivity.
Defined.

(** X2. On a 204 response, the eight helpers that go through
    [handleApiResponse] (or test for 204 themselves) resolve to [null]
    whatever the body; [createTask] and [fetchTaskStatus] parse the body
    all the same, so with an empty body they fail with the parser's
    error. *)
Theorem no_content_by_helper (h : helper) (r : Response) :
  status r = 204 ->
  (h <> CreateTask -> h <> FetchTaskStatus ->
     call h (Some r) = Resolved JNull) /\
  (h = CreateTask \/ h = FetchTaskStatus ->
     call h (Some r) = response_json r) /\
  (h = CreateTask \/ h = FetchTaskStatus -> body r = None ->
     call h (Some r) = Rejected SyntaxError).
Proof.
  intros H204. pose proof (no_content_is_ok r H204) as Hok.
  assert (Hh : handleApiResponse r = fun _ => Resolved JNull).
  { unfold handleApiResponse. rewrite Hok, H204. reflexivity. }
  split; [|split].
  - intros Hc Hf.
    destruct h; try congruence; cbn;
      unfold fetchActionData, fetchStepData, fetchPlannerThoughts,
        markPlannerThoughtsSeen, resumeTask, approveAction, rejectAction,
        cancelGoal, fetch_or_null, via_handler;
      rewrite ?H204, ?Hh; reflexivity.
  - intros [-> | ->]; cbn; unfold createTask, fetchTaskStatus;
      rewrite Hok; reflexivity.
  - intros [-> | ->] Hb; cbn; unfold createTask, fetchTaskStatus;
      rewrite Hok; cbn; unfold response_json; rewrite Hb; reflexivity.
Qed.

Lemma no_content_by_helper_witness :
  status (mkResponse 204 None) = 204 /\
  call ApproveAction (Some (mkResponse 204 None)) = Resolved JNull /\
  call CreateTask (Some (mkResponse 204 None)) = Rejected SyntaxError.
Proof.
  split; [reflexivity|].
  destruct (no_content_by_helper ApproveAction (mkResponse 204 None)
              eq_refl) as (Ha & _).
  destruct (no_content_by_helper CreateTask (mkResponse 204 None)
              eq_refl) as (_ & _ & Hc).
  split.
  - apply Ha; discriminate.
  - apply Hc; [left|]; reflexivity.
Defined.

(** The string of an array of objects: [[object Object]] once per
    element, joined by commas, unless an element has an own [toString]
    key. *)
Lemma toString_array_of_objects (items : list json) :
  Forall (fun x => exists props, x = JObj props) items ->
  toString (JArr items)
  = if forallb plain items
    then Some (join "," (map (fun _ => "[object Object]") items))
    else None.
Proof.
  induction items as [|x rest IH]; intros Hall; [reflexivity|].
  inversion Hall as [|x' rest' (props & ->) Hrest]; subst.
  specialize (IH Hrest).
  change (toString (JArr (JObj props :: rest)))
    with (match toString (JObj props) with
          | None => None
          | Some sx =>
              match rest with
              | [] => Some sx
              | _ => match toString (JArr rest) with
                     | None => None
                     | Some sr => Some (sx ++ "," ++ sr)
                     end
              end
          end).
  remember (toString (JArr rest)) as tail eqn:Htail.
  cbn [forallb plain toString map].
  destruct (has_own "toString" props); cbn [negb andb]; [reflexivity|].
  destruct rest as [|y rest']; [reflexivity|].
  rewrite IH. destruct (forallb plain (y :: rest')); reflexivity.
Qed.

(** X3. A [detail] that is an array of objects (the shape of a validation
    error) is truthy and is turned into text by [new Error]: the message
    is [[object Object]] once per element, joined by commas, and the empty
    message for an empty array. When an element has an own [toString]
    key the conversion throws, and the helper fails with that TypeError
    instead. *)
Theorem detail_array_message (h : helper) (r : Response)
  (items : list json) :
  ok r = false ->
  h <> FetchTaskStatus ->
  has_detail r (JArr items) ->
  Forall (fun x => exists props, x = JObj props) items ->
  call h (Some r)
  = Rejected
      (if forallb plain items
       then Error (join "," (map (fun _ => "[object Object]") items))
       else TypeError).
Proof.
  intros Hok Hh Hd Hall.
  rewrite (call_not_ok h r Hok).
  destruct h; try congruence;
    rewrite (error_detail_found r (JArr items) _ Hd); cbn [truthy];
    unfold new_Error; rewrite (toString_array_of_objects items Hall);
    destruct (forallb plain items); reflexivity.
Qed.

Lemma detail_array_message_witness :
  call RejectAction
    (Some (mkResponse 422
             (Some (JObj [("detail",
                           JArr [JObj [("msg", JStr "field required")];
                                 JObj [("msg", JStr "too long")]])]))))
  = Rejected (Error "[object Object],[object Object]").
Proof.
  apply (detail_array_message RejectAction _
           [JObj [("msg", JStr "field required")];
            JObj [("msg", JStr "too long")]]).
  - reflexivity.
  - discriminate.
  - eexists. split; reflexivity.
  - repeat constructor; eexists; reflexivity.
Defined.

(** *** Endpoints *)

Section Endpoints.
Import TaskApiRequests.

Lemma string_length_append_s (a b : string) :
  String.length (a ++ b) = (String.length a + String.length b)%nat.
Proof. induction a as [|c a IH]; cbn; [reflexivity|]. rewrite IH. reflexivity. Qed.

Lemma append_assoc_s (a b c : string) : (a ++ b) ++ c = a ++ (b ++ c).
Proof. induction a as [|x a IH]; cbn; [reflexivity|]. rewrite IH. reflexivity. Qed.

Lemma append_nil_r_s (a : string) : a ++ "" = a.
Proof. induction a as [|x a IH]; cbn; [reflexivity|]. rewrite IH. reflexivity. Qed.

Lemma srev_append (a b : string) : srev (a ++ b) = srev b ++ srev a.
Proof.
  induction a as [|x a IH]; cbn.
  - symmetry. apply append_nil_r_s.
  - rewrite IH. apply append_assoc_s.
Qed.

Lemma srev_involutive (a : string) : srev (srev a) = a.
Proof.
  induction a as [|x a IH]; cbn; [reflexivity|].
  rewrite srev_append, IH. reflexivity.
Qed.

Lemma append_cancel_left (a b c : string) : a ++ b = a ++ c -> b = c.
Proof.
  induction a as [|x a IH]; cbn; intros H; [exact H|].
  injection H as H. apply IH. exact H.
Qed.

Lemma srev_inj (a b : string) : srev a = srev b -> a = b.
Proof.
  intros H. rewrite <- (srev_involutive a), <- (srev_involutive b), H.
  reflexivity.
Qed.

(** X26. Requests do not collide: the URL of a task-scoped call
    determines the operation and the task id, and no task-scoped call
    reaches the URL [createTask] posts to. (The read-only helpers use GET
    and the others POST, but the URLs alone already differ.) *)
Theorem endpoints_distinct env h1 a1 h2 a2 :
  h1 <> CreateTask ->
  url_of env h1 a1 = url_of env h2 a2 ->
  h1 = h2 /\ a1 = a2.
Proof.
  intros Hc Hu.
  destruct h2.
  { exfalso. destruct h1; try congruence; cbn [url_of] in Hu;
      apply (f_equal String.length) in Hu;
      rewrite !string_length_append_s in Hu; cbn in Hu; lia. }
  all: destruct h1; try congruence;
    cbn [url_of] in Hu;
    apply append_cancel_left in Hu; injection Hu as Hu;
    apply (f_equal srev) in Hu; rewrite !srev_append in Hu;
    cbn [srev path_of append] in Hu;
    try discriminate Hu;
    (split; [reflexivity|]);
    repeat (injection Hu as Hu); apply srev_inj; exact Hu.
Qed.

Lemma endpoints_distinct_witness :
  ApproveAction = ApproveAction /\ "t1" = "t1".
Proof.
  apply (endpoints_distinct None ApproveAction "t1" ApproveAction "t1").
  - discriminate.
  - reflexivity.
Defined.

End Endpoints.

End TaskApiFurther.

(* ===================================================================== *)
(** ** Further properties of the voice browser page *)
(* ===================================================================== *)

Section VoicePageProperties.
Import JS Voice VoicePage.

(** *** The WebSocket URL *)

Lemma string_length_append (a b : string) :
  String.length (a ++ b) = (String.length a + String.length b)%nat.
Proof. induction a as [|c a IH]; cbn; [reflexivity|]. rewrite IH. reflexivity. Qed.

Lemma endsWith_append (a b : string) : endsWith (a ++ b) b = true.
Proof.
  induction a as [|c a IH].
  - cbn. destruct b; cbn.
    + reflexivity.
    + rewrite Ascii.eqb_refl, String.eqb_refl. reflexivity.
  - cbn [append endsWith]. rewrite IH.
    destruct (String.eqb (String c (a ++ b)) b); reflexivity.
Qed.

Lemma endsWith_cons c s suffix :
  endsWith s suffix = true -> endsWith (String c s) suffix = true.
Proof.
  intros H. cbn [endsWith]. rewrite H.
  destruct (String.eqb (String c s) suffix); reflexivity.
Qed.

Lemma fixDoubleSlash_keeps_ws s :
  endsWith s "/ws" = true -> endsWith (fixDoubleSlash s) "/ws" = true.
Proof.
  induction s as [|c s IH]; intros H.
  - discriminate.
  - cbn [fixDoubleSlash].
    destruct (String.eqb (String c s) "//ws") eqn:Hd; [reflexivity|].
    cbn [endsWith] in H.
    destruct (String.eqb (String c s) "/ws") eqn:He.
    + apply String.eqb_eq in He. injection He as -> ->. reflexivity.
    + apply endsWith_cons. apply IH. exact H.
Qed.

(** X4. Whatever URL is configured, the URL the socket is opened with ends
    in [/ws]. *)
Theorem finalWsUrl_ends_with_ws (u : string) :
  endsWith (finalWsUrl u) "/ws" = true.
Proof.
  unfold finalWsUrl. apply fixDoubleSlash_keeps_ws.
  destruct (endsWith u "/ws") eqn:H; [exact H|]. apply endsWith_append.
Qed.

Lemma append_ws_not_double c u :
  String.eqb (String c (u ++ "//ws")) "//ws" = false.
Proof.
  apply String.eqb_neq. intros H.
  apply (f_equal String.length) in H. cbn in H.
  rewrite string_length_append in H. cbn in H. lia.
Qed.

Lemma fixDoubleSlash_double u : fixDoubleSlash (u ++ "//ws") = u ++ "/ws".
Proof.
  induction u as [|c u IH]; [reflexivity|].
  cbn [append fixDoubleSlash]. rewrite append_ws_not_double, IH.
  reflexivity.
Qed.

Lemma endsWith_slash_not_ws u : endsWith (u ++ "/") "/ws" = false.
Proof.
  induction u as [|c u IH]; [reflexivity|].
  cbn [append endsWith]. rewrite IH.
  destruct (String.eqb (String c (u ++ "/")) "/ws") eqn:He; [|reflexivity].
  apply String.eqb_eq in He. injection He as _ He.
  destruct u as [|c1 [|c2 [|c3 u]]]; cbn in He; discriminate.
Qed.

Lemma fixDoubleSlash_single u :
  endsWith u "/" = false -> fixDoubleSlash (u ++ "/ws") = u ++ "/ws".
Proof.
  induction u as [|c u IH]; intros H; [reflexivity|].
  cbn [endsWith] in H.
  destruct (String.eqb (String c u) "/") eqn:He; [discriminate|].
  cbn [append fixDoubleSlash].
  destruct (String.eqb (String c (u ++ "/ws")) "//ws") eqn:Hd.
  - apply String.eqb_eq in Hd. injection Hd as -> Hd.
    assert (u = "").
    { apply (f_equal String.length) in Hd.
      rewrite string_length_append in Hd. cbn in Hd.
      destruct u; [reflexivity|cbn in Hd; lia]. }
    subst u. discriminate.
  - rewrite (IH H). reflexivity.
Qed.

(** X5. A trailing slash on the configured URL makes no difference: [u/]
    becomes [u/ws]; and so does [u] itself when it ends neither in [/] nor
    in [/ws]. *)
Theorem finalWsUrl_trailing_slash (u : string) :
  finalWsUrl (u ++ "/") = u ++ "/ws" /\
  (endsWith u "/" = false -> endsWith u "/ws" = false ->
   finalWsUrl u = u ++ "/ws").
Proof.
  split.
  - unfold finalWsUrl. rewrite endsWith_slash_not_ws.
    replace ((u ++ "/") ++ "/ws") with (u ++ "//ws").
    + apply fixDoubleSlash_double.
    + induction u as [|c u IH]; cbn; [reflexivity|]. rewrite IH. reflexivity.
  - intros Hs Hw. unfold finalWsUrl. rewrite Hw.
    apply fixDoubleSlash_single. exact Hs.
Qed.

Lemma finalWsUrl_trailing_slash_witness :
  finalWsUrl "wss://example.com" = "wss://example.com/ws" /\
  finalWsUrl "wss://example.com/" = "wss://example.com/ws".
Proof.
  destruct (finalWsUrl_trailing_slash "wss://example.com") as (Ha & Hb).
  split; [apply Hb; reflexivity|exact Ha].
Defined.

(** *** What the handlers may do *)

Lemma grows_refl {A} (P : A -> Prop) l : grows P l l.
Proof. exists []. split; [symmetry; apply app_nil_r|constructor]. Qed.

Lemma grows_snoc {A} (P : A -> Prop) l l' x :
  grows P l l' -> P x -> grows P l (l' ++ [x])%list.
Proof.
  intros (added & -> & Hall) Hx. exists (added ++ [x])%list. split.
  - symmetry. apply app_assoc.
  - apply Forall_app. split; [assumption|]. constructor; [assumption|].
    constructor.
Qed.

Lemma grows_trans {A} (P : A -> Prop) l1 l2 l3 :
  grows P l1 l2 -> grows P l2 l3 -> grows P l1 l3.
Proof.
  intros (a & -> & Ha) (b & -> & Hb). exists (a ++ b)%list. split.
  - symmetry. apply app_assoc.
  - apply Forall_app. split; assumption.
Qed.

Lemma grows_weaken {A} (P Q : A -> Prop) l l' :
  (forall x, P x -> Q x) -> grows P l l' -> grows Q l l'.
Proof.
  intros H (a & -> & Ha). exists a. split; [reflexivity|].
  eapply Forall_impl; eassumption.
Qed.

Lemma grows_eq {A} (P : A -> Prop) l l' : l' = l -> grows P l l'.
Proof. intros ->. apply grows_refl. Qed.

Lemma footprint_refl w : footprint w w.
Proof. repeat split; apply grows_refl. Qed.

Lemma footprint_trans w w1 w2 :
  footprint w w1 -> footprint w1 w2 -> wsRef w1 = wsRef w ->
  footprint w w2.
Proof.
  intros (Hm1 & Ht1 & Hs1) (Hm2 & Ht2 & Hs2) Hws.
  assert (Hopen : ws_open w1 = ws_open w)
    by (unfold ws_open; rewrite Hws; reflexivity).
  rewrite Hopen in Hs2.
  repeat split; eapply grows_trans; eassumption.
Qed.

(** A step that leaves the three lists alone. *)
Lemma footprint_same w w' :
  messages (state w') = messages (state w) ->
  timers w' = timers w ->
  sent w' = sent w ->
  footprint w w'.
Proof. intros Hm Ht Hs. repeat split; apply grows_eq; assumption. Qed.

Lemma delay_ok_100 cb : delay_ok (100, cb).
Proof. unfold delay_ok. cbn. lia. Qed.

Lemma delay_ok_500 cb : delay_ok (500, cb).
Proof. unfold delay_ok. cbn. lia. Qed.

Lemma reconnect_delay_at_least n : 1000 <= reconnect_delay n.
Proof.
  unfold reconnect_delay. apply Z.min_glb; [|lia].
  assert (1 <= 2 ^ Z.of_nat n) by (apply Z.pow_le_mono_r with (b := 0); lia).
  lia.
Qed.

Lemma delay_ok_reconnect n cb : delay_ok (reconnect_delay n, cb).
Proof.
  unfold delay_ok. cbn.
  pose proof (reconnect_delay_at_least n).
  pose proof (reconnect_delay_capped n). lia.
Qed.

Lemma startSpeech_footprint view text isSystem priority w :
  footprint w (startSpeech view text isSystem priority w) /\
  wsRef (startSpeech view text isSystem priority w) = wsRef w.
Proof.
  destruct (startSpeech_frame view text isSystem priority w)
    as (Hws & _ & _ & _ & _ & _ & Ht & Hs & Hm & _).
  split; [apply footprint_same; assumption|assumption].
Qed.

Lemma speak_footprint view text isSystem priority w :
  footprint w (speak view text isSystem priority w) /\
  wsRef (speak view text isSystem priority w) = wsRef w.
Proof.
  unfold speak, synth_cancel.
  destruct (speechSynthesis w) eqn:Hq;
    [|split; [apply footprint_refl|reflexivity]].
  destruct (priority || isSpeaking view && negb isSystem).
  - cbn. split; [|reflexivity]. repeat split; cbn.
    + apply grows_refl.
    + apply grows_snoc; [apply grows_refl|apply delay_ok_100].
    + apply grows_refl.
  - destruct (isSpeaking view && negb priority).
    + split; [apply footprint_refl|reflexivity].
    + apply startSpeech_footprint.
Qed.

Lemma interruptSpeech_footprint w :
  footprint w (interruptSpeech w) /\ wsRef (interruptSpeech w) = wsRef w.
Proof.
  unfold interruptSpeech, synth_cancel.
  destruct (speechSynthesis w) eqn:Hq;
    [|split; [apply footprint_refl|reflexivity]].
  cbn. unfold ws_open. cbn.
  destruct (wsRef w) as [[]|] eqn:Hws; cbn;
    (split; [|assumption || reflexivity]);
    try (apply footprint_same; reflexivity).
  repeat split; cbn; try apply grows_refl.
  apply grows_snoc; [apply grows_refl|].
  split; [left; split; reflexivity|].
  unfold ws_open. rewrite Hws. reflexivity.
Qed.

Lemma sendCommand_footprint now command w :
  command <> "" ->
  footprint w (sendCommand now command w) /\
  wsRef (sendCommand now command w) = wsRef w.
Proof.
  intros Hc. unfold sendCommand.
  destruct (ws_open w) eqn:Hopen; cbn; (split; [|reflexivity]).
  - repeat split; cbn; try apply grows_refl.
    apply grows_snoc; [apply grows_refl|].
    split; [|exact Hopen]. right. right. split; [reflexivity|exact Hc].
  - repeat split; cbn; try apply grows_refl.
    apply grows_snoc; [apply grows_refl|exact I].
Qed.

Lemma cancelCurrentTask_footprint view w :
  footprint w (cancelCurrentTask view w) /\
  wsRef (cancelCurrentTask view w) = wsRef w.
Proof.
  unfold cancelCurrentTask.
  destruct (ws_open w) eqn:Hopen;
    [|split; [apply footprint_refl|reflexivity]].
  destruct (speak_footprint view "Cancelling current task" true false
              (ws_send (mkFrame "cancel" "") w)) as (Hf & Hws).
  split; [|rewrite Hws; reflexivity].
  apply (footprint_trans w (ws_send (mkFrame "cancel" "") w));
    [|exact Hf|reflexivity].
  repeat split; cbn; try apply grows_refl.
  apply grows_snoc; [apply grows_refl|].
  split; [|exact Hopen]. right. left. split; reflexivity.
Qed.

(** A world changed in its React cells other than the chat history, or in
    its references, only. *)
Lemma footprint_step w w1 w2 :
  footprint w w1 /\ wsRef w1 = wsRef w ->
  footprint w1 w2 /\ wsRef w2 = wsRef w1 ->
  footprint w w2 /\ wsRef w2 = wsRef w.
Proof.
  intros (Hf1 & Hw1) (Hf2 & Hw2). split.
  - apply (footprint_trans w w1 w2); assumption.
  - rewrite Hw2. exact Hw1.
Qed.

Lemma addMessage_footprint now type text w :
  footprint w (addMessage now type text w) /\
  wsRef (addMessage now type text w) = wsRef w.
Proof.
  split; [|reflexivity]. repeat split; cbn; try apply grows_refl.
  apply grows_snoc; [apply grows_refl|exact I].
Qed.

Lemma quiet_footprint w w' :
  messages (state w') = messages (state w) ->
  timers w' = timers w ->
  sent w' = sent w ->
  wsRef w' = wsRef w ->
  footprint w w' /\ wsRef w' = wsRef w.
Proof.
  intros Hm Ht Hs Hws. split; [apply footprint_same|]; assumption.
Qed.

Lemma recognition_onresult_footprint view now event w :
  footprint w (recognition_onresult view now event w) /\
  wsRef (recognition_onresult view now event w) = wsRef w.
Proof.
  unfold recognition_onresult.
  set (w1 := setTranscript (result_transcript event) w).
  assert (H1 : footprint w w1 /\ wsRef w1 = wsRef w)
    by (apply quiet_footprint; reflexivity).
  set (w2 := if isSpeaking view
                && includes (toLowerCase (result_transcript event)) "stop"
             then interruptSpeech w1 else w1).
  assert (H2 : footprint w w2 /\ wsRef w2 = wsRef w).
  { unfold w2. destruct (isSpeaking view && _); [|exact H1].
    apply (footprint_step w w1); [exact H1|apply interruptSpeech_footprint]. }
  destruct (isFinal event); [|exact H2].
  destruct (String.eqb_spec (trim (result_transcript event)) "") as [E|E];
    cbn [negb].
  - apply (footprint_step w w2); [exact H2|].
    apply quiet_footprint; reflexivity.
  - apply (footprint_step w w2); [exact H2|].
    eapply footprint_step; [apply (sendCommand_footprint now _ w2 E)|].
    eapply footprint_step; [apply addMessage_footprint|].
    apply quiet_footprint; reflexivity.
Qed.

Lemma remember_footprint key w :
  footprint w (remember key w) /\ wsRef (remember key w) = wsRef w.
Proof. apply quiet_footprint; reflexivity. Qed.

Lemma dispatch_footprint view now ty payload w :
  footprint w (dispatch view now ty payload w) /\
  wsRef (dispatch view now ty payload w) = wsRef w.
Proof.
  unfold dispatch.
  destruct (strict_eq ty "speak").
  { destruct (text_of payload); [|apply quiet_footprint; reflexivity].
    eapply footprint_step; [apply speak_footprint|].
    apply addMessage_footprint. }
  destruct (strict_eq ty "result").
  { destruct (text_of payload); [|apply quiet_footprint; reflexivity].
    destruct (String.eqb (lastResultMessageRef w) s).
    - apply addMessage_footprint.
    - eapply footprint_step;
        [apply (quiet_footprint w (set_lastResultMessageRef s w));
         reflexivity|].
      eapply footprint_step; [apply speak_footprint|].
      apply addMessage_footprint. }
  destruct (strict_eq ty "status").
  { destruct (get_prop_val payload "message") as [message|];
      [|apply quiet_footprint; reflexivity].
    eapply footprint_step; [apply addMessage_footprint|].
    destruct (value_includes message "Processing:") as [[]|];
      try (apply quiet_footprint; reflexivity).
    destruct (value_includes message "Ready") as [[]|];
      apply quiet_footprint; reflexivity. }
  destruct (strict_eq ty "error").
  { destruct (get_prop_val payload "message") as [message|];
      [|apply quiet_footprint; reflexivity].
    eapply footprint_step; [apply addMessage_footprint|].
    destruct (toString_val message);
      [|apply quiet_footprint; reflexivity].
    eapply footprint_step; [apply speak_footprint|].
    apply quiet_footprint; reflexivity. }
  apply quiet_footprint; reflexivity.
Qed.

Lemma ws_onmessage_footprint view now event_data w :
  footprint w (ws_onmessage view now event_data w) /\
  wsRef (ws_onmessage view now event_data w) = wsRef w.
Proof.
  unfold ws_onmessage.
  destruct event_data as [data|]; [|apply quiet_footprint; reflexivity].
  destruct (messageWithTime now data) as [key|];
    [|apply quiet_footprint; reflexivity].
  destruct (set_has key (processedMessagesRef w));
    [apply quiet_footprint; reflexivity|].
  destruct (get_prop data "type"), (get_prop data "data");
    try apply remember_footprint.
  eapply footprint_step; [apply remember_footprint|].
  apply dispatch_footprint.
Qed.

Lemma ws_onopen_footprint now w :
  footprint w (ws_onopen now w) /\ wsRef (ws_onopen now w) = wsRef w /\
  sent (ws_onopen now w) = sent w.
Proof.
  split; [|split; reflexivity]. repeat split; cbn; try apply grows_refl.
  - apply grows_snoc; [apply grows_refl|exact I].
  - apply grows_snoc; [apply grows_refl|apply delay_ok_500].
Qed.

Lemma speak_sent view text isSystem priority w :
  sent (speak view text isSystem priority w) = sent w.
Proof.
  unfold speak, synth_cancel.
  destruct (speechSynthesis w); [|reflexivity].
  destruct (priority || isSpeaking view && negb isSystem); [reflexivity|].
  destruct (isSpeaking view && negb priority); [reflexivity|].
  apply (startSpeech_frame view text isSystem priority w).
Qed.

Lemma ws_onclose_footprint view now code w :
  footprint w (ws_onclose view now code w) /\
  wsRef (ws_onclose view now code w) = wsRef w /\
  sent (ws_onclose view now code w) = sent w.
Proof.
  unfold ws_onclose.
  set (w1 := addMessage now "system" (str "Disconnected from backend")
               (setIsConnected false w)).
  assert (H1 : footprint w w1 /\ wsRef w1 = wsRef w).
  { eapply footprint_step;
      [apply (quiet_footprint w (setIsConnected false w)); reflexivity|].
    apply addMessage_footprint. }
  destruct (negb (code =? 1000)); [|split; [apply H1|split; reflexivity]].
  set (w2 := speak view "Disconnected from voice browser backend" true false
               w1).
  assert (H2 : footprint w w2 /\ wsRef w2 = wsRef w)
    by (apply (footprint_step w w1); [exact H1|apply speak_footprint]).
  assert (Hs2 : sent w2 = sent w)
    by (unfold w2; rewrite speak_sent; reflexivity).
  cbn. split; [|split; [apply H2|exact Hs2]].
  destruct H2 as ((Hm & Ht & Hs) & _).
  repeat split; cbn.
  - apply grows_snoc; [exact Hm|exact I].
  - apply grows_snoc; [exact Ht|apply delay_ok_reconnect].
  - exact Hs.
Qed.

(** Moving the starting point to a world with the same three lists, for a
    handler that sends nothing. *)
Lemma footprint_rebase w w1 w2 :
  messages (state w1) = messages (state w) ->
  timers w1 = timers w ->
  sent w1 = sent w ->
  footprint w1 w2 ->
  sent w2 = sent w1 ->
  footprint w w2.
Proof.
  intros Hm Ht Hs (Gm & Gt & _) Hs2.
  rewrite Hm in Gm. rewrite Ht in Gt.
  repeat split; try assumption.
  apply grows_eq. rewrite Hs2. exact Hs.
Qed.

Lemma fire_footprint view callback w :
  footprint w (fire view callback w).
Proof.
  destruct callback; cbn [fire].
  - apply footprint_same; reflexivity.
  - apply speak_footprint.
  - apply startSpeech_footprint.
  - unfold synth_speak. destruct (speechSynthesis w);
      apply footprint_same; reflexivity.
Qed.

Lemma utterance_onerror_footprint text error w :
  footprint w (utterance_onerror text error w).
Proof.
  unfold utterance_onerror.
  destruct (String.eqb error "network" || String.eqb error "synthesis-failed").
  - repeat split; cbn; try apply grows_refl.
    apply grows_snoc; [apply grows_refl|apply delay_ok_500].
  - apply footprint_same; reflexivity.
Qed.

Lemma loadVoices_footprint w : footprint w (loadVoices w).
Proof.
  unfold loadVoices. destruct (speechSynthesis w); [|apply footprint_refl].
  destruct (0 <? List.length (getVoices w))%nat; [|apply footprint_refl].
  destruct (findIndex preferred (getVoices w));
    apply footprint_same; reflexivity.
Qed.

Lemma toggleListening_footprint view start_throws p :
  footprint (world p) (world (toggleListening view start_throws p)).
Proof.
  unfold toggleListening.
  destruct (recognitionRef p) as [calls|]; [|apply speak_footprint].
  destruct (negb (isConnected view)); [apply speak_footprint|].
  destruct (isListening view).
  - cbn. eapply footprint_trans;
      [apply (footprint_same (world p) (setIsListening false (world p)));
       reflexivity
      |apply speak_footprint|reflexivity].
  - destruct start_throws; cbn.
    + apply speak_footprint.
    + eapply footprint_trans;
        [apply (footprint_same (world p) (setIsListening true (world p)));
         reflexivity
        |apply speak_footprint|reflexivity].
Qed.

Lemma handleKeyPress_footprint view start_throws e p :
  footprint (world p) (world (handleKeyPress view start_throws e p)).
Proof.
  unfold handleKeyPress.
  destruct (String.eqb (code e) "Space" && targetIsBody e);
    [apply toggleListening_footprint|].
  destruct (String.eqb (code e) "Escape").
  - destruct (isSpeaking view); [apply interruptSpeech_footprint|].
    destruct (isProcessing view);
      [apply cancelCurrentTask_footprint|apply footprint_refl].
  - destruct (String.eqb (code e) "KeyC" && ctrlKey e && isProcessing view);
      [apply cancelCurrentTask_footprint|apply footprint_refl].
Qed.

(** Every event keeps to the footprint. *)
Lemma step_footprint view now ev p :
  footprint (world p) (world (step view now ev p)).
Proof.
  destruct ev as [|event_data|close_code|url|result|error| | | |text error
                 |callback|start_throws e|start_throws| | | | | |index];
    cbn [step on_world world].
  - destruct (ws_onopen_footprint now (set_wsRef (Some OPEN) (world p)))
      as (Hf & _ & Hs).
    apply (footprint_rebase (world p) (set_wsRef (Some OPEN) (world p)) _
             eq_refl eq_refl eq_refl Hf Hs).
  - apply ws_onmessage_footprint.
  - destruct (ws_onclose_footprint view now close_code
                (set_wsRef (Some CLOSED) (world p))) as (Hf & _ & Hs).
    apply (footprint_rebase (world p) (set_wsRef (Some CLOSED) (world p)) _
             eq_refl eq_refl eq_refl Hf Hs).
  - apply addMessage_footprint.
  - apply recognition_onresult_footprint.
  - unfold recognition_onerror. cbn.
    repeat split; cbn; try apply grows_refl.
    apply grows_snoc; [apply grows_refl|exact I].
  - unfold recognition_onend.
    destruct (isListening view && isConnected view); apply footprint_refl.
  - apply footprint_same; reflexivity.
  - apply footprint_same; reflexivity.
  - apply utterance_onerror_footprint.
  - apply fire_footprint.
  - apply handleKeyPress_footprint.
  - apply toggleListening_footprint.
  - apply cancelCurrentTask_footprint.
  - apply interruptSpeech_footprint.
  - apply footprint_same; reflexivity.
  - apply speak_footprint.
  - apply loadVoices_footprint.
  - apply footprint_same; reflexivity.
Qed.

Lemma grows_false_nil {A} (P : A -> Prop) l l' :
  (forall x, ~ P x) -> grows P l l' -> l' = l.
Proof.
  intros Hno (added & -> & Hall). destruct added as [|x rest].
  - apply app_nil_r.
  - inversion Hall; subst. exfalso. eapply Hno. eassumption.
Qed.

Lemma grows_Forall {A} (P : A -> Prop) l l' :
  Forall P l -> grows P l l' -> Forall P l'.
Proof.
  intros Hl (added & -> & Hall). apply Forall_app. split; assumption.
Qed.

(** X6. No event makes the component send a frame while the socket held
    by [wsRef] is not open. *)
Theorem no_frame_sent_while_closed view now ev p :
  ws_open (world p) = false ->
  sent (world (step view now ev p)) = sent (world p).
Proof.
  intros Hclosed.
  destruct (step_footprint view now ev p) as (_ & _ & Hs).
  apply (grows_false_nil _ _ _) in Hs; [exact Hs|].
  intros f (_ & H). rewrite Hclosed in H. discriminate H.
Qed.

Lemma no_frame_sent_while_closed_witness :
  ws_open (world (mkPage offlineWorld (Some []))) = false /\
  sent (world (step speakingView 9000 (EvResult (mkResult "open news" true))
                 (mkPage offlineWorld (Some [])))) = [].
Proof.
  split; [reflexivity|].
  apply (no_frame_sent_while_closed speakingView 9000
           (EvResult (mkResult "open news" true))
           (mkPage offlineWorld (Some []))).
  reflexivity.
Defined.

(** X7. The chat history is append-only: after any run of events, the
    history is the earlier history followed by new entries. *)
Theorem chat_history_append_only l : forall p,
  exists added,
    messages (state (world (run l p)))
    = (messages (state (world p)) ++ added)%list.
Proof.
  induction l as [|[[view now] ev] rest IH]; intros p; cbn [run].
  - exists []. symmetry. apply app_nil_r.
  - destruct (IH (step view now ev p)) as (b & Hb).
    destruct (step_footprint view now ev p) as ((a & Ha & _) & _).
    exists (a ++ b)%list. rewrite Hb, Ha. symmetry. apply app_assoc.
Qed.

(** X8. Every timer the component arms has a delay between 100 ms and
    30000 ms. *)
Theorem timer_delays_bounded l : forall p,
  Forall delay_ok (timers (world p)) ->
  Forall delay_ok (timers (world (run l p))).
Proof.
  induction l as [|[[view now] ev] rest IH]; intros p Hp; cbn [run].
  - exact Hp.
  - apply IH. destruct (step_footprint view now ev p) as (_ & Ht & _).
    apply (grows_Forall _ _ _ Hp Ht).
Qed.

Lemma timer_delays_bounded_witness :
  Forall delay_ok
    (timers (world (run [(initialState, 0, EvOpen);
                         (initialState, 5000, EvClose 1006);
                         (initialState, 6000, EvClose 1006)]
                      initialPage))).
Proof.
  apply timer_delays_bounded. constructor.
Defined.

(** X9. The only frames the component ever sends are [interrupt] and
    [cancel] with an empty text and [command] with a text that is not
    empty. *)
Theorem sent_frames_well_formed l : forall p,
  Forall frame_ok (sent (world p)) ->
  Forall frame_ok (sent (world (run l p))).
Proof.
  induction l as [|[[view now] ev] rest IH]; intros p Hp; cbn [run].
  - exact Hp.
  - apply IH. destruct (step_footprint view now ev p) as (_ & _ & Hs).
    apply (grows_Forall _ _ _ Hp).
    apply (grows_weaken _ _ _ _ (fun f H => proj1 H) Hs).
Qed.

Lemma sent_frames_well_formed_witness :
  Forall frame_ok
    (sent (world (run [(speakingView, 0, EvOpen);
                       (speakingView, 100, EvResult (mkResult "  " true));
                       (speakingView, 200, EvResult (mkResult " stop " true))]
                    initialPage))).
Proof.
  apply sent_frames_well_formed. constructor.
Defined.

(** *** The attempt counter between connections *)

Lemma interruptSpeech_attempts w :
  reconnectAttemptsRef (interruptSpeech w) = reconnectAttemptsRef w.
Proof.
  unfold interruptSpeech, synth_cancel.
  destruct (speechSynthesis w); [|reflexivity].
  match goal with |- context [if ?c then _ else _] => destruct c end;
    reflexivity.
Qed.

Lemma cancelCurrentTask_attempts view w :
  reconnectAttemptsRef (cancelCurrentTask view w) = reconnectAttemptsRef w.
Proof.
  unfold cancelCurrentTask. destruct (ws_open w); [|reflexivity].
  rewrite speak_reconnectAttemptsRef. reflexivity.
Qed.

Lemma recognition_onresult_attempts view now event w :
  reconnectAttemptsRef (recognition_onresult view now event w)
  = reconnectAttemptsRef w.
Proof.
  unfold recognition_onresult, sendCommand.
  set (w1 := if isSpeaking view
                && includes (toLowerCase (result_transcript event)) "stop"
             then interruptSpeech (setTranscript (result_transcript event) w)
             else setTranscript (result_transcript event) w).
  assert (H1 : reconnectAttemptsRef w1 = reconnectAttemptsRef w).
  { unfold w1. destruct (isSpeaking view && _);
      [rewrite interruptSpeech_attempts|]; reflexivity. }
  destruct (isFinal event); [|exact H1].
  destruct (negb (String.eqb (trim (result_transcript event)) ""));
    [|exact H1].
  destruct (ws_open w1); exact H1.
Qed.

Lemma dispatch_attempts view now ty payload w :
  reconnectAttemptsRef (dispatch view now ty payload w)
  = reconnectAttemptsRef w.
Proof.
  unfold dispatch.
  repeat match goal with
         | |- context [if ?c then _ else _] => destruct c eqn:?
         | |- context [match ?x with _ => _ end] => destruct x eqn:?
         end; cbn; rewrite ?speak_reconnectAttemptsRef; reflexivity.
Qed.

Lemma ws_onmessage_attempts view now event_data w :
  reconnectAttemptsRef (ws_onmessage view now event_data w)
  = reconnectAttemptsRef w.
Proof.
  unfold ws_onmessage.
  destruct event_data as [data|]; [|reflexivity].
  destruct (messageWithTime now data) as [key|]; [|reflexivity].
  destruct (set_has key (processedMessagesRef w)); [reflexivity|].
  destruct (get_prop data "type"), (get_prop data "data");
    rewrite ?dispatch_attempts; reflexivity.
Qed.

Lemma toggleListening_attempts view start_throws p :
  reconnectAttemptsRef (world (toggleListening view start_throws p))
  = reconnectAttemptsRef (world p).
Proof.
  unfold toggleListening.
  destruct (recognitionRef p); [|apply speak_reconnectAttemptsRef].
  destruct (negb (isConnected view)); [apply speak_reconnectAttemptsRef|].
  destruct (isListening view);
    [cbn; rewrite speak_reconnectAttemptsRef; reflexivity|].
  destruct start_throws; cbn; rewrite speak_reconnectAttemptsRef;
    reflexivity.
Qed.

Lemma step_attempts view now ev p :
  between_connections ev = true ->
  reconnectAttemptsRef (world (step view now ev p))
  = reconnectAttemptsRef (world p).
Proof.
  destruct ev as [|event_data|close_code|url|result|error| | | |utext error
                 |callback|start_throws e|start_throws| | | | | |index];
    cbn [between_connections]; try discriminate; intros _;
    cbn [step on_world world].
  - apply ws_onmessage_attempts.
  - reflexivity.
  - apply recognition_onresult_attempts.
  - reflexivity.
  - unfold recognition_onend.
    destruct (isListening view && isConnected view); reflexivity.
  - reflexivity.
  - reflexivity.
  - unfold utterance_onerror.
    destruct (String.eqb error "network" || _); reflexivity.
  - destruct callback as [|t s pr|t s pr|t]; cbn [fire].
    + reflexivity.
    + apply speak_reconnectAttemptsRef.
    + apply (startSpeech_frame view t s pr (world p)).
    + unfold synth_speak. destruct (speechSynthesis (world p)); reflexivity.
  - unfold handleKeyPress.
    destruct (String.eqb (code e) "Space" && targetIsBody e);
      [apply toggleListening_attempts|].
    destruct (String.eqb (code e) "Escape").
    + destruct (isSpeaking view); [apply interruptSpeech_attempts|].
      destruct (isProcessing view);
        [apply cancelCurrentTask_attempts|reflexivity].
    + destruct (String.eqb (code e) "KeyC" && ctrlKey e && isProcessing view);
        [apply cancelCurrentTask_attempts|reflexivity].
  - apply toggleListening_attempts.
  - apply cancelCurrentTask_attempts.
  - apply interruptSpeech_attempts.
  - reflexivity.
  - apply speak_reconnectAttemptsRef.
  - unfold loadVoices. destruct (speechSynthesis (world p)); [|reflexivity].
    destruct (0 <? List.length (getVoices (world p)))%nat; [|reflexivity].
    destruct (findIndex preferred (getVoices (world p))); reflexivity.
  - reflexivity.
Qed.

Lemma run_attempts l : forall p,
  forallb (fun e => between_connections (snd e)) l = true ->
  reconnectAttemptsRef (world (run l p)) = reconnectAttemptsRef (world p).
Proof.
  induction l as [|[[view now] ev] rest IH]; intros p H; cbn [run].
  - reflexivity.
  - cbn in H. apply andb_true_iff in H. destruct H as (Hev & Hrest).
    rewrite (IH _ Hrest). apply step_attempts. exact Hev.
Qed.

(** X10. A successful open resets the backoff: whatever the counter was
    and whatever happens in between, short of another open or close, the
    first unclean close after an open arms the reconnect after 1000 ms,
    and the one after that (no open in between) after 2000 ms. *)
Theorem backoff_restarts_after_open v0 t0 l v1 t1 c1 l' v2 t2 c2 p :
  forallb (fun e => between_connections (snd e)) l = true ->
  forallb (fun e => between_connections (snd e)) l' = true ->
  c1 <> 1000 -> c2 <> 1000 ->
  let p1 := run l (step v0 t0 EvOpen p) in
  let p2 := step v1 t1 (EvClose c1) p1 in
  let p3 := run l' p2 in
  let p4 := step v2 t2 (EvClose c2) p3 in
  timers (world p2)
    = (timers (world p1) ++ [(1000, CallConnectToBackend)])%list /\
  timers (world p4)
    = (timers (world p3) ++ [(2000, CallConnectToBackend)])%list.
Proof.
  intros Hl Hl' Hc1 Hc2. cbn zeta.
  apply Z.eqb_neq in Hc1. apply Z.eqb_neq in Hc2.
  assert (H1 : reconnectAttemptsRef (world (run l (step v0 t0 EvOpen p)))
               = 0%nat)
    by (rewrite (run_attempts l _ Hl); reflexivity).
  set (p1 := run l (step v0 t0 EvOpen p)) in *.
  assert (Hclose : forall view now code q,
            (code =? 1000) = false ->
            timers (world (step view now (EvClose code) q))
            = (timers (world q)
                 ++ [(reconnect_delay (reconnectAttemptsRef (world q)),
                      CallConnectToBackend)])%list /\
            reconnectAttemptsRef (world (step view now (EvClose code) q))
            = S (reconnectAttemptsRef (world q))).
  { intros view now code q Hcode. cbn [step on_world world].
    unfold ws_onclose. rewrite Hcode. cbn [negb]. cbn.
    rewrite speak_system_timers, speak_reconnectAttemptsRef. cbn.
    split; reflexivity. }
  destruct (Hclose v1 t1 c1 p1 Hc1) as (Ht2 & Hn2).
  split.
  - rewrite Ht2, H1. reflexivity.
  - set (p2 := step v1 t1 (EvClose c1) p1) in *.
    destruct (Hclose v2 t2 c2 (run l' p2) Hc2) as (Ht4 & _).
    rewrite Ht4, (run_attempts l' p2 Hl'), Hn2, H1. reflexivity.
Qed.

Lemma backoff_restarts_after_open_witness :
  let p1 := run [(initialState, 10, EvMessage (Some (statusFrame "Ready")))]
              (step initialState 0 EvOpen
                 (mkPage (set_reconnectAttemptsRef 7 initialWorld) None)) in
  timers (world (step initialState 900 (EvClose 1006) p1))
  = (timers (world p1) ++ [(1000, CallConnectToBackend)])%list.
Proof.
  cbn zeta.
  refine (proj1 (backoff_restarts_after_open initialState 0
            [(initialState, 10, EvMessage (Some (statusFrame "Ready")))]
            initialState 900 1006 [] initialState 950 1006
            (mkPage (set_reconnectAttemptsRef 7 initialWorld) None)
            eq_refl eq_refl _ _)); discriminate.
Defined.

(** *** Voices *)

Lemma findIndex_Some {A} (p : A -> bool) l i :
  findIndex p l = Some i ->
  (exists x, nth_error l i = Some x /\ p x = true) /\
  (forall j y, (j < i)%nat -> nth_error l j = Some y -> p y = false).
Proof.
  revert i. induction l as [|x rest IH]; intros i H; cbn in H.
  - discriminate.
  - destruct (p x) eqn:Hx.
    + injection H as <-. split.
      * exists x. split; [reflexivity|exact Hx].
      * intros j y Hj. lia.
    + destruct (findIndex p rest) as [k|] eqn:Hk; [|discriminate].
      injection H as <-. destruct (IH k eq_refl) as (Hfound & Hbefore).
      split; [exact Hfound|].
      intros [|j] y Hj Hy; cbn in Hy.
      * injection Hy as <-. exact Hx.
      * apply (Hbefore j y); [lia|exact Hy].
Qed.

Lemma findIndex_None {A} (p : A -> bool) l :
  findIndex p l = None <-> forall x, In x l -> p x = false.
Proof.
  induction l as [|x rest IH]; cbn.
  - split; [intros _ y []|reflexivity].
  - destruct (p x) eqn:Hx.
    + split; [discriminate|]. intros H.
      rewrite (H x (or_introl eq_refl)) in Hx. discriminate.
    + destruct (findIndex p rest) as [k|].
      * split; [discriminate|]. intros H.
        assert (Hn : Some k = None)
          by (apply IH; intros y Hy; apply H; right; exact Hy).
        discriminate.
      * split; [|reflexivity]. intros _ y [<-|Hy]; [exact Hx|].
        apply IH; [reflexivity|exact Hy].
Qed.

(** X11. When the browser reports voices, [loadVoices] stores them and
    selects the first voice that is preferred (by name) or the browser's
    default; when none is, the selected index stays as it was. *)
Theorem loadVoices_selects_first_preferred w q :
  speechSynthesis w = Some q ->
  getVoices w <> [] ->
  let w' := loadVoices w in
  let i := selectedVoiceIndex (state w') in
  availableVoices (state w') = getVoices w /\
  ((exists v, In v (getVoices w) /\ preferred v = true) ->
   (exists v, nth_error (getVoices w) i = Some v /\ preferred v = true) /\
   (forall j u, (j < i)%nat -> nth_error (getVoices w) j = Some u ->
                preferred u = false)) /\
  ((forall v, In v (getVoices w) -> preferred v = false) ->
   i = selectedVoiceIndex (state w)).
Proof.
  intros Hq Hne. cbn zeta. unfold loadVoices. rewrite Hq.
  assert (Hlen : (0 <? List.length (getVoices w))%nat = true).
  { destruct (getVoices w); [contradiction|reflexivity]. }
  rewrite Hlen.
  destruct (findIndex preferred (getVoices w)) as [k|] eqn:Hk; cbn.
  - split; [reflexivity|]. split.
    + intros _. apply findIndex_Some. exact Hk.
    + intros Hnone. destruct (findIndex_Some _ _ _ Hk) as ((x & Hx & Hp) & _).
      rewrite (Hnone x (nth_error_In _ _ Hx)) in Hp. discriminate.
  - split; [reflexivity|]. split.
    + intros (v & Hv & Hp).
      rewrite (proj1 (findIndex_None _ _) Hk v Hv) in Hp. discriminate.
    + reflexivity.
Qed.

Lemma loadVoices_selects_first_preferred_witness :
  exists v,
    nth_error (getVoices threeVoices)
      (selectedVoiceIndex (state (loadVoices threeVoices))) = Some v /\
    preferred v = true.
Proof.
  destruct (loadVoices_selects_first_preferred threeVoices [] eq_refl
              ltac:(discriminate)) as (_ & H & _).
  apply H. exists (mkVoice "Karen" true). split; [|reflexivity].
  right. right. left. reflexivity.
Defined.

(** X12. In a render that has voices, an utterance is spoken with the
    voice at the selected index, and with the browser's default voice
    (none set) when the index is out of range; in a render without voices,
    [startSpeech] looks the voices up itself and uses the first preferred
    one, if any. *)
Theorem utterance_voice view text isSystem priority w q :
  speechSynthesis w = Some q ->
  let w' := startSpeech view text isSystem priority w in
  (availableVoices view <> [] ->
   speechSynthesis w'
   = Some (q ++ [mkUtterance text 8 10 10
                   (nth_error (availableVoices view)
                      (selectedVoiceIndex view))])%list) /\
  (availableVoices view = [] ->
   speechSynthesis w'
   = Some (q ++ [mkUtterance text 8 10 10
                   (match findIndex preferred (getVoices w) with
                    | Some i => nth_error (getVoices w) i
                    | None => None
                    end)])%list).
Proof.
  intros Hq. cbn zeta. unfold startSpeech. split.
  - intros Hne.
    assert (Hlen : (List.length (availableVoices view) =? 0)%nat = false).
    { destruct (availableVoices view); [contradiction|reflexivity]. }
    rewrite Hlen.
    destruct (selectedVoiceIndex view <? List.length (availableVoices view))%nat
      eqn:Hi; unfold synth_speak; cbn; rewrite Hq; cbn.
    + reflexivity.
    + apply Nat.ltb_ge in Hi.
      rewrite (proj2 (nth_error_None _ _) Hi). reflexivity.
  - intros ->. cbn [List.length Nat.eqb].
    destruct (0 <? List.length (getVoices w))%nat eqn:Hlen.
    + destruct (findIndex preferred (getVoices w));
        unfold synth_speak; cbn; rewrite Hq; reflexivity.
    + unfold synth_speak. rewrite Hq. cbn.
      destruct (getVoices w); [reflexivity|discriminate].
Qed.

Lemma utterance_voice_witness :
  speechSynthesis
    (startSpeech
       (mkState true false "" [] false false [mkVoice "Fred" false] 3 true)
       "Hello" false false initialWorld)
  = Some [mkUtterance "Hello" 8 10 10 None].
Proof.
  destruct (utterance_voice
              (mkState true false "" [] false false [mkVoice "Fred" false] 3
                 true)
              "Hello" false false initialWorld [] eq_refl) as (H & _).
  apply H. discriminate.
Defined.

(** *** Buckets and unhandled frames *)

Lemma string_of_Z_inj a b : string_of_Z a = string_of_Z b -> a = b.
Proof.
  unfold string_of_Z. intros H.
  assert (Hnn : forall z, Z.to_int z <> Decimal.Pos Decimal.Nil /\
                          Z.to_int z <> Decimal.Neg Decimal.Nil).
  { intros [|p|p]; cbn; split; try discriminate;
      intros [= E]; exact (DecimalPos.Unsigned.to_uint_nonnil p E). }
  apply (f_equal NilZero.int_of_string) in H.
  rewrite !NilZero.isi in H by apply Hnn.
  injection H as H. apply DecimalZ.to_int_inj. exact H.
Qed.

Lemma append_cancel_l (a b c : string) : a ++ b = a ++ c -> b = c.
Proof.
  induction a as [|x a IH]; cbn; intros H; [exact H|].
  injection H as H. apply IH. exact H.
Qed.

Lemma messageWithTime_bucket t1 t2 data k1 k2 :
  messageWithTime t1 data = Some k1 ->
  messageWithTime t2 data = Some k2 ->
  t1 / 2000 <> t2 / 2000 ->
  k1 <> k2.
Proof.
  unfold messageWithTime.
  destruct (get_prop data "type") as [ty|], (get_prop data "data");
    try discriminate.
  destruct (toString_val ty); [|discriminate].
  intros [= <-] [= <-] Hb E. apply Hb.
  apply append_cancel_l in E. injection E as E.
  apply string_of_Z_inj. exact E.
Qed.

(** X13. The time window is a fixed 2-second bucket, not a distance: of
    two identical messages in different buckets (1 ms apart across a
    boundary, say) the second is handled in full as well, when nothing
    else has been recorded. *)
Theorem duplicate_across_buckets_processed view t1 t2 data w key :
  processedMessagesRef w = [] ->
  messageWithTime t1 data = Some key ->
  t1 / 2000 <> t2 / 2000 ->
  let w1 := ws_onmessage view t1 (Some data) w in
  exists ty payload key2,
    get_prop data "type" = Some ty /\
    get_prop data "data" = Some payload /\
    messageWithTime t2 data = Some key2 /\
    ws_onmessage view t2 (Some data) w1
    = dispatch view t2 ty payload (remember key2 w1) /\
    processedMessagesRef (ws_onmessage view t2 (Some data) w1)
    = [key; key2].
Proof.
  intros Hempty Hk Hb. cbn zeta.
  assert (Hfresh : set_has key (processedMessagesRef w) = false)
    by (rewrite Hempty; reflexivity).
  destruct (ws_onmessage_fresh view t1 data w key Hk Hfresh)
    as (ty & payload & Hty & Hd & Hw1).
  assert (Hk2 : exists key2, messageWithTime t2 data = Some key2).
  { unfold messageWithTime in Hk |- *. rewrite Hty, Hd in Hk |- *.
    destruct (toString_val ty); [|discriminate]. eexists. reflexivity. }
  destruct Hk2 as (key2 & Hk2).
  assert (Hne : key <> key2)
    by (apply (messageWithTime_bucket t1 t2 data); assumption).
  assert (Hset1 : processedMessagesRef
                    (ws_onmessage view t1 (Some data) w) = [key]).
  { rewrite Hw1, dispatch_processedMessagesRef, remember_keys, Hempty.
    reflexivity. }
  assert (Hfresh2 : set_has key2
                      (processedMessagesRef
                         (ws_onmessage view t1 (Some data) w)) = false).
  { rewrite Hset1. cbn. rewrite orb_false_r.
    apply String.eqb_neq. intros E. apply Hne. symmetry. exact E. }
  destruct (ws_onmessage_fresh view t2 data _ key2 Hk2 Hfresh2)
    as (ty' & payload' & Hty' & Hd' & Hw2).
  rewrite Hty in Hty'. rewrite Hd in Hd'.
  injection Hty' as <-. injection Hd' as <-.
  exists ty, payload, key2. repeat split; try assumption.
  rewrite Hw2, dispatch_processedMessagesRef, remember_keys, Hset1.
  cbn zeta. unfold set_add. cbn [set_has existsb].
  assert (E : String.eqb key2 key = false)
    by (apply String.eqb_neq; intros E; apply Hne; symmetry; exact E).
  rewrite E. reflexivity.
Qed.

Lemma duplicate_across_buckets_processed_witness :
  messages
    (state (ws_onmessage initialState 2000 (Some (speakFrame "Hello"))
              (ws_onmessage initialState 1999 (Some (speakFrame "Hello"))
                 initialWorld)))
  = [mkMessage "assistant" (str "Hello") 1999;
     mkMessage "assistant" (str "Hello") 2000].
Proof.
  destruct (duplicate_across_buckets_processed initialState 1999 2000
              (speakFrame "Hello") initialWorld _ eq_refl eq_refl
              ltac:(discriminate))
    as (ty & payload & key2 & Hty & Hd & _ & Hw & _).
  rewrite Hw. injection Hty as <-. injection Hd as <-. reflexivity.
Defined.

(** X14. A frame that is not JSON, or is the JSON [null], changes
    nothing; nor does a frame whose type is an object with an own
    [toString] key, on which the template literal that builds the key
    throws. A frame whose type is none of [speak], [result], [status] and
    [error], and for which a key is built, is only recorded in the
    seen-set: nothing is displayed, spoken or sent. *)
Theorem unhandled_frames view now w :
  ws_onmessage view now None w = w /\
  ws_onmessage view now (Some JNull) w = w /\
  (forall data props,
     get_prop data "type" = Some (Some (JObj props)) ->
     has_own "toString" props = true ->
     messageWithTime now data = None /\
     ws_onmessage view now (Some data) w = w) /\
  (forall data ty payload key,
     get_prop data "type" = Some ty ->
     get_prop data "data" = Some payload ->
     strict_eq ty "speak" = false ->
     strict_eq ty "result" = false ->
     strict_eq ty "status" = false ->
     strict_eq ty "error" = false ->
     messageWithTime now data = Some key ->
     ws_onmessage view now (Some data) w
     = if set_has key (processedMessagesRef w) then w else remember key w).
Proof.
  split; [reflexivity|]. split; [reflexivity|]. split.
  - intros data props Hty Hown.
    assert (Hk : messageWithTime now data = None).
    { unfold messageWithTime. rewrite Hty.
      destruct (get_prop data "data"); [|reflexivity].
      cbn. rewrite Hown. reflexivity. }
    split; [exact Hk|]. unfold ws_onmessage. rewrite Hk. reflexivity.
  - intros data ty payload key Hty Hd H1 H2 H3 H4 Hk.
    unfold ws_onmessage. rewrite Hk, Hty, Hd.
    destruct (set_has key (processedMessagesRef w)); [reflexivity|].
    unfold dispatch. rewrite H1, H2, H3, H4. reflexivity.
Qed.

Lemma unhandled_frames_witness :
  state (ws_onmessage initialState 0
           (Some (JObj [("type", JStr "ping");
                        ("data", JNum (mkNumber 1 eq_refl))]))
           initialWorld)
  = initialState /\
  ws_onmessage initialState 0
    (Some (JObj [("type", JObj [("toString", JStr "speak")]);
                 ("data", JObj [("text", JStr "Hello")])]))
    initialWorld
  = initialWorld.
Proof.
  destruct (unhandled_frames initialState 0 initialWorld)
    as (_ & _ & Hthrow & H).
  split.
  - rewrite (H (JObj [("type", JStr "ping");
                      ("data", JNum (mkNumber 1 eq_refl))])
               (Some (JStr "ping")) (Some (JNum (mkNumber 1 eq_refl))) _
               eq_refl eq_refl eq_refl eq_refl eq_refl eq_refl eq_refl).
    reflexivity.
  - apply (Hthrow _ [("toString", JStr "speak")]); reflexivity.
Defined.

(** *** The speaking and listening flags *)

Lemma suc_refl w : speech_untouched_or_cleared w w.
Proof. split; [reflexivity|left; split; reflexivity]. Qed.

Lemma suc_trans w w1 w2 :
  speech_untouched_or_cleared w w1 ->
  speech_untouched_or_cleared w1 w2 ->
  speech_untouched_or_cleared w w2.
Proof.
  intros (Hl1 & H1) (Hl2 & H2). split; [congruence|].
  destruct H2 as [(Hs2 & Hr2) | (Hs2 & Hr2)].
  - destruct H1 as [(Hs1 & Hr1) | (Hs1 & Hr1)].
    + left. split; congruence.
    + right. split; congruence.
  - right. split; assumption.
Qed.

Lemma suc_same w w' :
  isListening (state w') = isListening (state w) ->
  isSpeaking (state w') = isSpeaking (state w) ->
  currentUtteranceRef w' = currentUtteranceRef w ->
  speech_untouched_or_cleared w w'.
Proof. intros Hl Hs Hr. split; [exact Hl|left; split; assumption]. Qed.

Lemma startSpeech_isListening view text isSystem priority w :
  isListening (state (startSpeech view text isSystem priority w))
  = isListening (state w).
Proof.
  unfold startSpeech.
  destruct (List.length (availableVoices view) =? 0)%nat;
    [ destruct (0 <? List.length (getVoices w))%nat;
      [ destruct (findIndex preferred (getVoices w)) | ]
    | destruct (selectedVoiceIndex view
                  <? List.length (availableVoices view))%nat ];
    unfold synth_speak; cbn; destruct (speechSynthesis w); reflexivity.
Qed.

Lemma startSpeech_suc view text isSystem priority w :
  speech_untouched_or_cleared w (startSpeech view text isSystem priority w).
Proof.
  destruct (startSpeech_frame view text isSystem priority w)
    as (_ & _ & _ & Hr & _ & _ & _ & _ & _ & Hs & _).
  apply suc_same; [apply startSpeech_isListening|exact Hs|exact Hr].
Qed.

Lemma speak_suc view text isSystem priority w :
  speech_untouched_or_cleared w (speak view text isSystem priority w).
Proof.
  unfold speak, synth_cancel.
  destruct (speechSynthesis w); [|apply suc_refl].
  destruct (priority || isSpeaking view && negb isSystem).
  - split; [reflexivity|right; split; reflexivity].
  - destruct (isSpeaking view && negb priority);
      [apply suc_refl|apply startSpeech_suc].
Qed.

Lemma interruptSpeech_suc w : speech_untouched_or_cleared w (interruptSpeech w).
Proof.
  unfold interruptSpeech, synth_cancel.
  destruct (speechSynthesis w); [|apply suc_refl].
  match goal with |- context [if ?c then _ else _] => destruct c end;
    (split; [reflexivity|right; split; reflexivity]).
Qed.

Lemma cancelCurrentTask_suc view w :
  speech_untouched_or_cleared w (cancelCurrentTask view w).
Proof.
  unfold cancelCurrentTask. destruct (ws_open w); [|apply suc_refl].
  eapply suc_trans; [|apply speak_suc]. apply suc_same; reflexivity.
Qed.

Lemma recognition_onresult_suc view now event w :
  speech_untouched_or_cleared w (recognition_onresult view now event w).
Proof.
  unfold recognition_onresult, sendCommand.
  set (w1 := setTranscript (result_transcript event) w).
  assert (H1 : speech_untouched_or_cleared w w1)
    by (apply suc_same; reflexivity).
  set (w2 := if isSpeaking view
                && includes (toLowerCase (result_transcript event)) "stop"
             then interruptSpeech w1 else w1).
  assert (H2 : speech_untouched_or_cleared w w2).
  { unfold w2. destruct (isSpeaking view && _); [|exact H1].
    eapply suc_trans; [exact H1|apply interruptSpeech_suc]. }
  destruct (isFinal event); [|exact H2].
  eapply suc_trans; [exact H2|].
  destruct (negb (String.eqb (trim (result_transcript event)) ""));
    [|apply suc_same; reflexivity].
  destruct (ws_open w2); apply suc_same; reflexivity.
Qed.

Lemma dispatch_suc view now ty payload w :
  speech_untouched_or_cleared w (dispatch view now ty payload w).
Proof.
  unfold dispatch.
  destruct (strict_eq ty "speak").
  { destruct (text_of payload); [|apply suc_refl].
    eapply suc_trans; [apply speak_suc|apply suc_same; reflexivity]. }
  destruct (strict_eq ty "result").
  { destruct (text_of payload); [|apply suc_refl].
    destruct (String.eqb (lastResultMessageRef w) s);
      [apply suc_same; reflexivity|].
    eapply suc_trans;
      [apply (suc_same w (set_lastResultMessageRef s w)); reflexivity|].
    eapply suc_trans; [apply speak_suc|apply suc_same; reflexivity]. }
  destruct (strict_eq ty "status").
  { destruct (get_prop_val payload "message") as [message|];
      [|apply suc_refl].
    destruct (value_includes message "Processing:") as [[]|];
      try (apply suc_same; reflexivity).
    destruct (value_includes message "Ready") as [[]|];
      apply suc_same; reflexivity. }
  destruct (strict_eq ty "error").
  { destruct (get_prop_val payload "message") as [message|];
      [|apply suc_refl].
    eapply suc_trans;
      [apply (suc_same w (addMessage now "error" message w)); reflexivity|].
    destruct (toString_val message); [|apply suc_refl].
    eapply suc_trans; [apply speak_suc|apply suc_same; reflexivity]. }
  apply suc_refl.
Qed.

Lemma ws_onmessage_suc view now event_data w :
  speech_untouched_or_cleared w (ws_onmessage view now event_data w).
Proof.
  unfold ws_onmessage.
  destruct event_data as [data|]; [|apply suc_refl].
  destruct (messageWithTime now data) as [key|]; [|apply suc_refl].
  destruct (set_has key (processedMessagesRef w)); [apply suc_refl|].
  destruct (get_prop data "type"), (get_prop data "data");
    try (apply suc_same; reflexivity).
  eapply suc_trans; [|apply dispatch_suc]. apply suc_same; reflexivity.
Qed.

Lemma ws_onclose_suc view now code w :
  speech_untouched_or_cleared w (ws_onclose view now code w).
Proof.
  unfold ws_onclose.
  destruct (negb (code =? 1000)); [|apply suc_same; reflexivity].
  set (w1 := addMessage now "system" (str "Disconnected from backend")
               (setIsConnected false w)).
  pose proof (speak_suc view "Disconnected from voice browser backend"
                true false w1) as (Hl & H).
  cbn. split; [exact Hl|exact H].
Qed.

Lemma fire_suc view callback w :
  speech_untouched_or_cleared w (fire view callback w).
Proof.
  destruct callback as [|t s pr|t s pr|t]; cbn [fire].
  - apply suc_same; reflexivity.
  - apply speak_suc.
  - apply startSpeech_suc.
  - unfold synth_speak. destruct (speechSynthesis w);
      apply suc_same; reflexivity.
Qed.

Lemma loadVoices_suc w : speech_untouched_or_cleared w (loadVoices w).
Proof.
  unfold loadVoices. destruct (speechSynthesis w); [|apply suc_refl].
  destruct (0 <? List.length (getVoices w))%nat; [|apply suc_refl].
  destruct (findIndex preferred (getVoices w)); apply suc_same; reflexivity.
Qed.

Lemma suc_keeps_sync w w' :
  speech_untouched_or_cleared w w' ->
  speaking_in_sync w -> speaking_in_sync w'.
Proof.
  unfold speaking_in_sync.
  intros (_ & [(Hs & Hr) | (Hs & Hr)]) H; rewrite Hs, Hr;
    [exact H|reflexivity].
Qed.

Lemma toggleListening_sync view start_throws p :
  speaking_in_sync (world p) ->
  speaking_in_sync (world (toggleListening view start_throws p)).
Proof.
  intros H. unfold toggleListening.
  destruct (recognitionRef p);
    [|apply (suc_keeps_sync _ _ (speak_suc _ _ _ _ _) H)].
  destruct (negb (isConnected view));
    [apply (suc_keeps_sync _ _ (speak_suc _ _ _ _ _) H)|].
  destruct (isListening view); [|destruct start_throws]; cbn;
    apply (suc_keeps_sync _ _ (speak_suc _ _ _ _ _)); exact H.
Qed.

(** X24. The speaking flag and the utterance reference never disagree:
    after any run of events from a state where the flag is set exactly
    when the reference holds an utterance, this is still so. *)
Theorem speaking_flag_in_sync l : forall p,
  speaking_in_sync (world p) -> speaking_in_sync (world (run l p)).
Proof.
  induction l as [|[[view now] ev] rest IH]; intros p Hp; cbn [run];
    [exact Hp|].
  apply IH.
  destruct ev as [|event_data|close_code|url|result|error| | | |utext error
                 |callback|start_throws e|start_throws| | | | | |index];
    cbn [step on_world world].
  - exact Hp.
  - apply (suc_keeps_sync _ _ (ws_onmessage_suc _ _ _ _) Hp).
  - apply (suc_keeps_sync _ _
             (ws_onclose_suc view now close_code
                (set_wsRef (Some CLOSED) (world p))) Hp).
  - exact Hp.
  - apply (suc_keeps_sync _ _ (recognition_onresult_suc _ _ _ _) Hp).
  - exact Hp.
  - unfold recognition_onend.
    destruct (isListening view && isConnected view); exact Hp.
  - reflexivity.
  - reflexivity.
  - unfold utterance_onerror.
    destruct (String.eqb error "network" || _); reflexivity.
  - apply (suc_keeps_sync _ _ (fire_suc _ _ _) Hp).
  - unfold handleKeyPress.
    destruct (String.eqb (code e) "Space" && targetIsBody e);
      [apply toggleListening_sync; exact Hp|].
    destruct (String.eqb (code e) "Escape").
    + destruct (isSpeaking view);
        [apply (suc_keeps_sync _ _ (interruptSpeech_suc _) Hp)|].
      destruct (isProcessing view);
        [apply (suc_keeps_sync _ _ (cancelCurrentTask_suc _ _) Hp)
        |exact Hp].
    + destruct (String.eqb (code e) "KeyC" && ctrlKey e && isProcessing view);
        [apply (suc_keeps_sync _ _ (cancelCurrentTask_suc _ _) Hp)
        |exact Hp].
  - apply toggleListening_sync. exact Hp.
  - apply (suc_keeps_sync _ _ (cancelCurrentTask_suc _ _) Hp).
  - apply (suc_keeps_sync _ _ (interruptSpeech_suc _) Hp).
  - exact Hp.
  - apply (suc_keeps_sync _ _ (speak_suc _ _ _ _ _) Hp).
  - apply (suc_keeps_sync _ _ (loadVoices_suc _) Hp).
  - exact Hp.
Qed.

Lemma speaking_flag_in_sync_witness :
  speaking_in_sync
    (world (run [(initialState, 0, EvUtteranceStart inFlight);
                 (speakingView, 10, EvStopSpeaking)] initialPage)).
Proof.
  apply speaking_flag_in_sync. reflexivity.
Defined.

Lemma on_world_listening f p :
  isListening (state (f (world p))) = isListening (state (world p)) ->
  listening_was_started p -> listening_was_started (on_world f p).
Proof.
  intros Hl H. unfold listening_was_started in *. cbn [on_world world recognitionRef].
  rewrite Hl. exact H.
Qed.

Lemma speak_isListening view text isSystem priority w :
  isListening (state (speak view text isSystem priority w))
  = isListening (state w).
Proof. apply speak_suc. Qed.

Lemma toggleListening_listening view start_throws p :
  listening_was_started p ->
  listening_was_started (toggleListening view start_throws p).
Proof.
  intros H. unfold toggleListening.
  destruct (recognitionRef p) as [calls|] eqn:Hr;
    [|apply on_world_listening; [apply speak_isListening|exact H]].
  destruct (negb (isConnected view));
    [apply on_world_listening; [apply speak_isListening|exact H]|].
  destruct (isListening view).
  - unfold listening_was_started. cbn. rewrite speak_isListening. cbn.
    discriminate.
  - destruct start_throws.
    + unfold listening_was_started in *. cbn.
      rewrite speak_isListening, Hr. cbn. intros Hl.
      destruct (H Hl) as (c & Hc & Hin).
      assert (c = calls) by congruence. subst c.
      eexists. split; [reflexivity|]. apply in_or_app. left. exact Hin.
    + unfold listening_was_started. cbn. rewrite Hr. cbn. intros _.
      eexists. split; [reflexivity|]. apply in_or_app. right. left.
      reflexivity.
Qed.

Lemma step_listening view now ev p :
  listening_was_started p -> listening_was_started (step view now ev p).
Proof.
  intros H.
  destruct ev as [|event_data|close_code|url|result|error| | | |utext error
                 |callback|start_throws e|start_throws| | | | | |index];
    cbn [step].
  - apply on_world_listening; [reflexivity|exact H].
  - apply on_world_listening; [apply ws_onmessage_suc|exact H].
  - apply on_world_listening; [|exact H].
    apply (ws_onclose_suc view now close_code
             (set_wsRef (Some CLOSED) (world p))).
  - apply on_world_listening; [reflexivity|exact H].
  - apply on_world_listening; [apply recognition_onresult_suc|exact H].
  - unfold listening_was_started. cbn. discriminate.
  - unfold recognition_onend.
    destruct (isListening view && isConnected view); [|exact H].
    unfold listening_was_started in *. cbn. intros Hl.
    destruct (H Hl) as (c & Hc & Hin). rewrite Hc. cbn.
    eexists. split; [reflexivity|]. apply in_or_app. left. exact Hin.
  - apply on_world_listening; [reflexivity|exact H].
  - apply on_world_listening; [reflexivity|exact H].
  - apply on_world_listening; [|exact H]. unfold utterance_onerror.
    destruct (String.eqb error "network" || _); reflexivity.
  - apply on_world_listening; [apply fire_suc|exact H].
  - unfold handleKeyPress.
    destruct (String.eqb (code e) "Space" && targetIsBody e);
      [apply toggleListening_listening; exact H|].
    destruct (String.eqb (code e) "Escape").
    + destruct (isSpeaking view);
        [apply on_world_listening; [apply interruptSpeech_suc|exact H]|].
      destruct (isProcessing view);
        [apply on_world_listening; [apply cancelCurrentTask_suc|exact H]
        |exact H].
    + destruct (String.eqb (code e) "KeyC" && ctrlKey e && isProcessing view);
        [apply on_world_listening; [apply cancelCurrentTask_suc|exact H]
        |exact H].
  - apply toggleListening_listening. exact H.
  - apply on_world_listening; [apply cancelCurrentTask_suc|exact H].
  - apply on_world_listening; [apply interruptSpeech_suc|exact H].
  - apply on_world_listening; [reflexivity|exact H].
  - apply on_world_listening; [apply speak_isListening|exact H].
  - apply on_world_listening; [apply loadVoices_suc|exact H].
  - apply on_world_listening; [reflexivity|exact H].
Qed.

(** X25. The page never shows itself as listening without recognition
    having been started: after any run of events, a set listening flag
    means that a recognition object exists and [start()] has been called
    on it. In particular a toggle while disconnected, without recognition,
    or whose [start()] throws does not set the flag. *)
Theorem listening_only_after_start l : forall p,
  listening_was_started p -> listening_was_started (run l p).
Proof.
  induction l as [|[[view now] ev] rest IH]; intros p Hp;
    cbn [run]; [exact Hp|].
  apply IH. apply step_listening. exact Hp.
Qed.

Lemma listening_only_after_start_witness :
  exists calls,
    recognitionRef
      (run [(connectedView, 100, EvToggleListening false)] readyPage)
    = Some calls /\ In Start calls.
Proof.
  apply (listening_only_after_start
           [(connectedView, 100, EvToggleListening false)] readyPage).
  - unfold listening_was_started. cbn. discriminate.
  - reflexivity.
Defined.

End VoicePageProperties.

(* ===================================================================== *)
(** ** Further properties of the task page *)
(* ===================================================================== *)

Section HomePageProperties.
Import JS Home HomePage.

(** *** Statuses *)

Lemma lower_ascii_idempotent c : lower_ascii (lower_ascii c) = lower_ascii c.
Proof.
  destruct c as [[] [] [] [] [] [] [] []]; reflexivity.
Qed.

Lemma toLowerCase_idempotent s : toLowerCase (toLowerCase s) = toLowerCase s.
Proof.
  induction s as [|c s IH]; cbn; [reflexivity|].
  rewrite lower_ascii_idempotent, IH. reflexivity.
Qed.

Lemma isTerminalStatus_spec st :
  isTerminalStatus st = true <->
  In (toLowerCase st) ["complete"; "completed"; "failed"; "error"; "stopped"].
Proof.
  unfold isTerminalStatus. rewrite existsb_exists. split.
  - intros (x & Hx & He). apply String.eqb_eq in He. subst x. exact Hx.
  - intros H. exists (toLowerCase st). split; [exact H|apply String.eqb_refl].
Qed.

(** X15. The badge shown for a task agrees with the predicates that drive
    polling: Completed, Failed and Stopped are shown for terminal statuses
    only, Paused exactly for paused ones, Running exactly for running
    ones; no status is both terminal and paused; and the one terminal
    status shown with the Task Created badge is [error]. *)
Theorem badge_agrees_with_status (task : Task) :
  let b := renderedBadge task in
  let st := status task in
  (b = Completed \/ b = Failed \/ b = Stopped ->
   isTerminalStatus st = true) /\
  (b = Paused <-> isPaused st = true) /\
  (b = Running <-> toLowerCase st = "running") /\
  (isTerminalStatus st = true -> isPaused st = true -> False) /\
  (isTerminalStatus st = true -> b = TaskCreated ->
   toLowerCase st = "error").
Proof.
  cbn zeta. unfold renderedBadge, getStatusBadge, isPaused.
  rewrite toLowerCase_idempotent.
  rewrite isTerminalStatus_spec.
  set (l := toLowerCase (status task)).
  destruct (String.eqb_spec l "complete") as [E1|N1];
    [rewrite E1; cbn; repeat split; try discriminate; try tauto;
     intros; try discriminate; cbn; tauto|].
  destruct (String.eqb_spec l "completed") as [E2|N2];
    [rewrite E2; cbn; repeat split; try discriminate; try tauto;
     intros; try discriminate; cbn; tauto|].
  destruct (String.eqb_spec l "failed") as [E3|N3];
    [rewrite E3; cbn; repeat split; try discriminate; try tauto;
     intros; try discriminate; cbn; tauto|].
  destruct (String.eqb_spec l "running") as [E4|N4];
    [rewrite E4; cbn; repeat split; try discriminate; try tauto;
     intros; try discriminate;
     repeat match goal with H : _ \/ _ |- _ => destruct H end;
     try discriminate; try contradiction|].
  destruct (String.eqb_spec l "created") as [E5|N5];
    [rewrite E5; cbn; repeat split; try discriminate; try tauto;
     intros; try discriminate;
     repeat match goal with H : _ \/ _ |- _ => destruct H end;
     try discriminate; try contradiction|].
  destruct (String.eqb_spec l "stopped") as [E6|N6];
    [rewrite E6; cbn; repeat split; try discriminate; try tauto;
     intros; try discriminate; cbn; tauto|].
  destruct (String.eqb_spec l "paused") as [E7|N7];
    [rewrite E7; cbn; repeat split; try discriminate; try tauto;
     intros; try discriminate;
     repeat match goal with H : _ \/ _ |- _ => destruct H end;
     try discriminate; try contradiction|].
  cbn [orb]. repeat split; try discriminate; intros;
    cbn [In] in *;
    repeat match goal with H : _ \/ _ |- _ => destruct H end;
    try discriminate; try congruence; try contradiction.
Qed.

(** *** Typewriter *)

(** One poll leaves no interval alive when none was, and the displayed
    text is the one before it, empty, or the placeholder. *)
Lemma poll_leaves_no_interval reply s :
  intervals s = [] ->
  intervals (poll reply s) = [] /\
  (displayedText (poll reply s) = displayedText s \/
   displayedText (poll reply s) = "" \/
   displayedText (poll reply s) = "(No specific steps outlined)").
Proof.
  intros Hi. unfold poll, fetchThoughts.
  destruct (activeTask s) as [task|] eqn:Ht;
    [|rewrite thought_changed_same by reflexivity; split;
      [exact Hi|left; reflexivity]].
  destruct (negb (String.eqb (toLowerCase (status task)) "running") || false);
    [rewrite thought_changed_same by reflexivity; split;
     [exact Hi|left; reflexivity]|].
  destruct reply as [data|];
    [|rewrite thought_changed_same by reflexivity; split;
      [exact Hi|left; reflexivity]].
  destruct (latest data) as [l|] eqn:Hl;
    [|rewrite thought_changed_same by reflexivity; split;
      [exact Hi|left; reflexivity]].
  destruct (is_new (latestThought s) (Some l)) eqn:Hnew;
    [|rewrite thought_changed_same by reflexivity; split;
      [exact Hi|left; reflexivity]].
  rewrite (thought_changed_new s _ l);
    [| apply (restart_frame (id task) l
                (issue (CallFetchPlannerThoughts (id task)) s))
     | exact Hnew].
  unfold restart, startTypewriterEffect, thoughtsEffectCleanup.
  destruct (typewriterIntervalRef s) eqn:Hr;
    cbn [typewriterIntervalRef setLatestThought issue];
    rewrite ?Hr;
    destruct (List.length (next_steps (content l)) =? 0)%nat;
    try destruct (List.length
                    (filter nonBlank (next_steps (content l))) =? 0)%nat;
    cbn; rewrite ?Hr, ?Hi; cbn; rewrite ?Nat.eqb_refl; cbn;
    (split; [first [reflexivity|exact Hi]|]); auto.
Qed.

(** X16. On the page the typewriter never reveals anything: starting with
    no interval alive, after any run of polls no interval is alive, so no
    firing changes anything, and the text shown is the one shown before
    the polls, the empty text a new thought sets, or the placeholder. *)
Theorem typewriter_never_reveals replies : forall s,
  intervals s = [] ->
  let s' := polls replies s in
  intervals s' = [] /\
  (forall k h, typewriter_ticks k h s' = s') /\
  (displayedText s' = displayedText s \/
   displayedText s' = "" \/
   displayedText s' = "(No specific steps outlined)").
Proof.
  induction replies as [|r rest IH]; intros s Hi; cbn zeta; cbn [polls].
  - split; [exact Hi|]. split; [|left; reflexivity].
    intros k h. apply typewriter_ticks_dead. rewrite Hi. reflexivity.
  - destruct (poll_leaves_no_interval r s Hi) as (Hi1 & Hd1).
    destruct (IH (poll r s) Hi1) as (Hi2 & Hk & Hd2). cbn zeta in *.
    split; [exact Hi2|]. split; [exact Hk|].
    destruct Hd2 as [E|[E|E]]; rewrite E; auto.
Qed.

Lemma typewriter_never_reveals_witness :
  intervals (polls [replyAt 100 ["Open"]; replyAt 200 ["Click"]]
               (withTask "running")) = [] /\
  displayedText
    (typewriter_ticks 4 1
       (polls [replyAt 100 ["Open"]; replyAt 200 ["Click"]]
          (withTask "running"))) = "".
Proof.
  destruct (typewriter_never_reveals
              [replyAt 100 ["Open"]; replyAt 200 ["Click"]]
              (withTask "running") eq_refl) as (Hi & Hk & _).
  split; [exact Hi|]. rewrite Hk. reflexivity.
Defined.

(** X17. Started on steps that are all blank (or on no step), the
    typewriter arms nothing: the placeholder text is shown at once, the
    typing flag is off, and an interval the reference held is cleared. *)
Theorem typewriter_without_steps steps s :
  filter nonBlank steps = [] ->
  let s' := startTypewriterEffect steps s in
  displayedText s' = "(No specific steps outlined)" /\
  isTyping s' = false /\
  typewriterIntervalRef s' = None /\
  nextHandle s' = nextHandle s /\
  intervals s'
    = match typewriterIntervalRef s with
      | Some h => filter (fun e => negb (Nat.eqb (fst e) h)) (intervals s)
      | None => intervals s
      end.
Proof.
  intros Hblank. cbn zeta. unfold startTypewriterEffect. rewrite Hblank.
  cbn [List.length Nat.eqb].
  destruct (typewriterIntervalRef s) eqn:Hr;
    destruct (List.length steps =? 0)%nat; cbn;
    rewrite ?Hr; repeat split; reflexivity.
Qed.

Lemma typewriter_without_steps_witness :
  displayedText (startTypewriterEffect [""; "   "] idle)
  = "(No specific steps outlined)".
Proof.
  destruct (typewriter_without_steps [""; "   "] idle eq_refl) as (H & _).
  exact H.
Defined.

(** *** Status polling *)

Lemma isTerminalStatus_lower st :
  isTerminalStatus (toLowerCase st) = isTerminalStatus st.
Proof. unfold isTerminalStatus. rewrite toLowerCase_idempotent. reflexivity. Qed.

Lemma isPaused_lower st : isPaused (toLowerCase st) = isPaused st.
Proof. unfold isPaused. rewrite toLowerCase_idempotent. reflexivity. Qed.

(** X18. A status reply is applied only to the task it was fetched for and
    only when the status differs: a reply for another task, or with the
    status already stored, leaves every cell as it is. An applied reply
    stores the new status and clears the current step and the latest
    thought unless the new status is [running]; the handler stops its
    interval exactly for a terminal or paused status, and the effect does
    not start polling again on the status just stored. A failed call
    changes nothing and keeps polling. *)
Theorem status_reply_applied view task newStatus s :
  activeTask view = Some task ->
  let r := fetchStatus view (Some newStatus) s in
  requests (fst r) = (requests s ++ [ReqFetchTaskStatus (id task)])%list /\
  snd r = isTerminalStatus newStatus || isPaused newStatus /\
  (activeTask (ui s) = None -> ui (fst r) = ui s) /\
  (forall prev,
     activeTask (ui s) = Some prev ->
     (id prev <> id task \/ status prev = newStatus -> ui (fst r) = ui s) /\
     (id prev = id task -> status prev <> newStatus ->
      activeTask (ui (fst r)) = Some (with_status newStatus prev) /\
      (toLowerCase newStatus = "running" ->
       currentStep (ui (fst r)) = currentStep (ui s) /\
       latestThought (ui (fst r)) = latestThought (ui s)) /\
      (toLowerCase newStatus <> "running" ->
       currentStep (ui (fst r)) = None /\
       latestThought (ui (fst r)) = None) /\
      (snd r = true -> statusPolling (ui (fst r)) = false))) /\
  fetchStatus view None s = (request (ReqFetchTaskStatus (id task)) s, false).
Proof.
  intros Ht. cbn zeta. unfold fetchStatus. rewrite Ht.
  cbn [fst snd requests request on_ui ui].
  rewrite isTerminalStatus_lower, isPaused_lower.
  split; [reflexivity|]. split; [reflexivity|]. split; [|split].
  - intros Hnone. rewrite Hnone. reflexivity.
  - intros prev Hprev. rewrite Hprev. split.
    + intros [Hid | Hst].
      * destruct (String.eqb_spec (id prev) (id task));
          [contradiction|reflexivity].
      * rewrite Hst, String.eqb_refl, andb_false_r. reflexivity.
    + intros Hid Hst.
      rewrite Hid, String.eqb_refl.
      destruct (String.eqb_spec (status prev) newStatus); [contradiction|].
      cbn [andb negb].
      destruct (String.eqb_spec (toLowerCase newStatus) "running")
        as [Hrun | Hrun]; cbn [negb]; unfold statusPolling;
        cbn -[isTerminalStatus isPaused].
      * split; [reflexivity|]. split; [intros _; split; reflexivity|].
        split; [intros Hc; contradiction|].
        destruct (isTerminalStatus newStatus), (isPaused newStatus);
          cbn; congruence.
      * split; [reflexivity|]. split; [intros Hc; contradiction|].
        split; [intros _; split; reflexivity|].
        destruct (isTerminalStatus newStatus), (isPaused newStatus);
          cbn; congruence.
  - reflexivity.
Qed.

Lemma status_reply_applied_witness :
  let r := fetchStatus (withTask "running") (Some "completed")
             (mkSession awaitingApproval []) in
  currentStep (ui (fst r)) = None /\ snd r = true.
Proof.
  cbn zeta.
  destruct (status_reply_applied (withTask "running")
              (mkTask "t1" "Search for cats" "running") "completed"
              (mkSession awaitingApproval []) eq_refl)
    as (_ & Hstop & _ & H & _).
  split; [|exact Hstop].
  destruct (H (mkTask "t1" "Search for cats" "running") eq_refl)
    as (_ & Happly).
  destruct (Happly eq_refl ltac:(discriminate)) as (_ & _ & Hclear & _).
  apply Hclear. discriminate.
Defined.

(** *** Action polling *)

(** X19. A poll of the action endpoint that passes its guard makes one
    request and always arms the next poll: after 1000 ms exactly when the
    reply is an action pending approval, after 3000 ms otherwise (no
    content and failures included). A no-content reply clears a step that
    was pending approval and keeps any other; a failure leaves the step.
    A poll that finds another one in flight, or a task that is not
    running, makes no request and arms nothing. *)
Theorem action_poll_interval view task reply s :
  activeTask view = Some task ->
  toLowerCase (status task) = "running" ->
  let r := fetchAgentData view false reply s in
  requests (fst r) = (requests s ++ [ReqFetchActionData (id task)])%list /\
  (snd r = Some 1000 \/ snd r = Some 3000) /\
  (snd r = Some 1000 <->
   exists actionData,
     reply = ActionData actionData /\ pending_approval actionData = true) /\
  (reply = ActionNone ->
   currentStep (ui (fst r))
   = if pendingApproval (ui s) then None else currentStep (ui s)) /\
  (reply = ActionThrew -> currentStep (ui (fst r)) = currentStep (ui s)) /\
  fetchAgentData view true reply s = (s, None) /\
  (forall view',
     (activeTask view' = None \/
      exists task', activeTask view' = Some task' /\
                    toLowerCase (status task') <> "running") ->
     fetchAgentData view' false reply s = (s, None)).
Proof.
  intros Ht Hrun. cbn zeta. unfold fetchAgentData. rewrite Ht, Hrun.
  cbn [String.eqb Ascii.eqb Bool.eqb negb orb].
  split; [|split; [|split; [|split; [|split; [|split]]]]].
  - destruct reply as [d| |]; [destruct (pending_approval d)| |];
      reflexivity.
  - destruct reply as [d| |]; [destruct (pending_approval d)| |]; cbn;
      auto.
  - destruct reply as [d| |]; [destruct (pending_approval d) eqn:Hp| |];
      cbn; split; try discriminate;
      try (intros (a & Ha & Hpa); try discriminate;
           injection Ha as <-; congruence).
    intros _. exists d. split; [reflexivity|exact Hp].
  - intros ->. cbn. unfold pendingApproval.
    destruct (currentStep (ui s)) as [p|]; [|reflexivity].
    destruct (pending_approval p); reflexivity.
  - intros ->. reflexivity.
  - reflexivity.
  - intros view' [Hnone | (task' & Ht' & Hnr)].
    + rewrite Hnone. reflexivity.
    + rewrite Ht'.
      destruct (String.eqb_spec (toLowerCase (status task')) "running");
        [contradiction|reflexivity].
Qed.

Lemma action_poll_interval_witness :
  snd (fetchAgentData (withTask "Running") false
         (ActionData (mkStepData true (Some "click") None)) start)
  = Some 1000.
Proof.
  destruct (action_poll_interval (withTask "Running")
              (mkTask "t1" "Search for cats" "Running")
              (ActionData (mkStepData true (Some "click") None)) start
              eq_refl eq_refl) as (_ & _ & H & _).
  apply H. eexists. split; reflexivity.
Defined.

(** *** Handlers *)

(** X20. Approving is applied locally at once and only once: after a
    successful approve the step is no longer pending, one approve request
    has been made, and in the render that follows neither approve nor
    reject does anything, whatever their replies would be. *)
Theorem approve_is_applied_once view task step s :
  ui s = view ->
  activeTask view = Some task ->
  currentStep view = Some step ->
  pending_approval step = true ->
  stepLoading view = false ->
  let s1 := handleApproveAction view Approved s in
  currentStep (ui s1)
    = Some (mkStepData false (action_name step) (next_goal step)) /\
  requests s1 = (requests s ++ [ReqApproveAction (id task)])%list /\
  stepLoading (ui s1) = false /\
  activeTask (ui s1) = Some task /\
  (forall reply, handleApproveAction (ui s1) reply s1 = s1) /\
  (forall reply, handleRejectAction (ui s1) reply s1 = s1).
Proof.
  intros Hui Ht Hstep Hp Hl. subst view. cbn zeta.
  assert (H1 : handleApproveAction (ui s) Approved s
               = mkSession
                   (setStepLoading false
                      (setCurrentStep
                         (Some (mkStepData false (action_name step)
                                  (next_goal step)))
                         (setStepError None (setStepLoading true (ui s)))))
                   (requests s ++ [ReqApproveAction (id task)])%list).
  { unfold handleApproveAction, pendingApproval.
    rewrite Ht, Hstep, Hp, Hl. unfold on_ui, request. cbn.
    rewrite Hstep. reflexivity. }
  rewrite H1. cbn [ui requests].
  repeat split; try reflexivity; try exact Ht.
  - intros reply. unfold handleApproveAction, pendingApproval. cbn.
    rewrite Ht. reflexivity.
  - intros reply. unfold handleRejectAction, pendingApproval. cbn.
    rewrite Ht. reflexivity.
Qed.

Lemma approve_is_applied_once_witness :
  pendingApproval
    (ui (handleApproveAction awaitingApproval Approved
           (mkSession awaitingApproval []))) = false.
Proof.
  destruct (approve_is_applied_once awaitingApproval
              (mkTask "t1" "Search for cats" "running")
              (mkStepData true (Some "click") None)
              (mkSession awaitingApproval [])
              eq_refl eq_refl eq_refl eq_refl eq_refl) as (H & _).
  unfold pendingApproval. rewrite H. reflexivity.
Defined.

(** X21. Where the message of a failed action goes. A failed approve or
    reject stores it in the step error, which the panel of the active
    task shows; the task and the current step stay as they were, the
    loading flag is cleared, and exactly one call has been made. A failed
    resume stores it in the page error, which only the create form
    renders: while the task is still there it is not shown, and Start New
    Task, the way back to the form, clears it. *)
Theorem failed_action_error_cells view task message s :
  activeTask view = Some task ->
  (pendingApproval view = true -> stepLoading view = false ->
   let a := handleApproveAction view (ApproveThrew message) s in
   let r := handleRejectAction view (Threw message) s in
   stepError (ui a) = Some message /\
   activeTask (ui a) = activeTask (ui s) /\
   currentStep (ui a) = currentStep (ui s) /\
   stepLoading (ui a) = false /\
   requests a = (requests s ++ [ReqApproveAction (id task)])%list /\
   stepError (ui r) = Some message /\
   activeTask (ui r) = activeTask (ui s) /\
   currentStep (ui r) = currentStep (ui s) /\
   stepLoading (ui r) = false /\
   calls (ui r) = (calls (ui s) ++ [CallRejectAction (id task)])%list /\
   (activeTask (ui s) <> None -> message <> "" ->
    shownStepError (ui a) = Some message /\
    shownStepError (ui r) = Some message)) /\
  (isPaused (status task) = true -> isLoading view = false ->
   exists r,
     handleResumeTask view (ResumeThrew message) s = Rendered r /\
     error (ui r) = Some message /\
     activeTask (ui r) = activeTask (ui s) /\
     currentStep (ui r) = currentStep (ui s) /\
     isLoading (ui r) = false /\
     requests r = (requests s ++ [ReqResumeTask (id task)])%list /\
     (activeTask (ui s) <> None -> shownError (ui r) = None) /\
     error (handleStartNewTask (ui r)) = None /\
     shownError (handleStartNewTask (ui r)) = None).
Proof.
  intros Ht. split.
  - intros Hp Hl. cbn zeta.
    unfold handleApproveAction, handleRejectAction. rewrite Ht, Hp, Hl.
    cbn. repeat split; try reflexivity;
      unfold shownStepError; cbn;
      destruct (activeTask (ui s)); try contradiction;
      destruct (String.eqb_spec message ""); try contradiction;
      reflexivity.
  - intros Hp Hl. unfold handleResumeTask. rewrite Ht, Hp, Hl.
    cbn [negb orb]. eexists. split; [reflexivity|].
    cbn. repeat split; try reflexivity.
    + intros Hsome. unfold shownError. cbn.
      destruct (activeTask (ui s)); [reflexivity|contradiction].
    + destruct (handleStartNewTask_resets
                  (setIsLoading false (setError (Some message)
                     (setStepError None (setError None
                        (setIsLoading true (ui s)))))))
        as (_ & _ & He & _).
      exact He.
    + unfold shownError.
      destruct (handleStartNewTask_resets
                  (setIsLoading false (setError (Some message)
                     (setStepError None (setError None
                        (setIsLoading true (ui s)))))))
        as (Ha & _ & He & _).
      cbn zeta in Ha, He. rewrite Ha, He. reflexivity.
Qed.

Lemma failed_action_error_cells_witness :
  exists r,
    handleResumeTask pausedTask
      (ResumeThrew "HTTP error! status: 500 in resumeTask")
      (mkSession pausedTask []) = Rendered r /\
    error (ui r) = Some "HTTP error! status: 500 in resumeTask" /\
    shownError (ui r) = None.
Proof.
  destruct (failed_action_error_cells pausedTask
              (mkTask "t1" "Search for cats" "paused")
              "HTTP error! status: 500 in resumeTask"
              (mkSession pausedTask []) eq_refl) as (_ & H).
  destruct (H eq_refl eq_refl) as (r & Hr & He & _ & _ & _ & _ & Hs & _).
  exists r. split; [exact Hr|]. split; [exact He|].
  apply Hs. discriminate.
Defined.

(** X22. Resuming a paused task stores the status the backend returns,
    [running] when the reply carries none. When the backend answers with
    no content, the updater given to [setActiveTask] reads [data.status]
    of [null]: it throws while React renders, past the handler's [catch],
    and the page does not render again. (Rejecting, which reads
    [data?.status], takes the same empty answer as [paused].) Resume does
    nothing without a paused task. *)
Theorem resume_reply view task s :
  activeTask view = Some task ->
  isPaused (status task) = true ->
  isLoading view = false ->
  (forall data_status,
     exists r,
       handleResumeTask view (Resumed data_status) s = Rendered r /\
       activeTask (ui r)
         = option_map (with_status (status_or_running data_status))
             (activeTask (ui s)) /\
       error (ui r) = None /\ isLoading (ui r) = false /\
       requests r = (requests s ++ [ReqResumeTask (id task)])%list) /\
  (activeTask (ui s) <> None ->
   handleResumeTask view ResumedNull s
   = RenderThrew (requests s ++ [ReqResumeTask (id task)])%list) /\
  (pendingApproval view = true -> stepLoading view = false ->
   activeTask (ui (handleRejectAction view (Returned None) s))
   = option_map (with_status "paused") (activeTask (ui s))) /\
  (forall reply view',
     (activeTask view' = None \/
      exists task', activeTask view' = Some task' /\
                    isPaused (status task') = false) ->
     handleResumeTask view' reply s = Rendered s).
Proof.
  intros Ht Hp Hl. split; [|split; [|split]].
  - intros ds. unfold handleResumeTask. rewrite Ht, Hp, Hl. cbn [negb orb].
    eexists. split; [reflexivity|]. cbn. repeat split; reflexivity.
  - intros Hsome. unfold handleResumeTask. rewrite Ht, Hp, Hl.
    cbn [negb orb]. cbn.
    destruct (activeTask (ui s)); [reflexivity|contradiction].
  - intros Hpa Hsl. unfold handleRejectAction. rewrite Ht, Hpa, Hsl. cbn.
    reflexivity.
  - intros reply view' [Hnone | (task' & Ht' & Hnp)];
      unfold handleResumeTask.
    + rewrite Hnone. reflexivity.
    + rewrite Ht', Hnp. reflexivity.
Qed.

Lemma resume_reply_witness :
  (exists r,
     handleResumeTask pausedTask (Resumed None) (mkSession pausedTask [])
     = Rendered r /\
     activeTask (ui r) = Some (mkTask "t1" "Search for cats" "running")) /\
  handleResumeTask pausedTask ResumedNull (mkSession pausedTask [])
  = RenderThrew [ReqResumeTask "t1"].
Proof.
  destruct (resume_reply pausedTask (mkTask "t1" "Search for cats" "paused")
              (mkSession pausedTask []) eq_refl eq_refl eq_refl)
    as (H & Hnull & _).
  split.
  - destruct (H None) as (r & Hr & Ha & _). exists r. split; assumption.
  - apply Hnull. discriminate.
Defined.



End HomePageProperties.
